(** * ProjectSorrento: the Portfolio Management page

    A shallow embedding of [pages/02_Portfolio_Management.py]: the cached
    loader, the month filter, the sidebar filters, the monthly summary, the
    rating chart data and the display formatter, with the properties the
    specification states about them.

    Modelling conventions.
    - A pandas [DataFrame] is an ordered list of named, typed columns (the
      input is a Parquet file, whose columns are typed).  Null cells (NaN,
      NaT, None) are not modelled.
    - float64 arithmetic is idealised: numbers are rationals ([Q]) and are
      compared with [==].
    - A Python exception is a value of [PyExc]; code that can raise returns
      a [result]; code that also writes to the Streamlit page returns a [ui]. *)

From Stdlib Require Import ZArith QArith Qround Qminmax Qabs.
From Stdlib Require Import List Bool Ascii String Lia Lqa.
From Stdlib Require Import DecimalString DecimalN.
From Stdlib Require Import Permutation Sorted.
Import ListNotations.

Open Scope string_scope.
Open Scope Z_scope.

(** ** Exceptions and results *)

(** The exception classes the page can meet.  All of them derive from
    Python's [Exception]; [OtherException] stands for any further subclass. *)
Inductive PyExc : Type :=
| FileNotFoundError
| ImportError
| KeyError (key : string)
| TypeError
| ValueError
| AttributeError
| ZeroDivisionError
| OtherException (msg : string).

Inductive result (A : Type) : Type :=
| Ok (a : A)
| Raise (e : PyExc).
Arguments Ok {A} a.
Arguments Raise {A} e.

Definition rbind {A B} (m : result A) (k : A -> result B) : result B :=
  match m with
  | Ok a => k a
  | Raise e => Raise e
  end.

Declare Scope result_scope.
Delimit Scope result_scope with result.
Notation "x <- m ;; k" := (rbind m (fun x => k))
  (at level 61, m at next level, right associativity) : result_scope.
Open Scope result_scope.

(** ** Timestamps and monthly periods *)

Record Timestamp : Type := mkTimestamp { year : Z; month : Z; day : Z }.

(** [pd.Period(..., freq='M')]: a calendar month. *)
Definition Period : Type := (Z * Z)%type.

(** [.dt.to_period('M')] on one timestamp. *)
Definition to_period (t : Timestamp) : Period := (year t, month t).

Definition Period_eqb (p q : Period) : bool :=
  (fst p =? fst q) && (snd p =? snd q).

(** ** Series and data frames *)

Inductive Series : Type :=
| SFloat (xs : list Q)             (* float64 / int64 column *)
| SObject (xs : list string)       (* object column of strings *)
| SDatetime (xs : list Timestamp). (* datetime64 column *)

Definition series_len (s : Series) : nat :=
  match s with
  | SFloat xs => List.length xs
  | SObject xs => List.length xs
  | SDatetime xs => List.length xs
  end.

(** One cell of a frame. *)
Inductive Value : Type :=
| VFloat (x : Q)
| VStr (x : string)
| VTime (x : Timestamp).

Definition values (s : Series) : list Value :=
  match s with
  | SFloat xs => map VFloat xs
  | SObject xs => map VStr xs
  | SDatetime xs => map VTime xs
  end.

(** Columns in their order; [pd.DataFrame()] is the empty list. *)
Definition DataFrame : Type := list (string * Series).

Definition empty_frame : DataFrame := [].

Definition columns (df : DataFrame) : list string := map fst df.

(** [col in df.columns] *)
Definition has_column (df : DataFrame) (col : string) : bool :=
  existsb (String.eqb col) (columns df).

(** [len(df)]: the length of the index, which every column shares. *)
Definition nrows (df : DataFrame) : nat :=
  match df with
  | [] => O
  | (_, s) :: _ => series_len s
  end.

(** [df.empty]: some axis has length 0. *)
Definition df_empty (df : DataFrame) : bool :=
  match df with
  | [] => true
  | _ => Nat.eqb (nrows df) 0
  end.

(** [df[col]]: raises [KeyError] when the column is absent. *)
Fixpoint getitem (df : DataFrame) (col : string) : result Series :=
  match df with
  | [] => Raise (KeyError col)
  | (c, s) :: rest => if String.eqb col c then Ok s else getitem rest col
  end.

(** [df[col] = s]: replaces the column in place, or appends a new one. *)
Fixpoint setitem (df : DataFrame) (col : string) (s : Series) : DataFrame :=
  match df with
  | [] => [(col, s)]
  | (c, s0) :: rest =>
      if String.eqb col c then (c, s) :: rest else (c, s0) :: setitem rest col s
  end.

(** [df[[c1; c2; ...]]]: the listed columns, in the listed order. *)
Fixpoint select_columns (df : DataFrame) (cols : list string) : result DataFrame :=
  match cols with
  | [] => Ok []
  | c :: cs =>
      s <- getitem df c ;;
      rest <- select_columns df cs ;;
      Ok ((c, s) :: rest)
  end.

(** Typed column access: the operations below need a particular dtype. *)
Definition as_float (s : Series) : result (list Q) :=
  match s with SFloat xs => Ok xs | _ => Raise TypeError end.

Definition as_object (s : Series) : result (list string) :=
  match s with SObject xs => Ok xs | _ => Raise TypeError end.

(** The [.dt] accessor raises [AttributeError] on a column that is not
    datetime-like. *)
Definition dt (s : Series) : result (list Timestamp) :=
  match s with SDatetime xs => Ok xs | _ => Raise AttributeError end.

(** ** Boolean masks *)

(** [xs[mask]]: the entries whose mask bit is set. *)
Fixpoint select {A} (mask : list bool) (xs : list A) : list A :=
  match mask, xs with
  | b :: mask', x :: xs' => if b then x :: select mask' xs' else select mask' xs'
  | _, _ => []
  end.

(** [m1 & m2] on aligned boolean series. *)
Fixpoint mand (m1 m2 : list bool) : list bool :=
  match m1, m2 with
  | a :: m1', b :: m2' => (a && b) :: mand m1' m2'
  | _, _ => []
  end.

Definition series_select (mask : list bool) (s : Series) : Series :=
  match s with
  | SFloat xs => SFloat (select mask xs)
  | SObject xs => SObject (select mask xs)
  | SDatetime xs => SDatetime (select mask xs)
  end.

(** [df[mask]] *)
Definition loc (df : DataFrame) (mask : list bool) : DataFrame :=
  map (fun cs => (fst cs, series_select mask (snd cs))) df.

(** [value in values] for strings. *)
Definition str_mem (x : string) (values : list string) : bool :=
  existsb (String.eqb x) values.

(** [series.isin(values)] for a list of strings: a numeric cell is equal to
    none of them.  (On a datetime column pandas first tries to read the
    strings as dates; the Loan Record has no such categorical column, and
    the model answers False there as well.) *)
Definition isin (s : Series) (values : list string) : list bool :=
  match s with
  | SObject xs => map (fun x => str_mem x values) xs
  | SFloat xs => map (fun _ => false) xs
  | SDatetime xs => map (fun _ => false) xs
  end.

(** The cell of column [col] in row [i] (positional), if there is one. *)
Definition cell (df : DataFrame) (col : string) (i : nat) : option Value :=
  match getitem df col with
  | Ok s => nth_error (values s) i
  | Raise _ => None
  end.

(** ** The month filter (line 94) *)

(** [df_full[df_full['Date'].dt.to_period('M') == selected_month_period].copy()] *)
Definition df_monthly (df_full : DataFrame) (selected_month_period : Period)
  : result DataFrame :=
  date <- getitem df_full "Date" ;;
  ts <- dt date ;;
  Ok (loc df_full (map (fun t => Period_eqb (to_period t) selected_month_period) ts)).

(** ** The sidebar filters (lines 157-164) *)

(** What the sidebar widgets return. *)
Record FilterSelection : Type := mkSelection {
  selected_franchises : list string;
  selected_sectors : list string;
  selected_ratings : list string;
  selected_products : list string;
  balance_range : Z * Z
}.

(** [balance >= n] and [balance <= n] against a Python int. *)
Definition ge_int (xs : list Q) (n : Z) : list bool :=
  map (fun x => Qle_bool (inject_Z n) x) xs.

Definition le_int (xs : list Q) (n : Z) : list bool :=
  map (fun x => Qle_bool x (inject_Z n)) xs.

Definition filter_mask (df_monthly : DataFrame) (sel : FilterSelection)
  : result (list bool) :=
  franchise <- getitem df_monthly "Franchise" ;;
  sector <- getitem df_monthly "Sector" ;;
  rating <- getitem df_monthly "Credit Rating" ;;
  product <- getitem df_monthly "Product" ;;
  balance_lo <- rbind (getitem df_monthly "Balance") as_float ;;
  balance_hi <- rbind (getitem df_monthly "Balance") as_float ;;
  Ok (mand (isin franchise (selected_franchises sel))
     (mand (isin sector (selected_sectors sel))
     (mand (isin rating (selected_ratings sel))
     (mand (isin product (selected_products sel))
     (mand (ge_int balance_lo (fst (balance_range sel)))
           (le_int balance_hi (snd (balance_range sel)))))))).

Definition df_filtered (df_monthly : DataFrame) (sel : FilterSelection)
  : result DataFrame :=
  mask <- filter_mask df_monthly sel ;;
  Ok (loc df_monthly mask).

(** ** The monthly summary (lines 98-108) *)

Fixpoint qsum (xs : list Q) : Q :=
  match xs with
  | [] => 0%Q
  | x :: rest => (x + qsum rest)%Q
  end.

(** [(a * w)] on aligned series. *)
Fixpoint qmul_series (a w : list Q) : list Q :=
  match a, w with
  | x :: a', y :: w' => (x * y)%Q :: qmul_series a' w'
  | _, _ => []
  end.

Definition Qlt_bool (x y : Q) : bool := negb (Qle_bool y x).

(** [np.average(a, weights=w)]: numpy requires equal shapes, refuses
    weights that sum to zero, and otherwise divides the weighted sum by
    the sum of the weights. *)
Definition np_average (a w : list Q) : result Q :=
  if negb (Nat.eqb (List.length a) (List.length w)) then Raise TypeError
  else
    let scl := qsum w in
    if Qeq_bool scl 0 then Raise ZeroDivisionError
    else Ok (qsum (qmul_series a w) / scl)%Q.

(** [series.sum()] on a numeric column.  (On a column of another dtype the
    page fails a little later, at the comparison with 0; the model raises
    here.) *)
Definition series_sum (s : Series) : result Q :=
  xs <- as_float s ;; Ok (qsum xs).

Record Summary : Type := mkSummary {
  total_balance : Q;
  total_rwa : Q;
  total_nii : Q;
  total_fees : Q;
  facility_count : nat;
  avg_margin : Q
}.

(** The body of [if not df_monthly.empty:] at line 98. *)
Definition summary_of (df_monthly : DataFrame) : result Summary :=
  total_balance <- rbind (getitem df_monthly "Balance") series_sum ;;
  total_rwa <- rbind (getitem df_monthly "RWA") series_sum ;;
  total_nii <- rbind (getitem df_monthly "Net Interest Income") series_sum ;;
  total_fees <- rbind (getitem df_monthly "Fee Income") series_sum ;;
  let facility_count := nrows df_monthly in
  avg_margin <-
    (if Qlt_bool 0 total_balance then
       margin <- rbind (getitem df_monthly "Margin") as_float ;;
       weights <- rbind (getitem df_monthly "Balance") as_float ;;
       np_average margin weights
     else Ok 0%Q) ;;
  Ok (mkSummary total_balance total_rwa total_nii total_fees
                facility_count avg_margin).

(** Lines 98-118: the summary panel; [None] when the month has no rows
    (the page then shows an information message instead). *)
Definition monthly_summary (df_monthly : DataFrame) : result (option Summary) :=
  if negb (df_empty df_monthly) then
    s <- summary_of df_monthly ;; Ok (Some s)
  else Ok None.

(** ** The sidebar options and the Balance slider (lines 124-151) *)

Definition rating_options_all : list string :=
  ["AAA"; "AA"; "A"; "BBB"; "BB"; "B"; "CCC"].

(** [series.unique()]: the distinct values, in order of first appearance. *)
Fixpoint unique (xs : list string) : list string :=
  match xs with
  | [] => []
  | x :: rest => x :: filter (fun y => negb (String.eqb y x)) (unique rest)
  end.

(** [sorted(...)] on strings: ascending, by code points. *)
Fixpoint insert_sorted (x : string) (l : list string) : list string :=
  match l with
  | [] => [x]
  | y :: rest => if String.leb x y then x :: l else y :: insert_sorted x rest
  end.

Definition sorted (l : list string) : list string :=
  fold_right insert_sorted [] l.

(** [series.min()] and [series.max()]; on an empty column pandas yields
    NaN, and [int(nan)] at line 138 raises [ValueError]. *)
Fixpoint qmin_list (x : Q) (xs : list Q) : Q :=
  match xs with
  | [] => x
  | y :: rest => qmin_list (if Qle_bool y x then y else x) rest
  end.

Fixpoint qmax_list (x : Q) (xs : list Q) : Q :=
  match xs with
  | [] => x
  | y :: rest => qmax_list (if Qle_bool x y then y else x) rest
  end.

Definition series_min (xs : list Q) : result Q :=
  match xs with
  | [] => Raise ValueError
  | x :: rest => Ok (qmin_list x rest)
  end.

Definition series_max (xs : list Q) : result Q :=
  match xs with
  | [] => Raise ValueError
  | x :: rest => Ok (qmax_list x rest)
  end.

(** Python's [int(x)] on a float: truncation towards zero. *)
Definition py_int (x : Q) : Z := Z.quot (Qnum x) (Zpos (Qden x)).

(** The arguments handed to [st.sidebar.slider]. *)
Record Slider : Type := mkSlider {
  min_value : Z;
  max_value : Z;
  step : Z
}.

(** Lines 138-142. *)
Definition balance_slider (df_monthly : DataFrame) : result Slider :=
  balance <- rbind (getitem df_monthly "Balance") as_float ;;
  lo <- series_min balance ;;
  hi <- series_max balance ;;
  let min_balance := py_int lo in
  let max_balance := py_int hi in
  let step_val := Z.max 1 ((max_balance - min_balance) / 100) in
  let max_balance :=
    if min_balance >=? max_balance then min_balance + step_val
    else max_balance in
  Ok (mkSlider min_balance max_balance step_val).

(** The options of a categorical filter: [sorted(column.unique())].  The
    selections of the model hold strings, so the column has to hold
    strings. *)
Definition options_of (df_monthly : DataFrame) (col : string)
  : result (list string) :=
  xs <- rbind (getitem df_monthly col) as_object ;;
  Ok (sorted (unique xs)).

(** Line 128: the fixed scale, restricted to the ratings of the month. *)
Definition rating_options (df_monthly : DataFrame) : result (list string) :=
  xs <- rbind (getitem df_monthly "Credit Rating") as_object ;;
  Ok (filter (fun r => str_mem r (unique xs)) rating_options_all).

(** What the widgets return before the user touches them: every option
    selected ([default=...]) and the full slider range ([value=(min, max)]). *)
Definition default_selection (df_monthly : DataFrame) : result FilterSelection :=
  franchise_options <- options_of df_monthly "Franchise" ;;
  sector_options <- options_of df_monthly "Sector" ;;
  rating_options <- rating_options df_monthly ;;
  product_options <- options_of df_monthly "Product" ;;
  slider <- balance_slider df_monthly ;;
  Ok (mkSelection franchise_options sector_options rating_options
                  product_options (min_value slider, max_value slider)).

(** ** The rating chart data (lines 183-186) *)

Definition count_of (x : string) (xs : list string) : nat :=
  List.length (filter (String.eqb x) xs).

(** Insertion into a list kept in descending order of count; an entry
    goes before the entries of equal count, so that [fold_right] keeps
    values of equal count in their order of first appearance. *)
Fixpoint insert_by_count (e : string * nat) (l : list (string * nat))
  : list (string * nat) :=
  match l with
  | [] => [e]
  | e' :: rest =>
      if Nat.leb (snd e') (snd e) then e :: l
      else e' :: insert_by_count e rest
  end.

(** [series.value_counts().reset_index()]: one row per distinct value with
    its number of occurrences, most frequent first. *)
Definition value_counts (xs : list string) : list (string * nat) :=
  fold_right insert_by_count [] (map (fun x => (x, count_of x xs)) (unique xs)).

(** [pd.Categorical(values, categories=cats, ordered=True)]: a value that
    is no category becomes NaN ([None]). *)
Definition categorical (cats : list string) (x : string) : option string :=
  if str_mem x cats then Some x else None.

(** The code of a category: its position in the category list. *)
Fixpoint index_of (x : string) (cats : list string) : nat :=
  match cats with
  | [] => O
  | c :: rest => if String.eqb x c then O else S (index_of x rest)
  end.

(** The sort key of [sort_values] on an ordered categorical: the code,
    with NaN after every category ([na_position='last']). *)
Definition sort_key (cats : list string) (v : option string) : nat :=
  match v with
  | Some x => index_of x cats
  | None => List.length cats
  end.

Fixpoint insert_by_key (cats : list string) (e : option string * nat)
  (l : list (option string * nat)) : list (option string * nat) :=
  match l with
  | [] => [e]
  | e' :: rest =>
      if Nat.leb (sort_key cats (fst e)) (sort_key cats (fst e')) then e :: l
      else e' :: insert_by_key cats e rest
  end.

(** [frame.sort_values('Credit Rating')], ascending. *)
Definition sort_values (cats : list string) (l : list (option string * nat))
  : list (option string * nat) :=
  fold_right (insert_by_key cats) [] l.

(** Lines 183-186: the rows handed to the pie chart, as (rating, count). *)
Definition rating_counts (df_filtered : DataFrame)
  : result (list (option string * nat)) :=
  ratings <- rbind (getitem df_filtered "Credit Rating") as_object ;;
  let counts := value_counts ratings in
  let counts :=
    map (fun e => (categorical rating_options_all (fst e), snd e)) counts in
  Ok (sort_values rating_options_all counts).

(** ** Page output and the outside world *)

(** A message written to the page by [st.error], [st.warning], [st.info]. *)
Inductive UiMsg : Type :=
| StError (text : string)
| StWarning (text : string)
| StInfo (text : string).

(** A computation that writes to the page: the messages shown, and the
    value returned or the exception that escaped. *)
Definition ui (A : Type) : Type := (list UiMsg * result A)%type.

Definition is_error (m : UiMsg) : bool :=
  match m with StError _ => true | _ => false end.

(** The display formats of lines 213-222. *)
Inductive Fmt : Type :=
| FCurrency                (* '£{:,.0f}' *)
| FPercent (prec : nat).   (* '{:.<prec>%}' *)

(** What the page takes from its libraries and its file system without
    this development looking inside: the Parquet reader, and the pandas
    conversions of columns whose dtype is not the expected one. *)
Record Env : Type := mkEnv {
  (* pd.read_parquet(path) *)
  read_parquet : string -> result DataFrame;
  (* pd.to_datetime on a column that is not datetime64 yet *)
  datetime_of : Series -> result (list Timestamp);
  (* pd.to_numeric on a column that is not numeric *)
  numeric_of : Series -> result (list Q);
  (* series.map(fmt.format) on a column that is not numeric *)
  format_other : Fmt -> Series -> result (list string)
}.

(** [pd.to_datetime(series)] *)
Definition to_datetime (env : Env) (s : Series) : result Series :=
  match s with
  | SDatetime xs => Ok (SDatetime xs)
  | _ => xs <- datetime_of env s ;; Ok (SDatetime xs)
  end.

(** [pd.to_numeric(series)] *)
Definition to_numeric (env : Env) (s : Series) : result Series :=
  match s with
  | SFloat xs => Ok (SFloat xs)
  | _ => xs <- numeric_of env s ;; Ok (SFloat xs)
  end.

(** [str(e)] *)
Definition exc_str (e : PyExc) : string :=
  match e with
  | FileNotFoundError => "No such file or directory"
  | ImportError => "Missing optional dependency"
  | KeyError k => "'" ++ k ++ "'"
  | TypeError => "unsupported operand type"
  | ValueError => "invalid value"
  | AttributeError => "Can only use .dt accessor with datetimelike values"
  | ZeroDivisionError => "Weights sum to zero, can't be normalized"
  | OtherException msg => msg
  end.

(** ** The loader (lines 14-36) *)

(** [os.path.join('.', 'data', 'loan_data.parquet')] *)
Definition data_file_path : string := "./data/loan_data.parquet".

(** The body of the [try] block, lines 21-24. *)
Definition load_body (env : Env) : result DataFrame :=
  df <- read_parquet env data_file_path ;;
  date <- getitem df "Date" ;;
  date <- to_datetime env date ;;
  Ok (setitem df "Date" date).

(** [load_loan_data()]: the three [except] clauses in their order. *)
Definition load_loan_data (env : Env) : ui DataFrame :=
  match load_body env with
  | Ok df => ([], Ok df)
  | Raise FileNotFoundError =>
      ([StError ("Error: Data file not found at '" ++ data_file_path ++ "'");
        StError "Ensure the 'data' folder exists in your main app directory and contains 'loan_data.parquet'.";
        StError "You may need to run the `create_data.py` script first."],
       Ok empty_frame)
  | Raise ImportError =>
      ([StError "Module 'pyarrow' not installed. Cannot read Parquet file.";
        StError "Please install it (`pip install pyarrow` in your venv) and restart the app."],
       Ok empty_frame)
  | Raise e =>
      ([StError ("An error occurred loading the data file: " ++ exc_str e)],
       Ok empty_frame)
  end.

(** ** Display strings (lines 211-224) *)

(** Rounding to an integer as the [f] and [%] presentation types do it:
    to the nearest integer, a tie going to the even one. *)
Definition round_half_even (x : Q) : Z :=
  let f := Qfloor x in
  match (x - inject_Z f ?= 1 # 2)%Q with
  | Lt => f
  | Gt => f + 1
  | Eq => if Z.even f then f else f + 1
  end.

(** The decimal digits of a natural number. *)
Definition N_digits (n : N) : string :=
  NilEmpty.string_of_uint (N.to_uint n).

(** The [,] option: a comma before every group of three digits, counted
    from the right.  [ds] holds the digits last-first and [k] counts the
    digits already written to the current group. *)
Fixpoint group_rev (ds : list ascii) (k : nat) : list ascii :=
  match ds with
  | [] => []
  | d :: rest =>
      match rest with
      | [] => [d]
      | _ :: _ =>
          if Nat.eqb k 2 then d :: ","%char :: group_rev rest 0
          else d :: group_rev rest (S k)
      end
  end.

Definition group_thousands (s : string) : string :=
  string_of_list_ascii (rev (group_rev (rev (list_ascii_of_string s)) 0)).

Fixpoint repeat_char (c : ascii) (n : nat) : string :=
  match n with
  | O => EmptyString
  | S n' => String c (repeat_char c n')
  end.

Definition pad_left (width : nat) (c : ascii) (s : string) : string :=
  repeat_char c (width - String.length s) ++ s.

(** [format(x, ',.<prec>f')] when [grouping], [format(x, '.<prec>f')]
    otherwise: sign, integer digits, and [prec] decimals. *)
Definition format_fixed (grouping : bool) (prec : nat) (x : Q) : string :=
  let scale := 10 ^ Z.of_nat prec in
  let m := round_half_even (Qabs x * inject_Z scale) in
  let int_digits := N_digits (Z.to_N (m / scale)) in
  (if Qlt_bool x 0 then "-" else EmptyString)
  ++ (if grouping then group_thousands int_digits else int_digits)
  ++ match prec with
     | O => EmptyString
     | S _ => "." ++ pad_left prec "0"%char (N_digits (Z.to_N (m mod scale)))
     end.

(** ['£{:,.0f}'.format] *)
Definition format_currency (x : Q) : string :=
  "£" ++ format_fixed true 0 x.

(** ['{:.<prec>%}'.format] *)
Definition format_percent (prec : nat) (x : Q) : string :=
  format_fixed false prec (x * 100) ++ "%".

Definition apply_format (f : Fmt) (x : Q) : string :=
  match f with
  | FCurrency => format_currency x
  | FPercent prec => format_percent prec x
  end.

(** [.dt.strftime('%Y-%m-%d')] on one timestamp. *)
Definition strftime (t : Timestamp) : string :=
  pad_left 4 "0"%char (N_digits (Z.to_N (year t))) ++ "-"
  ++ pad_left 2 "0"%char (N_digits (Z.to_N (month t))) ++ "-"
  ++ pad_left 2 "0"%char (N_digits (Z.to_N (day t))).

(** [series.map(fmt.format)] *)
Definition map_format (env : Env) (f : Fmt) (s : Series) : result Series :=
  match s with
  | SFloat xs => Ok (SObject (map (apply_format f) xs))
  | _ => ys <- format_other env f s ;; Ok (SObject ys)
  end.

(** ** The display table (lines 206-238) *)

Definition monetary_cols : list string :=
  ["Balance"; "EAD"; "RWA"; "Interest Income"; "Interest Costs";
   "Net Interest Income"; "Fee Income"].

Definition display_cols : list string :=
  ["Date"; "Facility ID"; "Customer Name"; "Franchise"; "Sector"; "Product";
   "Balance"; "Margin"; "Net Interest Income"; "Fee Income"; "RAROE";
   "Credit Rating"; "PD"; "LGD";
   "EAD"; "RWA"; "Interest Income"; "Interest Costs"].

(** One of the four [for col in [...]: if col in df_display.columns: ...]
    loops; [numeric] says whether the column goes through [pd.to_numeric]
    first (lines 216, 219, 222) or not (line 213). *)
Fixpoint format_columns (env : Env) (f : Fmt) (numeric : bool)
  (cols : list string) (df_display : DataFrame) : result DataFrame :=
  match cols with
  | [] => Ok df_display
  | col :: rest =>
      if has_column df_display col then
        s <- getitem df_display col ;;
        s <- (if numeric then to_numeric env s else Ok s) ;;
        s <- map_format env f s ;;
        format_columns env f numeric rest (setitem df_display col s)
      else format_columns env f numeric rest df_display
  end.

(** The body of the [try] block, lines 211-234. *)
Definition display_body (env : Env) (df_display : DataFrame) : result DataFrame :=
  df_display <- format_columns env FCurrency false monetary_cols df_display ;;
  df_display <- format_columns env (FPercent 2) true ["Margin"; "RAROE"] df_display ;;
  df_display <- format_columns env (FPercent 4) true ["PD"] df_display ;;
  df_display <- format_columns env (FPercent 1) true ["LGD"] df_display ;;
  date <- getitem df_display "Date" ;;
  date <- to_datetime env date ;;
  ts <- dt date ;;
  let df_display := setitem df_display "Date" (SObject (map strftime ts)) in
  let display_cols := filter (has_column df_display) display_cols in
  select_columns df_display display_cols.

(** Lines 206-238: the frame handed to [st.dataframe]. *)
Definition format_display (env : Env) (df_filtered : DataFrame) : ui DataFrame :=
  match display_body env df_filtered with
  | Ok df_display => ([], Ok df_display)
  | Raise e =>
      ([StError ("Error formatting display data: " ++ exc_str e)],
       Ok df_filtered)
  end.

(** ** Reading a monetary display string back *)

Definition strip_prefix (p s : string) : string :=
  if String.prefix p s
  then String.substring (String.length p) (String.length s - String.length p) s
  else s.

Definition remove_char (c : ascii) (s : string) : string :=
  string_of_list_ascii
    (filter (fun a => negb (Ascii.eqb a c)) (list_ascii_of_string s)).

(** The characters [remove_char ","] keeps. *)
Definition not_comma (a : ascii) : bool := negb (Ascii.eqb a ","%char).

(** Reading a decimal integer with an optional minus sign. *)
Definition parse_signed (s : string) : option Z :=
  match s with
  | String "-"%char rest =>
      option_map (fun u => - Z.of_N (N.of_uint u)) (NilEmpty.uint_of_string rest)
  | _ => option_map (fun u => Z.of_N (N.of_uint u)) (NilEmpty.uint_of_string s)
  end.

(** Modelled from the spec: the repository has no parser for display
    strings; section 8 describes one that strips the currency symbol and
    the separators and reads the rest as a number. *)
Definition parse_currency (s : string) : option Z :=
  parse_signed (remove_char ","%char (strip_prefix "£" s)).

(** ** Well-formed frames and row predicates *)

(** Every column has one cell per row of the index. *)
Definition wf_frame (df : DataFrame) : Prop :=
  forall col s, getitem df col = Ok s -> series_len s = nrows df.

(** Row [i] of [df] passes every predicate of the filter pipeline. *)
Definition row_satisfies (df : DataFrame) (p : Period) (sel : FilterSelection)
  (i : nat) : Prop :=
  (exists t, cell df "Date" i = Some (VTime t) /\ to_period t = p)
  /\ (exists x, cell df "Franchise" i = Some (VStr x)
                /\ In x (selected_franchises sel))
  /\ (exists x, cell df "Sector" i = Some (VStr x)
                /\ In x (selected_sectors sel))
  /\ (exists x, cell df "Credit Rating" i = Some (VStr x)
                /\ In x (selected_ratings sel))
  /\ (exists x, cell df "Product" i = Some (VStr x)
                /\ In x (selected_products sel))
  /\ (exists b, cell df "Balance" i = Some (VFloat b)
                /\ (inject_Z (fst (balance_range sel)) <= b)%Q
                /\ (b <= inject_Z (snd (balance_range sel)))%Q).

(** The columns lines 157-164 read. *)
Definition has_filter_columns (df : DataFrame) : Prop :=
  (exists s, getitem df "Franchise" = Ok s)
  /\ (exists s, getitem df "Sector" = Ok s)
  /\ (exists s, getitem df "Credit Rating" = Ok s)
  /\ (exists s, getitem df "Product" = Ok s)
  /\ (exists xs, getitem df "Balance" = Ok (SFloat xs)).

(** ** Sample data *)

Definition sample_full : DataFrame :=
  [("Date", SDatetime [mkTimestamp 2025 1 31; mkTimestamp 2025 2 28;
                       mkTimestamp 2025 2 28; mkTimestamp 2025 2 28]);
   ("Facility ID", SObject ["F1"; "F2"; "F3"; "F4"]);
   ("Franchise", SObject ["North"; "North"; "South"; "South"]);
   ("Sector", SObject ["Retail"; "Energy"; "Retail"; "Energy"]);
   ("Product", SObject ["Term Loan"; "RCF"; "Term Loan"; "RCF"]);
   ("Credit Rating", SObject ["BBB"; "B"; "AAA"; "B"]);
   ("Balance", SFloat [50 # 1; 100 # 1; 300 # 1; 601 # 2]);
   ("Margin", SFloat [3 # 100; 1 # 100; 2 # 100; 1 # 100]);
   ("RWA", SFloat [40 # 1; 80 # 1; 150 # 1; 200 # 1]);
   ("Net Interest Income", SFloat [1 # 1; 1 # 1; 6 # 1; 3 # 1]);
   ("Fee Income", SFloat [0 # 1; 1 # 2; 1 # 1; 1 # 1])].

Definition sample_selection : FilterSelection :=
  mkSelection ["North"; "South"] ["Retail"; "Energy"] ["AAA"; "B"]
              ["Term Loan"; "RCF"] (100, 300).

Definition sample_month : Period := (2025, 2).

Definition sample_monthly : DataFrame :=
  match df_monthly sample_full sample_month with
  | Ok df => df
  | Raise _ => empty_frame
  end.

Definition sample_filtered : DataFrame :=
  match df_filtered sample_monthly sample_selection with
  | Ok df => df
  | Raise _ => empty_frame
  end.

(** A decision procedure for [wf_frame]. *)
Definition wf_frameb (df : DataFrame) : bool :=
  forallb (fun cs => Nat.eqb (series_len (snd cs)) (nrows df)) df.

(** ** The weighted average of the specification *)

(** The formula of the specification, [Σ(Margin_i × Balance_i) / Σ Balance_i]. *)
Definition spec_weighted_margin (margins balances : list Q) : Q :=
  (qsum (qmul_series margins balances) / qsum balances)%Q.

(** The five columns the summary panel reads, as numeric columns. *)
Definition has_summary_columns (df : DataFrame) (balances margins : list Q) : Prop :=
  getitem df "Balance" = Ok (SFloat balances)
  /\ getitem df "Margin" = Ok (SFloat margins)
  /\ (exists xs, getitem df "RWA" = Ok (SFloat xs))
  /\ (exists xs, getitem df "Net Interest Income" = Ok (SFloat xs))
  /\ (exists xs, getitem df "Fee Income" = Ok (SFloat xs)).

(** A month whose single facility is overdrawn. *)
Definition overdrawn_month : DataFrame :=
  [("Date", SDatetime [mkTimestamp 2025 3 31]);
   ("Franchise", SObject ["North"]);
   ("Sector", SObject ["Retail"]);
   ("Product", SObject ["RCF"]);
   ("Credit Rating", SObject ["BB"]);
   ("Balance", SFloat [-100 # 1]);
   ("Margin", SFloat [1 # 100]);
   ("RWA", SFloat [0 # 1]);
   ("Net Interest Income", SFloat [-1 # 1]);
   ("Fee Income", SFloat [0 # 1])].

(** ** The slider step of the specification *)

(** A Balance that is a whole number of currency units. *)
Definition integer_valued (x : Q) : Prop := exists z : Z, (x == inject_Z z)%Q.

(** The step as the specification writes it: [max(1, (max - min)/100)],
    rounded down to an integer. *)
Definition spec_step (lo hi : Q) : Z :=
  Qfloor (Qmax 1 ((hi - lo) / 100)).

(** A month with a single facility whose Balance is not a whole number. *)
Definition single_facility_month : DataFrame :=
  [("Date", SDatetime [mkTimestamp 2025 4 30]);
   ("Franchise", SObject ["North"]);
   ("Sector", SObject ["Retail"]);
   ("Product", SObject ["RCF"]);
   ("Credit Rating", SObject ["A"]);
   ("Balance", SFloat [201 # 2]);
   ("Margin", SFloat [1 # 100]);
   ("RWA", SFloat [80 # 1]);
   ("Net Interest Income", SFloat [1 # 1]);
   ("Fee Income", SFloat [0 # 1])].

(** ** Sample environments *)

Definition no_conversion : Series -> result (list Timestamp) :=
  fun _ => Raise ValueError.

(** The data file is missing. *)
Definition missing_file_env : Env :=
  mkEnv (fun _ => Raise FileNotFoundError)
        no_conversion
        (fun _ => Raise ValueError)
        (fun _ _ => Raise ValueError).

(** The data file holds [sample_full]. *)
Definition sample_env : Env :=
  mkEnv (fun path =>
           if String.eqb path "./data/loan_data.parquet" then Ok sample_full
           else Raise FileNotFoundError)
        no_conversion
        (fun _ => Raise ValueError)
        (fun _ _ => Raise ValueError).

(** ** The chart rows of the specification *)

(** The fixed scale restricted to the ratings present, each with its
    number of facilities. *)
Definition spec_rating_rows (ratings : list string) : list (option string * nat) :=
  map (fun r => (Some r, count_of r ratings))
      (filter (fun r => str_mem r ratings) rating_options_all).

(** ** The schema the display formatter expects *)

(** The columns lines 211-222 format as numbers. *)
Definition numeric_cols : list string :=
  monetary_cols ++ ["Margin"; "RAROE"; "PD"; "LGD"].

Definition is_float (s : Series) : bool :=
  match s with SFloat _ => true | _ => false end.

(** Every numeric column that is present holds numbers, as in the Loan
    Record of the specification. *)
Definition numeric_columns_float (df : DataFrame) : Prop :=
  forall col s, In col numeric_cols -> getitem df col = Ok s -> is_float s = true.

Definition numeric_columns_floatb (df : DataFrame) : bool :=
  forallb (fun col =>
             match getitem df col with
             | Ok s => is_float s
             | Raise _ => true
             end) numeric_cols.

(** A month with two overdrawn facilities. *)
Definition overdrawn_pair_month : DataFrame :=
  [("Date", SDatetime [mkTimestamp 2025 5 31; mkTimestamp 2025 5 31]);
   ("Franchise", SObject ["North"; "South"]);
   ("Sector", SObject ["Retail"; "Retail"]);
   ("Product", SObject ["RCF"; "RCF"]);
   ("Credit Rating", SObject ["BB"; "B"]);
   ("Balance", SFloat [-7 # 2; -1 # 2]);
   ("Margin", SFloat [1 # 100; 1 # 100]);
   ("RWA", SFloat [0 # 1; 0 # 1]);
   ("Net Interest Income", SFloat [0 # 1; 0 # 1]);
   ("Fee Income", SFloat [0 # 1; 0 # 1])].

(** The two-facility scenario of the specification. *)
Definition two_facility_month : DataFrame :=
  [("Date", SDatetime [mkTimestamp 2025 2 28; mkTimestamp 2025 2 28]);
   ("Balance", SFloat [100 # 1; 300 # 1]);
   ("Margin", SFloat [1 # 100; 2 # 100]);
   ("RWA", SFloat [80 # 1; 200 # 1]);
   ("Net Interest Income", SFloat [1 # 1; 6 # 1]);
   ("Fee Income", SFloat [0 # 1; 1 # 1])].

(** * The rest of the page *)

(** ** The month selector (lines 81-90) *)

(** A period counts months; pandas orders and compares periods by this
    number.  For months 1 to 12 two periods with the same number are the
    same pair. *)
Definition period_ordinal (p : Period) : Z :=
  (fst p - 1970) * 12 + (snd p - 1).

Definition Period_leb (p q : Period) : bool :=
  period_ordinal p <=? period_ordinal q.

(** [series.unique()] on periods: the distinct values, in order of first
    appearance. *)
Fixpoint unique_periods (ps : list Period) : list Period :=
  match ps with
  | [] => []
  | p :: rest =>
      p :: filter (fun q => negb (Period_eqb q p)) (unique_periods rest)
  end.

(** [sorted(..., reverse=True)]: descending and stable. *)
Fixpoint insert_desc (p : Period) (l : list Period) : list Period :=
  match l with
  | [] => [p]
  | q :: rest => if Period_leb q p then p :: l else q :: insert_desc p rest
  end.

Definition sorted_reverse (l : list Period) : list Period :=
  fold_right insert_desc [] l.

(** Line 81. *)
Definition available_months (df_full : DataFrame) : result (list Period) :=
  date <- getitem df_full "Date" ;;
  ts <- dt date ;;
  Ok (sorted_reverse (unique_periods (map to_period ts))).

(** [m.strftime('%Y-%m')] *)
Definition period_strftime (p : Period) : string :=
  pad_left 4 "0"%char (N_digits (Z.to_N (fst p))) ++ "-"
  ++ pad_left 2 "0"%char (N_digits (Z.to_N (snd p))).

(** Line 82. *)
Definition month_display_list (available_months : list Period) : list string :=
  map period_strftime available_months.

(** The timestamps a datetime64 column can hold have a four-digit year
    and a month from 1 to 12. *)
Definition valid_period (p : Period) : Prop :=
  1000 <= fst p <= 9999 /\ 1 <= snd p <= 12.

Definition valid_periodb (p : Period) : bool :=
  (1000 <=? fst p) && (fst p <=? 9999) && (1 <=? snd p) && (snd p <=? 12).

Definition valid_dates (df : DataFrame) : Prop :=
  forall ts, getitem df "Date" = Ok (SDatetime ts) ->
             Forall (fun t => valid_period (to_period t)) ts.

Definition valid_datesb (df : DataFrame) : bool :=
  match getitem df "Date" with
  | Ok (SDatetime ts) => forallb (fun t => valid_periodb (to_period t)) ts
  | _ => true
  end.

(** ** The balance-by-sector chart data (line 176) *)

(** The sum of the values whose key is [k]. *)
Definition group_sum (keys : list string) (vals : list Q) (k : string) : Q :=
  qsum (select (map (fun key => String.eqb key k) keys) vals).

(** [frame.groupby(key)[col].sum().reset_index()]: one row per distinct
    key, the keys in ascending order. *)
Definition groupby_sum (keys : list string) (vals : list Q) : list (string * Q) :=
  map (fun k => (k, group_sum keys vals k)) (sorted (unique keys)).

Fixpoint insert_by_balance (e : string * Q) (l : list (string * Q))
  : list (string * Q) :=
  match l with
  | [] => [e]
  | e' :: rest =>
      if Qle_bool (snd e') (snd e) then e :: l
      else e' :: insert_by_balance e rest
  end.

(** [frame.sort_values(by='Balance', ascending=False)].  (pandas does not
    promise an order among rows of equal Balance; this is one of them.) *)
Definition sort_by_balance (l : list (string * Q)) : list (string * Q) :=
  fold_right insert_by_balance [] l.

(** Line 176: the rows handed to the bar chart, as (sector, balance).  As
    for the sidebar options, the Sector column has to hold strings. *)
Definition balance_by_sector (df_filtered : DataFrame)
  : result (list (string * Q)) :=
  sector <- rbind (getitem df_filtered "Sector") as_object ;;
  balance <- rbind (getitem df_filtered "Balance") as_float ;;
  Ok (sort_by_balance (groupby_sum sector balance)).

(** ** Session state and views (lines 38-46) *)

(** [st.session_state]: a dictionary from keys to values. *)
Definition SessionState : Type := list (string * string).

Fixpoint session_get (s : SessionState) (k : string) : option string :=
  match s with
  | [] => None
  | (k', v) :: rest => if String.eqb k k' then Some v else session_get rest k
  end.

Fixpoint session_set (s : SessionState) (k v : string) : SessionState :=
  match s with
  | [] => [(k, v)]
  | (k', v') :: rest =>
      if String.eqb k k' then (k', v) :: rest else (k', v') :: session_set rest k v
  end.

(** Lines 40-41: [if 'pm_view' not in st.session_state: ...]. *)
Definition init_view (s : SessionState) : SessionState :=
  match session_get s "pm_view" with
  | Some _ => s
  | None => session_set s "pm_view" "main"
  end.

(** Lines 44-46. *)
Definition set_view (view_name : string) (s : SessionState) : SessionState :=
  session_set s "pm_view" view_name.

(** ** What a run of the page puts on the screen *)

Inductive Element : Type :=
| EMarkdown (body : string)
| EWrite (body : string)
| ESubheader (body : string)
| ESidebarHeader (body : string)
| ESelectbox (label : string) (options : list string)
| EMultiselect (label : string) (options : list string)
| ESlider (label : string) (args : Slider)
| ECaption (body : string)
| EMetric (column : nat) (label value : string)
| EMsg (m : UiMsg)
| EButton (label key view_name : string) (* on_click=set_view, args=(view_name,) *)
| EBarChart (rows : list (string * Q))
| EPieChart (rows : list (option string * nat))
| EDataframe (df : DataFrame).

(** A run of page code: the elements shown so far, and the value returned
    or the exception that escaped. *)
Definition run (A : Type) : Type := (list Element * result A)%type.

Definition pbind {A B} (m : run A) (k : A -> run B) : run B :=
  match m with
  | (out, Ok a) => ((out ++ fst (k a))%list, snd (k a))
  | (out, Raise e) => (out, Raise e)
  end.

Declare Scope run_scope.
Delimit Scope run_scope with run.
Notation "x <~ m ;; k" := (pbind m (fun x => k))
  (at level 61, m at next level, right associativity) : run_scope.
Notation "m ;;; k" := (pbind m (fun _ => k))
  (at level 61, right associativity) : run_scope.

Definition emit (e : Element) : run unit := ([e], Ok tt).

Definition lift {A} (r : result A) : run A := ([], r).

(** The messages of a [ui] computation go to the screen as they are. *)
Definition run_ui {A} (m : ui A) : run A := (map EMsg (fst m), snd m).

(** What the page takes from outside, beside [Env]: the parser of
    [pd.Period(text, freq='M')] and the Plotly calls, each of which can
    raise. *)
Record Runtime : Type := mkRuntime {
  rt_env : Env;
  (* pd.Period(text, freq='M') *)
  period_of_string : string -> result Period;
  (* import plotly.express as px *)
  import_plotly : result unit;
  (* px.bar(...), fig.update_layout(...), st.plotly_chart(fig) *)
  bar_chart : list (string * Q) -> result unit;
  (* px.pie(...), fig.update_layout(...), st.plotly_chart(fig) *)
  pie_chart : list (option string * nat) -> result unit
}.

(** What the user has chosen in the sidebar, as a function of what each
    widget offers. *)
Record Widgets : Type := mkWidgets {
  (* st.sidebar.selectbox(label, options, index=0); None when nothing is offered *)
  selectbox : string -> list string -> option string;
  (* st.sidebar.multiselect(label, options, default=options) *)
  multiselect : string -> list string -> list string;
  (* st.sidebar.slider(label, min_value, max_value, value=(min_value, max_value), step) *)
  slider : string -> Slider -> Z * Z
}.

(** Streamlit returns choices among what a widget offers. *)
Definition widgets_ok (w : Widgets) : Prop :=
  (forall label options,
      options <> [] ->
      exists x, selectbox w label options = Some x /\ In x options)
  /\ (forall label options, incl (multiselect w label options) options).

(** The widgets before the user touches them. *)
Definition default_widgets : Widgets :=
  mkWidgets (fun _ options => hd_error options)
            (fun _ options => options)
            (fun _ args => (min_value args, max_value args)).

(** ** The page (lines 49-254) *)

(** [f"{n:,}"] on a Python int. *)
Definition format_int_grouped (n : Z) : string :=
  (if n <? 0 then "-" else EmptyString)
  ++ group_thousands (N_digits (Z.to_N (Z.abs n))).

(** [f"{n}"] on a length. *)
Definition format_count (n : nat) : string := N_digits (N.of_nat n).

Open Scope run_scope.

(** Lines 56-62. *)
Definition main_view : run unit :=
  emit (ESubheader "Main Portfolio Overview") ;;;
  emit (EWrite "This is the main landing area for Portfolio Management.") ;;;
  emit (EWrite "Select a sub-section below or using the sidebar filters (when available).") ;;;
  emit (EButton "View Total Book" "view_total_book_btn" "total_book").

(** Lines 97-119. *)
Definition summary_section (df_monthly : DataFrame) (selected_month_str : string)
  : run unit :=
  emit (EMarkdown "#### Monthly Snapshot Summary") ;;;
  summary <~ lift (monthly_summary df_monthly) ;;
  match summary with
       | Some s =>
           emit (EMetric 1 "Total Balance" (format_currency (total_balance s))) ;;;
           emit (EMetric 1 "Facility Count" (format_count (facility_count s))) ;;;
           emit (EMetric 2 "Total RWA" (format_currency (total_rwa s))) ;;;
           emit (EMetric 2 "W. Avg. Margin" (format_percent 2 (avg_margin s))) ;;;
           emit (EMetric 3 "Total NII (Month)" (format_currency (total_nii s))) ;;;
           emit (EMetric 3 "Total Fees (Month)" (format_currency (total_fees s)))
       | None =>
           emit (EMsg (StInfo ("No data available for " ++ selected_month_str
                               ++ " to calculate summaries.")))
       end ;;;
  emit (EWrite "---").

(** The [try] block of lines 169-189. *)
Definition charts_body (rt : Runtime) (df_filtered : DataFrame) : run unit :=
  lift (import_plotly rt) ;;;
  balance_by_sector <~ lift (balance_by_sector df_filtered) ;;
  lift (bar_chart rt balance_by_sector) ;;;
  emit (EBarChart balance_by_sector) ;;;
  rating_counts <~ lift (rating_counts df_filtered) ;;
  lift (pie_chart rt rating_counts) ;;;
  emit (EPieChart rating_counts).

(** Lines 167-198. *)
Definition charts_section (rt : Runtime) (df_filtered : DataFrame) : run unit :=
  if negb (df_empty df_filtered) then
    emit (EMarkdown "#### Filtered Data Visuals") ;;;
    match charts_body rt df_filtered with
         | (out, Ok tt) => (out, Ok tt)
         | (out, Raise ImportError) =>
             ((out ++ [EMsg (StWarning "Plotly library not found. Skipping charts. Install using: `pip install plotly`")])%list,
              Ok tt)
         | (out, Raise e) =>
             ((out ++ [EMsg (StError ("An error occurred generating charts: "
                                      ++ exc_str e))])%list,
              Ok tt)
         end ;;;
    emit (EWrite "---")
  else
    emit (EMsg (StInfo "No data matching current filters to display visuals.")).

(** Lines 201-241. *)
Definition table_section (rt : Runtime) (df_filtered : DataFrame)
  (selected_month_str : string) : run unit :=
  emit (EMarkdown "#### Filtered Data Table") ;;;
  emit (EWrite ("Displaying " ++ format_count (nrows df_filtered)
                ++ " facilities matching filters for "
                ++ selected_month_str ++ ".")) ;;;
  df_display <~ run_ui (format_display (rt_env rt) df_filtered) ;;
  emit (EDataframe df_display).

(** Lines 124-153: the sidebar widgets and what they return. *)
Definition sidebar_filters (w : Widgets) (df_monthly : DataFrame)
  : run FilterSelection :=
  franchise_options <~ lift (options_of df_monthly "Franchise") ;;
  sector_options <~ lift (options_of df_monthly "Sector") ;;
  rating_options <~ lift (rating_options df_monthly) ;;
  product_options <~ lift (options_of df_monthly "Product") ;;
  emit (EMultiselect "Franchise" franchise_options) ;;;
  emit (EMultiselect "Sector" sector_options) ;;;
  emit (EMultiselect "Credit Rating" rating_options) ;;;
  emit (EMultiselect "Product" product_options) ;;;
  args <~ lift (balance_slider df_monthly) ;;
  emit (ESlider "Balance Range (£)" args) ;;;
  let balance_range := slider w "Balance Range (£)" args in
  emit (ECaption ("Selected Balance: £"
                  ++ format_int_grouped (fst balance_range)
                  ++ " - £" ++ format_int_grouped (snd balance_range))) ;;;
  (@nil Element,
   Ok (mkSelection (multiselect w "Franchise" franchise_options)
                   (multiselect w "Sector" sector_options)
                   (multiselect w "Credit Rating" rating_options)
                   (multiselect w "Product" product_options)
                   balance_range)).

(** Lines 122-245. *)
Definition filter_section (rt : Runtime) (w : Widgets) (df_monthly : DataFrame)
  (selected_month_str : string) : run unit :=
  if negb (df_empty df_monthly) then
    sel <~ sidebar_filters w df_monthly ;;
    df_filtered <~ lift (df_filtered df_monthly sel) ;;
    charts_section rt df_filtered ;;;
    table_section rt df_filtered selected_month_str
  else
    emit (EMsg (StWarning ("No data matches the selected filters for "
                           ++ selected_month_str ++ "."))).

(** Lines 90-94.  A selectbox that offers nothing returns [None], and
    [pd.Period(None, freq='M')] is [NaT], which no month equals. *)
Definition monthly_of (rt : Runtime) (df_full : DataFrame)
  (selected_month_str : option string) : result DataFrame :=
  match selected_month_str with
  | Some text =>
      selected_month_period <- period_of_string rt text ;;
      df_monthly df_full selected_month_period
  | None =>
      date <- getitem df_full "Date" ;;
      ts <- dt date ;;
      Ok (loc df_full (map (fun _ => false) ts))
  end.

(** [f"{selected_month_str}"]. *)
Definition fstring (selected_month_str : option string) : string :=
  match selected_month_str with
  | Some text => text
  | None => "None"
  end.

(** Lines 76-249: the body of [if not df_full.empty:] and its [else]. *)
Definition total_book_data (rt : Runtime) (w : Widgets) (df_full : DataFrame)
  : run unit :=
  if negb (df_empty df_full) then
    emit (ESidebarHeader "Filters") ;;;
    available_months <~ lift (available_months df_full) ;;
    let month_display_list := month_display_list available_months in
    emit (ESelectbox "Select Month" month_display_list) ;;;
    let selected_month_str := selectbox w "Select Month" month_display_list in
    df_monthly <~ lift (monthly_of rt df_full selected_month_str) ;;
    summary_section df_monthly (fstring selected_month_str) ;;;
    filter_section rt w df_monthly (fstring selected_month_str)
  else
    emit (EMsg (StWarning "Could not display Portfolio data as the data file failed to load.")).

(** Lines 68-254. *)
Definition total_book_view (rt : Runtime) (w : Widgets) : run unit :=
  emit (ESubheader "Total Book View") ;;;
  df_full <~ run_ui (load_loan_data (rt_env rt)) ;;
  total_book_data rt w df_full ;;;
  emit (EButton "Back to Portfolio Overview" "back_to_main_pm_btn" "main").

(** One run of the script: the session state it leaves and what it shows. *)
Definition page (rt : Runtime) (w : Widgets) (session : SessionState)
  : SessionState * run unit :=
  let session := init_view session in
  (session,
   emit (EMarkdown "<h1 style='text-align: center;'>Portfolio Management</h1>") ;;;
   emit (EWrite "---") ;;;
   match session_get session "pm_view" with
   | Some view =>
       if String.eqb view "main" then main_view
       else if String.eqb view "total_book" then total_book_view rt w
       else (@nil Element, Ok tt)
   | None => (@nil Element, Ok tt)
   end).

(** The buttons a run shows. *)
Definition buttons (out : list Element) : list (string * string * string) :=
  flat_map (fun e => match e with
                     | EButton label key view_name => [(label, key, view_name)]
                     | _ => []
                     end) out.

(** Pressing a button the last run has shown runs its callback on the
    session state that run left. *)
Inductive click (rt : Runtime) (w : Widgets)
  : SessionState -> SessionState -> Prop :=
| click_button (s : SessionState) (label key view_name : string) :
    In (label, key, view_name) (buttons (fst (snd (page rt w s)))) ->
    click rt w s (set_view view_name (fst (page rt w s))).

(** Any number of presses, the widgets changing in between. *)
Inductive clicks (rt : Runtime) : SessionState -> SessionState -> Prop :=
| clicks_none (s : SessionState) : clicks rt s s
| clicks_more (w : Widgets) (s s' s'' : SessionState) :
    clicks rt s s' -> click rt w s' s'' -> clicks rt s s''.

Close Scope run_scope.

(** ** Sample runtimes *)

(** A reader of month strings such as [2025-03], standing in for
    [pd.Period(text, freq='M')] in the samples. *)
Definition read_month (text : string) : result Period :=
  match String.index 0 "-" text with
  | Some i =>
      let y := String.substring 0 i text in
      let m := String.substring (S i) (String.length text - S i) text in
      match NilEmpty.uint_of_string y, NilEmpty.uint_of_string m with
      | Some u, Some v => Ok (Z.of_N (N.of_uint u), Z.of_N (N.of_uint v))
      | _, _ => Raise ValueError
      end
  | None => Raise ValueError
  end.

(** The data file holds [sample_full] and Plotly is installed. *)
Definition sample_rt : Runtime :=
  mkRuntime sample_env read_month (Ok tt) (fun _ => Ok tt) (fun _ => Ok tt).

(** The data file holds [sample_full] and Plotly is missing. *)
Definition no_plotly_rt : Runtime :=
  mkRuntime sample_env read_month (Raise ImportError)
            (fun _ => Ok tt) (fun _ => Ok tt).

(** The data file is missing. *)
Definition missing_file_rt : Runtime :=
  mkRuntime missing_file_env read_month (Ok tt) (fun _ => Ok tt) (fun _ => Ok tt).

(** ** Counting rows *)

(** The number of rows of a month, read off the Date column. *)
Definition rows_in_month (ts : list Timestamp) (p : Period) : nat :=
  List.length (filter (fun t => Period_eqb (to_period t) p) ts).

Fixpoint nat_sum (l : list nat) : nat :=
  match l with
  | [] => O
  | n :: rest => (n + nat_sum rest)%nat
  end.

(** The elements of a list whose key is [k]. *)
Definition group_of {K A : Type} (eqb : K -> K -> bool) (key : A -> K)
  (l : list A) (k : K) : list A :=
  filter (fun a => eqb (key a) k) l.

(** ** More sample data *)

(** A month in which one facility carries a rating outside the scale. *)
Definition off_scale_month : DataFrame :=
  [("Date", SDatetime [mkTimestamp 2025 6 30; mkTimestamp 2025 6 30]);
   ("Franchise", SObject ["North"; "South"]);
   ("Sector", SObject ["Retail"; "Energy"]);
   ("Product", SObject ["RCF"; "RCF"]);
   ("Credit Rating", SObject ["A"; "D"]);
   ("Balance", SFloat [100 # 1; 200 # 1]);
   ("Margin", SFloat [1 # 100; 5 # 100]);
   ("RWA", SFloat [50 # 1; 200 # 1]);
   ("Net Interest Income", SFloat [1 # 1; 10 # 1]);
   ("Fee Income", SFloat [0 # 1; 0 # 1])].

(** A month with whole Balances and ratings on the scale. *)
Definition two_rating_month : DataFrame :=
  [("Date", SDatetime [mkTimestamp 2025 7 31; mkTimestamp 2025 7 31]);
   ("Franchise", SObject ["North"; "South"]);
   ("Sector", SObject ["Retail"; "Energy"]);
   ("Product", SObject ["RCF"; "Term Loan"]);
   ("Credit Rating", SObject ["A"; "BB"]);
   ("Balance", SFloat [100 # 1; 200 # 1]);
   ("Margin", SFloat [1 # 100; 5 # 100]);
   ("RWA", SFloat [50 # 1; 200 # 1]);
   ("Net Interest Income", SFloat [1 # 1; 10 # 1]);
   ("Fee Income", SFloat [0 # 1; 0 # 1])].

(** The data file holds a table without a Date column. *)
Definition dateless_env : Env :=
  mkEnv (fun _ => Ok [("Balance", SFloat [100 # 1])])
        no_conversion
        (fun _ => Raise ValueError)
        (fun _ _ => Raise ValueError).

(** The data file holds a table without the RWA column. *)
Definition no_rwa_frame : DataFrame :=
  [("Date", SDatetime [mkTimestamp 2025 1 31]);
   ("Balance", SFloat [100 # 1])].

Definition no_rwa_rt : Runtime :=
  mkRuntime (mkEnv (fun _ => Ok no_rwa_frame)
                   no_conversion
                   (fun _ => Raise ValueError)
                   (fun _ _ => Raise ValueError))
            read_month (Ok tt) (fun _ => Ok tt) (fun _ => Ok tt).

(** A run shows a data table. *)
Definition shows_table (out : list Element) : Prop :=
  exists df_display, In (EDataframe df_display) out.

(** ** Views and schemas, as predicates *)

(** The session shows one of the two views, or has not been started. *)
Definition view_known (s : SessionState) : Prop :=
  session_get s "pm_view" = None
  \/ session_get s "pm_view" = Some "main"
  \/ session_get s "pm_view" = Some "total_book".

(** The columns the page reads outside any [try], with the dtypes of the
    Loan Record. *)
Definition loan_schema (df : DataFrame) : Prop :=
  (exists xs, getitem df "Franchise" = Ok (SObject xs))
  /\ (exists xs, getitem df "Sector" = Ok (SObject xs))
  /\ (exists xs, getitem df "Credit Rating" = Ok (SObject xs))
  /\ (exists xs, getitem df "Product" = Ok (SObject xs))
  /\ (exists xs, getitem df "Balance" = Ok (SFloat xs))
  /\ (exists xs, getitem df "Margin" = Ok (SFloat xs))
  /\ (exists xs, getitem df "RWA" = Ok (SFloat xs))
  /\ (exists xs, getitem df "Net Interest Income" = Ok (SFloat xs))
  /\ (exists xs, getitem df "Fee Income" = Ok (SFloat xs)).

(** The Period parser reads back the month strings of this list. *)
Definition reads_months (rt : Runtime) (months : list Period) : Prop :=
  forall p, In p months -> period_of_string rt (period_strftime p) = Ok p.

Definition back_button : string * string * string :=
  ("Back to Portfolio Overview", "back_to_main_pm_btn", "main").

Definition total_book_button : string * string * string :=
  ("View Total Book", "view_total_book_btn", "total_book").

(** A piece of page code that shows no button, however it ends. *)
Definition no_buttons {A} (m : run A) : Prop := buttons (fst m) = [].

(** * Properties *)

(** ** Results *)

Lemma rbind_Ok {A B} (m : result A) (k : A -> result B) (b : B) :
  rbind m k = Ok b -> exists a, m = Ok a /\ k a = Ok b.
Proof.
  destruct m as [a|e]; simpl; intros H.
  - exists a; split; [reflexivity | exact H].
  - discriminate H.
Qed.

Lemma Period_eqb_eq (p q : Period) : Period_eqb p q = true <-> p = q.
Proof.
  destruct p as [y m], q as [y' m']; unfold Period_eqb; simpl.
  rewrite andb_true_iff, !Z.eqb_eq. split.
  - intros [-> ->]; reflexivity.
  - intros H; inversion H; split; reflexivity.
Qed.


Ltac inv_rbind H :=
  let a := fresh "a" in
  let Ha := fresh "Hget" in
  apply rbind_Ok in H; destruct H as (a & Ha & H).

(** ** Masks and row selection *)

Section Masks.
Context {A : Type}.

Lemma select_nil_r (m : list bool) : select m (@nil A) = [].
Proof. destruct m as [|[] m]; reflexivity. Qed.

Lemma select_In (m : list bool) (xs : list A) (v : A) :
  In v (select m xs) -> In v xs.
Proof.
  revert xs; induction m as [|b m IH]; intros [|x xs]; simpl; try tauto.
  destruct b; simpl; intros H.
  - destruct H as [H|H]; [left; exact H | right; apply IH; exact H].
  - right; apply IH; exact H.
Qed.

Lemma select_mand_l (m1 m2 : list bool) (xs : list A) (v : A) :
  In v (select (mand m1 m2) xs) -> In v (select m1 xs).
Proof.
  revert m2 xs; induction m1 as [|a m1 IH]; intros [|b m2] [|x xs];
    simpl; try tauto.
  destruct a, b; simpl; intros H.
  - destruct H as [H|H]; [left; exact H | right; eapply IH; exact H].
  - right; eapply IH; exact H.
  - eapply IH; exact H.
  - eapply IH; exact H.
Qed.

Lemma select_mand_r (m1 m2 : list bool) (xs : list A) (v : A) :
  In v (select (mand m1 m2) xs) -> In v (select m2 xs).
Proof.
  revert m2 xs; induction m1 as [|a m1 IH]; intros [|b m2] [|x xs];
    simpl; try tauto.
  destruct a, b; simpl; intros H.
  - destruct H as [H|H]; [left; exact H | right; eapply IH; exact H].
  - eapply IH; exact H.
  - right; eapply IH; exact H.
  - eapply IH; exact H.
Qed.

Lemma select_all_false (m : list bool) (xs : list A) :
  Forall (fun b => b = false) m -> select m xs = [].
Proof.
  intros H; revert xs; induction H as [|b m Hb _ IH]; intros [|x xs];
    simpl; try reflexivity.
  rewrite Hb; apply IH.
Qed.

Lemma select_length_eq {B : Type} (m : list bool) (xs : list A) (ys : list B) :
  List.length xs = List.length ys ->
  List.length (select m xs) = List.length (select m ys).
Proof.
  revert xs ys; induction m as [|b m IH]; intros [|x xs] [|y ys];
    simpl; intros H; try reflexivity; try discriminate H.
  injection H as H. destruct b; simpl; rewrite (IH xs ys H); reflexivity.
Qed.
End Masks.

Lemma select_map {A B} (f : A -> B) (m : list bool) (xs : list A) :
  select m (map f xs) = map f (select m xs).
Proof.
  revert xs; induction m as [|b m IH]; intros [|x xs]; simpl; try reflexivity.
  destruct b; simpl; rewrite IH; reflexivity.
Qed.

(** A mask computed cell by cell from a column keeps, in any column
    computed from the same cells, only the entries whose cell passes. *)
Lemma select_map_In {A B} (f : A -> bool) (g : A -> B) (xs : list A) (v : B) :
  In v (select (map f xs) (map g xs)) ->
  exists x, v = g x /\ f x = true /\ In x xs.
Proof.
  induction xs as [|x xs IH]; simpl; [tauto|].
  destruct (f x) eqn:Hf; simpl; intros H.
  - destruct H as [H|H].
    + exists x; auto.
    + destruct (IH H) as (y & ? & ? & ?); exists y; auto.
  - destruct (IH H) as (y & ? & ? & ?); exists y; auto.
Qed.

Lemma mand_all_false_l (m1 m2 : list bool) :
  Forall (fun b => b = false) m1 -> Forall (fun b => b = false) (mand m1 m2).
Proof.
  intros H; revert m2; induction H as [|a m1 Ha _ IH]; intros [|b m2];
    simpl; constructor.
  - rewrite Ha; reflexivity.
  - apply IH.
Qed.

Lemma isin_nil (s : Series) : Forall (fun b => b = false) (isin s []).
Proof.
  destruct s as [xs|xs|xs]; simpl; induction xs; simpl; constructor; auto.
Qed.

(** ** Frames *)

Lemma values_length (s : Series) : List.length (values s) = series_len s.
Proof. destruct s; simpl; apply length_map. Qed.

Lemma values_select (m : list bool) (s : Series) :
  values (series_select m s) = select m (values s).
Proof. destruct s; simpl; rewrite select_map; reflexivity. Qed.

Lemma getitem_loc (df : DataFrame) (m : list bool) (col : string) :
  getitem (loc df m) col = rbind (getitem df col) (fun s => Ok (series_select m s)).
Proof.
  induction df as [|[c s] df IH]; simpl; [reflexivity|].
  destruct (String.eqb col c); [reflexivity | exact IH].
Qed.

Lemma getitem_loc_Ok (df : DataFrame) (m : list bool) (col : string) (s : Series) :
  getitem df col = Ok s -> getitem (loc df m) col = Ok (series_select m s).
Proof. intros H; rewrite getitem_loc, H; reflexivity. Qed.

Lemma getitem_head (c : string) (s : Series) (df : DataFrame) :
  getitem ((c, s) :: df) c = Ok s.
Proof. simpl. rewrite String.eqb_refl. reflexivity. Qed.

Lemma wf_loc (df : DataFrame) (m : list bool) :
  wf_frame df -> wf_frame (loc df m).
Proof.
  intros Hwf col s' H. rewrite getitem_loc in H.
  inv_rbind H. injection H as <-.
  destruct df as [|[c0 s0] df]; [discriminate Hget|].
  change (nrows (loc ((c0, s0) :: df) m)) with (series_len (series_select m s0)).
  rewrite <- !values_length, !values_select.
  apply select_length_eq. rewrite !values_length.
  rewrite (Hwf _ _ Hget). symmetry. apply (Hwf c0). apply getitem_head.
Qed.

Lemma cell_of_wf (df : DataFrame) (col : string) (s : Series) (i : nat) :
  wf_frame df -> getitem df col = Ok s -> (i < nrows df)%nat ->
  exists v, cell df col i = Some v /\ In v (values s).
Proof.
  intros Hwf Hget Hi. unfold cell. rewrite Hget.
  destruct (nth_error (values s) i) as [v|] eqn:Hn.
  - exists v; split; [reflexivity | eapply nth_error_In; exact Hn].
  - apply nth_error_None in Hn. rewrite values_length, (Hwf _ _ Hget) in Hn. lia.
Qed.

Lemma nrows_loc_all_false (df : DataFrame) (m : list bool) :
  Forall (fun b => b = false) m -> nrows (loc df m) = O.
Proof.
  intros H. destruct df as [|[c s] df]; [reflexivity|].
  simpl. rewrite <- values_length, values_select, select_all_false by exact H.
  reflexivity.
Qed.

Lemma df_empty_nrows (df : DataFrame) : nrows df = O -> df_empty df = true.
Proof. destruct df as [|[c s] df]; simpl; [reflexivity|]. intros ->. reflexivity. Qed.

(** ** The filter pipeline *)

Lemma str_mem_In (x : string) (l : list string) : str_mem x l = true <-> In x l.
Proof.
  unfold str_mem. rewrite existsb_exists. split.
  - intros (y & Hy & He). apply String.eqb_eq in He. subst y. exact Hy.
  - intros H. exists x. split; [exact H | apply String.eqb_refl].
Qed.

Lemma isin_select_In (s : Series) (vals : list string) (v : Value) :
  In v (select (isin s vals) (values s)) -> exists x, v = VStr x /\ In x vals.
Proof.
  destruct s as [xs|xs|xs]; simpl; intros H.
  - rewrite select_all_false in H; [destruct H|].
    induction xs; simpl; constructor; auto.
  - apply select_map_In in H. destruct H as (x & -> & Hm & _).
    exists x. split; [reflexivity | apply str_mem_In; exact Hm].
  - rewrite select_all_false in H; [destruct H|].
    induction xs; simpl; constructor; auto.
Qed.

Lemma df_monthly_inv (df_full : DataFrame) (p : Period) (dfm : DataFrame) :
  df_monthly df_full p = Ok dfm ->
  exists ts, getitem df_full "Date" = Ok (SDatetime ts)
             /\ dfm = loc df_full (map (fun t => Period_eqb (to_period t) p) ts).
Proof.
  unfold df_monthly. intros H. inv_rbind H. inv_rbind H.
  destruct a as [xs|xs|xs]; try discriminate Hget0.
  injection Hget0 as ->. injection H as <-. exists a0. auto.
Qed.

Lemma filter_mask_inv (dfm : DataFrame) (sel : FilterSelection) (mask : list bool) :
  filter_mask dfm sel = Ok mask ->
  exists f s r p b,
    getitem dfm "Franchise" = Ok f /\ getitem dfm "Sector" = Ok s
    /\ getitem dfm "Credit Rating" = Ok r /\ getitem dfm "Product" = Ok p
    /\ getitem dfm "Balance" = Ok (SFloat b)
    /\ mask = mand (isin f (selected_franchises sel))
             (mand (isin s (selected_sectors sel))
             (mand (isin r (selected_ratings sel))
             (mand (isin p (selected_products sel))
             (mand (ge_int b (fst (balance_range sel)))
                   (le_int b (snd (balance_range sel))))))).
Proof.
  unfold filter_mask. intros H.
  apply rbind_Ok in H. destruct H as (f & Hf & H).
  apply rbind_Ok in H. destruct H as (s & Hs & H).
  apply rbind_Ok in H. destruct H as (r & Hr & H).
  apply rbind_Ok in H. destruct H as (p & Hp & H).
  apply rbind_Ok in H. destruct H as (b & Hb & H).
  apply rbind_Ok in H. destruct H as (b' & Hb' & H).
  apply rbind_Ok in Hb. destruct Hb as (sb & Hsb & Hb).
  apply rbind_Ok in Hb'. destruct Hb' as (sb' & Hsb' & Hb').
  rewrite Hsb in Hsb'. injection Hsb' as <-.
  destruct sb as [xs|xs|xs]; try discriminate Hb.
  injection Hb as ->. injection Hb' as <-. injection H as <-.
  exists f, s, r, p, b. repeat split; assumption.
Qed.

Lemma has_filter_columns_mask (dfm : DataFrame) (sel : FilterSelection) :
  has_filter_columns dfm -> exists mask, filter_mask dfm sel = Ok mask.
Proof.
  intros ((f & Hf) & (s & Hs) & (r & Hr) & (p & Hp) & (b & Hb)).
  unfold filter_mask. rewrite Hf, Hs, Hr, Hp, Hb. simpl. eauto.
Qed.

(** C1.  Every row of the filtered result passes all six predicates at
    once: its Date lies in the selected month, its Franchise, Sector,
    Credit Rating and Product are members of the selected sets, and its
    Balance lies in the selected range, both ends included.  So no row
    that violates a predicate is returned. *)
Theorem filtered_rows_satisfy_all
  (df_full dfm dff : DataFrame) (p : Period) (sel : FilterSelection) :
  wf_frame df_full ->
  df_monthly df_full p = Ok dfm ->
  df_filtered dfm sel = Ok dff ->
  forall i, (i < nrows dff)%nat -> row_satisfies dff p sel i.
Proof.
  intros Hwf Hm Hf i Hi.
  apply df_monthly_inv in Hm. destruct Hm as (ts & Hdate & ->).
  unfold df_filtered in Hf. apply rbind_Ok in Hf.
  destruct Hf as (mask & Hmask & Hf). injection Hf as <-.
  apply filter_mask_inv in Hmask.
  destruct Hmask as (f & s & r & pr & b & Hf & Hs & Hr & Hp & Hb & Hmask).
  set (m0 := map (fun t => Period_eqb (to_period t) p) ts) in *.
  assert (Hwf' : wf_frame (loc (loc df_full m0) mask))
    by (apply wf_loc, wf_loc, Hwf).
  pose proof (getitem_loc_Ok _ mask _ _ (getitem_loc_Ok _ m0 _ _ Hdate)) as Gd.
  pose proof (getitem_loc_Ok _ mask _ _ Hf) as Gf.
  pose proof (getitem_loc_Ok _ mask _ _ Hs) as Gs.
  pose proof (getitem_loc_Ok _ mask _ _ Hr) as Gr.
  pose proof (getitem_loc_Ok _ mask _ _ Hp) as Gp.
  pose proof (getitem_loc_Ok _ mask _ _ Hb) as Gb.
  unfold row_satisfies. repeat split.
  - destruct (cell_of_wf _ _ _ i Hwf' Gd Hi) as (v & Hc & Hin).
    rewrite values_select in Hin. apply select_In in Hin.
    rewrite values_select in Hin. apply select_map_In in Hin.
    destruct Hin as (t & -> & Ht & _).
    exists t. split; [exact Hc | apply Period_eqb_eq; exact Ht].
  - destruct (cell_of_wf _ _ _ i Hwf' Gf Hi) as (v & Hc & Hin).
    rewrite values_select, Hmask in Hin.
    apply select_mand_l, isin_select_In in Hin.
    destruct Hin as (x & -> & Hx). exists x; auto.
  - destruct (cell_of_wf _ _ _ i Hwf' Gs Hi) as (v & Hc & Hin).
    rewrite values_select, Hmask in Hin.
    apply select_mand_r, select_mand_l, isin_select_In in Hin.
    destruct Hin as (x & -> & Hx). exists x; auto.
  - destruct (cell_of_wf _ _ _ i Hwf' Gr Hi) as (v & Hc & Hin).
    rewrite values_select, Hmask in Hin.
    apply select_mand_r, select_mand_r, select_mand_l, isin_select_In in Hin.
    destruct Hin as (x & -> & Hx). exists x; auto.
  - destruct (cell_of_wf _ _ _ i Hwf' Gp Hi) as (v & Hc & Hin).
    rewrite values_select, Hmask in Hin.
    apply select_mand_r, select_mand_r, select_mand_r, select_mand_l,
      isin_select_In in Hin.
    destruct Hin as (x & -> & Hx). exists x; auto.
  - destruct (cell_of_wf _ _ _ i Hwf' Gb Hi) as (v & Hc & Hin).
    rewrite values_select, Hmask in Hin.
    pose proof Hin as Hin'.
    apply select_mand_r, select_mand_r, select_mand_r, select_mand_r,
      select_mand_l in Hin.
    apply select_mand_r, select_mand_r, select_mand_r, select_mand_r,
      select_mand_r in Hin'.
    apply select_map_In in Hin. destruct Hin as (x & -> & Hlo & _).
    apply select_map_In in Hin'. destruct Hin' as (x' & Hx' & Hhi & _).
    injection Hx' as <-.
    exists x. repeat split; [exact Hc | |]; apply Qle_bool_iff; assumption.
Qed.

Lemma wf_frameb_sound (df : DataFrame) : wf_frameb df = true -> wf_frame df.
Proof.
  unfold wf_frameb, wf_frame. generalize (nrows df) as n.
  induction df as [|[c s] df IH]; simpl; intros n H col s' Hget.
  - discriminate Hget.
  - apply andb_true_iff in H. destruct H as [H1 H2].
    destruct (String.eqb col c).
    + injection Hget as <-. apply Nat.eqb_eq. exact H1.
    + eapply IH; eassumption.
Qed.

Lemma filtered_rows_satisfy_all_witness :
  exists dfm dff,
    df_monthly sample_full sample_month = Ok dfm
    /\ df_filtered dfm sample_selection = Ok dff
    /\ (1 < nrows dff)%nat
    /\ row_satisfies dff sample_month sample_selection 1.
Proof.
  eexists. eexists.
  split; [vm_compute; reflexivity|].
  split; [vm_compute; reflexivity|].
  split; [vm_compute; lia|].
  eapply (filtered_rows_satisfy_all sample_full).
  - apply wf_frameb_sound. reflexivity.
  - vm_compute. reflexivity.
  - vm_compute. reflexivity.
  - vm_compute. lia.
Defined.

(** C3.  When the four categorical selections are all empty the filter
    returns, and what it returns has no rows: an empty selection excludes
    every row, it does not switch the constraint off. *)
Theorem empty_selection_empty_result (dfm : DataFrame) (lo hi : Z) :
  has_filter_columns dfm ->
  exists dff,
    df_filtered dfm (mkSelection [] [] [] [] (lo, hi)) = Ok dff
    /\ nrows dff = O
    /\ df_empty dff = true
    /\ (forall col s, getitem dff col = Ok s -> series_len s = O).
Proof.
  intros Hcols.
  destruct (has_filter_columns_mask dfm (mkSelection [] [] [] [] (lo, hi)) Hcols)
    as (mask & Hmask).
  unfold df_filtered. rewrite Hmask. simpl.
  exists (loc dfm mask). split; [reflexivity|].
  apply filter_mask_inv in Hmask.
  destruct Hmask as (f & s & r & p & b & _ & _ & _ & _ & _ & ->). simpl.
  assert (Hfalse : Forall (fun b => b = false)
            (mand (isin f [])
               (mand (isin s [])
                  (mand (isin r [])
                     (mand (isin p []) (mand (ge_int b lo) (le_int b hi)))))))
    by (apply mand_all_false_l, isin_nil).
  assert (Hn := nrows_loc_all_false dfm _ Hfalse).
  split; [exact Hn|]. split; [apply df_empty_nrows; exact Hn|].
  intros col s' Hget. rewrite getitem_loc in Hget.
  apply rbind_Ok in Hget. destruct Hget as (s0 & _ & Hs0). injection Hs0 as <-.
  rewrite <- values_length, values_select, select_all_false by exact Hfalse.
  reflexivity.
Qed.

Lemma empty_selection_empty_result_witness :
  exists dff,
    df_filtered sample_monthly (mkSelection [] [] [] [] (0, 1000)) = Ok dff
    /\ nrows dff = O
    /\ df_empty dff = true
    /\ (forall col s, getitem dff col = Ok s -> series_len s = O).
Proof.
  apply (empty_selection_empty_result sample_monthly 0 1000).
  repeat split; eexists; vm_compute; reflexivity.
Defined.

(** ** The monthly summary *)

Lemma Qlt_bool_iff (x y : Q) : Qlt_bool x y = true <-> (x < y)%Q.
Proof.
  unfold Qlt_bool. rewrite negb_true_iff. split.
  - intros H. apply Qnot_le_lt. intros Hle.
    apply Qle_bool_iff in Hle. congruence.
  - intros H. destruct (Qle_bool y x) eqn:E; [|reflexivity].
    apply Qle_bool_iff in E. exfalso. exact (Qlt_not_le _ _ H E).
Qed.

Lemma Qlt_bool_false_iff (x y : Q) : Qlt_bool x y = false <-> (y <= x)%Q.
Proof.
  unfold Qlt_bool. rewrite negb_false_iff. apply Qle_bool_iff.
Qed.

Lemma np_average_pos (a w : list Q) :
  List.length a = List.length w -> (0 < qsum w)%Q ->
  np_average a w = Ok (spec_weighted_margin a w).
Proof.
  intros Hlen Hpos. unfold np_average.
  rewrite Hlen, Nat.eqb_refl. simpl.
  destruct (Qeq_bool (qsum w) 0) eqn:E.
  - apply Qeq_bool_eq in E. rewrite E in Hpos. exfalso.
    exact (Qlt_irrefl _ Hpos).
  - reflexivity.
Qed.

(** What the summary panel computes on a month with rows. *)
Lemma monthly_summary_value (dfm : DataFrame) (bal mar : list Q) :
  wf_frame dfm -> df_empty dfm = false ->
  has_summary_columns dfm bal mar ->
  exists s, monthly_summary dfm = Ok (Some s)
            /\ total_balance s = qsum bal
            /\ facility_count s = nrows dfm
            /\ avg_margin s =
                 if Qlt_bool 0 (qsum bal) then spec_weighted_margin mar bal
                 else 0%Q.
Proof.
  intros Hwf Hne (Hb & Hm & (rwa & Hr) & (nii & Hn) & (fee & Hf)).
  unfold monthly_summary, summary_of. rewrite Hne. simpl.
  rewrite Hb, Hr, Hn, Hf. simpl.
  destruct (Qlt_bool 0 (qsum bal)) eqn:E.
  - rewrite Hm. simpl.
    rewrite np_average_pos.
    + simpl. eexists. split; [reflexivity|]. simpl. auto.
    + pose proof (Hwf _ _ Hb) as H1. pose proof (Hwf _ _ Hm) as H2.
      simpl in H1, H2. congruence.
    + apply Qlt_bool_iff. exact E.
  - simpl. eexists. split; [reflexivity|]. simpl. auto.
Qed.

(** C2, as amended.  On a month with rows whose total Balance is strictly
    positive the summary panel's weighted-average Margin is
    [Σ(Margin_i × Balance_i) / Σ Balance_i] over the month-filtered rows,
    and it is 0 when the total Balance is 0. *)
Theorem avg_margin_weighted (dfm : DataFrame) (bal mar : list Q) :
  wf_frame dfm -> df_empty dfm = false ->
  has_summary_columns dfm bal mar ->
  exists s, monthly_summary dfm = Ok (Some s)
            /\ ((0 < qsum bal)%Q ->
                (avg_margin s == spec_weighted_margin mar bal)%Q)
            /\ ((qsum bal == 0)%Q -> (avg_margin s == 0)%Q).
Proof.
  intros Hwf Hne Hcols.
  destruct (monthly_summary_value dfm bal mar Hwf Hne Hcols)
    as (s & Hs & _ & _ & Havg).
  exists s. split; [exact Hs|]. rewrite Havg. split.
  - intros Hpos. apply Qlt_bool_iff in Hpos. rewrite Hpos. reflexivity.
  - intros Hz. destruct (Qlt_bool 0 (qsum bal)) eqn:E; [|reflexivity].
    apply Qlt_bool_iff in E. rewrite Hz in E. exfalso. exact (Qlt_irrefl _ E).
Qed.

Lemma avg_margin_weighted_witness :
  exists s, monthly_summary sample_monthly = Ok (Some s)
            /\ ((0 < qsum [100 # 1; 300 # 1; 601 # 2])%Q ->
                (avg_margin s ==
                 spec_weighted_margin [1 # 100; 2 # 100; 1 # 100]
                                      [100 # 1; 300 # 1; 601 # 2])%Q)
            /\ ((qsum [100 # 1; 300 # 1; 601 # 2] == 0)%Q -> (avg_margin s == 0)%Q).
Proof.
  apply (avg_margin_weighted sample_monthly).
  - apply wf_frameb_sound. reflexivity.
  - reflexivity.
  - repeat split; try (eexists; vm_compute; reflexivity); reflexivity.
Defined.

(** C2, as stated, fails: on a month whose total Balance is negative the
    panel shows 0, which is not the value of the formula. *)
Lemma avg_margin_not_weighted_on_negative_total :
  df_empty overdrawn_month = false
  /\ exists s, monthly_summary overdrawn_month = Ok (Some s)
               /\ ~ (avg_margin s == spec_weighted_margin [1 # 100] [-100 # 1])%Q.
Proof.
  split; [reflexivity|].
  eexists. split; [vm_compute; reflexivity|].
  simpl. intros H. vm_compute in H. discriminate H.
Qed.

(** C10.  On a month with rows whose total Balance is strictly negative
    the panel shows a weighted-average Margin of 0; the formula
    [Σ(Margin_i × Balance_i) / Σ Balance_i] is not evaluated, so whenever
    its value is not 0 the panel does not show it.  The weighted average is
    what the panel shows only when the total Balance is strictly positive. *)
Theorem avg_margin_zero_on_negative_total (dfm : DataFrame) (bal mar : list Q) :
  wf_frame dfm -> df_empty dfm = false ->
  has_summary_columns dfm bal mar ->
  (qsum bal < 0)%Q ->
  exists s, monthly_summary dfm = Ok (Some s)
            /\ avg_margin s = 0%Q
            /\ (~ (spec_weighted_margin mar bal == 0)%Q ->
                ~ (avg_margin s == spec_weighted_margin mar bal)%Q).
Proof.
  intros Hwf Hne Hcols Hneg.
  destruct (monthly_summary_value dfm bal mar Hwf Hne Hcols)
    as (s & Hs & _ & _ & Havg).
  exists s. split; [exact Hs|].
  assert (E : Qlt_bool 0 (qsum bal) = false)
    by (apply Qlt_bool_false_iff, Qlt_le_weak, Hneg).
  rewrite E in Havg. split; [exact Havg|].
  intros Hnz Heq. apply Hnz. rewrite <- Heq, Havg. reflexivity.
Qed.

Lemma avg_margin_zero_on_negative_total_witness :
  exists s, monthly_summary overdrawn_month = Ok (Some s)
            /\ avg_margin s = 0%Q
            /\ (~ (spec_weighted_margin [1 # 100] [-100 # 1] == 0)%Q ->
                ~ (avg_margin s == spec_weighted_margin [1 # 100] [-100 # 1])%Q).
Proof.
  apply (avg_margin_zero_on_negative_total overdrawn_month).
  - apply wf_frameb_sound. reflexivity.
  - reflexivity.
  - repeat split; try (eexists; vm_compute; reflexivity); reflexivity.
  - reflexivity.
Defined.

(** ** The Balance slider *)

Lemma py_int_inject_Z (x : Q) (z : Z) : (x == inject_Z z)%Q -> py_int x = z.
Proof.
  destruct x as [n d]. unfold Qeq, py_int. simpl. intros H.
  rewrite Z.mul_1_r in H. subst n. apply Z.quot_mul. discriminate.
Qed.

Lemma balance_slider_value (dfm : DataFrame) (bal : list Q) (lo hi : Q) :
  getitem dfm "Balance" = Ok (SFloat bal) ->
  series_min bal = Ok lo -> series_max bal = Ok hi ->
  balance_slider dfm =
    Ok (mkSlider (py_int lo)
          (if py_int lo >=? py_int hi
           then py_int lo + Z.max 1 ((py_int hi - py_int lo) / 100)
           else py_int hi)
          (Z.max 1 ((py_int hi - py_int lo) / 100))).
Proof.
  intros Hb Hlo Hhi. unfold balance_slider. rewrite Hb. simpl.
  rewrite Hlo, Hhi. reflexivity.
Qed.

Lemma spec_step_integers (zl zh : Z) (lo hi : Q) :
  (lo == inject_Z zl)%Q -> (hi == inject_Z zh)%Q ->
  spec_step lo hi = Z.max 1 ((zh - zl) / 100).
Proof.
  intros Hl Hh. unfold spec_step.
  assert (E : ((hi - lo) / 100 == inject_Z (zh - zl) / inject_Z 100)%Q).
  { rewrite Hl, Hh. unfold Z.sub. rewrite inject_Z_plus, inject_Z_opp.
    reflexivity. }
  assert (F : Qfloor ((hi - lo) / 100) = (zh - zl) / 100).
  { rewrite E. symmetry. apply Zdiv_Qdiv. }
  destruct (Qlt_le_dec ((hi - lo) / 100) 1) as [Hlt|Hge].
  - assert (M : (Qmax 1 ((hi - lo) / 100) == 1)%Q)
      by (apply Q.max_l, Qlt_le_weak, Hlt).
    rewrite M. change (Qfloor 1) with 1.
    apply Qlt_le_weak, Qfloor_resp_le in Hlt.
    rewrite F in Hlt. change (Qfloor 1) with 1 in Hlt. lia.
  - assert (M : (Qmax 1 ((hi - lo) / 100) == (hi - lo) / 100)%Q)
      by (apply Q.max_r, Hge).
    rewrite M, F.
    apply Qfloor_resp_le in Hge. rewrite F in Hge.
    change (Qfloor 1) with 1 in Hge. lia.
Qed.

(** C6.  On a month whose smallest and largest Balance are whole numbers
    the slider's step is [max(1, (max - min)/100)] rounded down to an
    integer, and when the smallest and the largest Balance are equal the
    upper bound of the slider is the Balance plus exactly one step. *)
Theorem slider_step_and_nudge (dfm : DataFrame) (bal : list Q) (lo hi : Q) :
  getitem dfm "Balance" = Ok (SFloat bal) ->
  series_min bal = Ok lo -> series_max bal = Ok hi ->
  integer_valued lo -> integer_valued hi ->
  exists sl,
    balance_slider dfm = Ok sl
    /\ step sl = spec_step lo hi
    /\ ((lo == hi)%Q ->
        min_value sl = py_int lo /\ max_value sl = py_int hi + step sl
        /\ min_value sl < max_value sl).
Proof.
  intros Hb Hlo Hhi (zl & Hzl) (zh & Hzh).
  rewrite (balance_slider_value dfm bal lo hi Hb Hlo Hhi).
  rewrite (py_int_inject_Z lo zl Hzl), (py_int_inject_Z hi zh Hzh).
  eexists. split; [reflexivity|]. simpl.
  split; [symmetry; apply spec_step_integers; assumption|].
  intros Heq.
  assert (zl = zh).
  { rewrite Hzl, Hzh in Heq. unfold Qeq in Heq. simpl in Heq. lia. }
  subst zh. replace (zl >=? zl) with true by (symmetry; apply Z.geb_le; lia).
  repeat split; lia.
Qed.

Lemma slider_step_and_nudge_witness :
  exists sl,
    balance_slider overdrawn_month = Ok sl
    /\ step sl = spec_step (-100 # 1) (-100 # 1)
    /\ ((-100 # 1 == -100 # 1)%Q ->
        min_value sl = py_int (-100 # 1)
        /\ max_value sl = py_int (-100 # 1) + step sl
        /\ min_value sl < max_value sl).
Proof.
  apply (slider_step_and_nudge overdrawn_month [-100 # 1]).
  - reflexivity.
  - reflexivity.
  - reflexivity.
  - exists (-100). reflexivity.
  - exists (-100). reflexivity.
Defined.

Lemma filtered_balance_in_range
  (dfm dff : DataFrame) (sel : FilterSelection) (i : nat) (v : Value) :
  df_filtered dfm sel = Ok dff ->
  cell dff "Balance" i = Some v ->
  exists b, v = VFloat b
            /\ (inject_Z (fst (balance_range sel)) <= b)%Q
            /\ (b <= inject_Z (snd (balance_range sel)))%Q.
Proof.
  unfold df_filtered. intros Hf Hc. apply rbind_Ok in Hf.
  destruct Hf as (mask & Hmask & Hf). injection Hf as <-.
  apply filter_mask_inv in Hmask.
  destruct Hmask as (f & s & r & p & b & _ & _ & _ & _ & Hb & ->).
  unfold cell in Hc. rewrite (getitem_loc_Ok _ _ _ _ Hb) in Hc.
  apply nth_error_In in Hc. rewrite values_select in Hc.
  do 4 apply select_mand_r in Hc.
  pose proof (select_mand_l _ _ _ _ Hc) as Hlo.
  pose proof (select_mand_r _ _ _ _ Hc) as Hhi.
  apply select_map_In in Hlo. destruct Hlo as (x & -> & Hlo & _).
  apply select_map_In in Hhi. destruct Hhi as (x' & Hx' & Hhi & _).
  injection Hx' as <-.
  exists x. repeat split; [| ]; apply Qle_bool_iff; assumption.
Qed.

Lemma qmax_list_In (x : Q) (xs : list Q) : In (qmax_list x xs) (x :: xs).
Proof.
  revert x; induction xs as [|y xs IH]; intros x; simpl; [auto|].
  destruct (IH (if Qle_bool x y then y else x)) as [H|H].
  - destruct (Qle_bool x y); rewrite <- H; auto.
  - right; right; exact H.
Qed.

Lemma series_max_In (bal : list Q) (hi : Q) : series_max bal = Ok hi -> In hi bal.
Proof.
  destruct bal as [|x xs]; simpl; intros H; [discriminate H|].
  injection H as <-. apply qmax_list_In.
Qed.

Lemma default_selection_inv (dfm : DataFrame) (sel : FilterSelection) :
  default_selection dfm = Ok sel ->
  has_filter_columns dfm
  /\ exists sl, balance_slider dfm = Ok sl
                /\ balance_range sel = (min_value sl, max_value sl).
Proof.
  unfold default_selection, options_of, rating_options. intros H.
  apply rbind_Ok in H. destruct H as (fo & Hfo & H).
  apply rbind_Ok in H. destruct H as (so & Hso & H).
  apply rbind_Ok in H. destruct H as (ro & Hro & H).
  apply rbind_Ok in H. destruct H as (po & Hpo & H).
  apply rbind_Ok in H. destruct H as (sl & Hsl & H).
  injection H as <-. simpl.
  apply rbind_Ok in Hfo. destruct Hfo as (? & Hfo & _).
  apply rbind_Ok in Hfo. destruct Hfo as (sf & Hfo & _).
  apply rbind_Ok in Hso. destruct Hso as (? & Hso & _).
  apply rbind_Ok in Hso. destruct Hso as (ss & Hso & _).
  apply rbind_Ok in Hro. destruct Hro as (? & Hro & _).
  apply rbind_Ok in Hro. destruct Hro as (sr & Hro & _).
  apply rbind_Ok in Hpo. destruct Hpo as (? & Hpo & _).
  apply rbind_Ok in Hpo. destruct Hpo as (sp & Hpo & _).
  split; [|exists sl; auto].
  unfold balance_slider in Hsl.
  apply rbind_Ok in Hsl. destruct Hsl as (bal & Hbal & _).
  apply rbind_Ok in Hbal. destruct Hbal as (sb & Hsb & Hbal).
  destruct sb as [xs|xs|xs]; try discriminate Hbal.
  repeat split; eauto.
Qed.

Lemma py_int_lt_of_fractional (x : Q) :
  (0 < x)%Q -> ~ integer_valued x -> (inject_Z (py_int x) < x)%Q.
Proof.
  intros Hpos Hfrac.
  assert (E : py_int x = Qfloor x).
  { destruct x as [n d]. unfold py_int, Qfloor. simpl.
    apply Z.quot_div_nonneg; [|reflexivity].
    unfold Qlt in Hpos. simpl in Hpos. lia. }
  rewrite E. destruct (Qle_lt_or_eq _ _ (Qfloor_le x)) as [H|H]; [exact H|].
  exfalso. apply Hfrac. exists (Qfloor x). symmetry. exact H.
Qed.

(** C9, as amended.  The lower bound of the Balance slider is
    [int(min Balance)]; its upper bound is [int(max Balance)], unless
    [int(min Balance) >= int(max Balance)], when it is
    [int(min Balance)] plus one step.  The default selection takes the
    whole slider range.  So when the largest Balance of the month is
    positive and not a whole number, and [int(min Balance)] is below
    [int(max Balance)], the month has a row holding that largest Balance and
    no row of the default filter's result holds it. *)
Theorem default_range_excludes_fractional_max
  (dfm : DataFrame) (bal : list Q) (lo hi : Q) (sel : FilterSelection) :
  getitem dfm "Balance" = Ok (SFloat bal) ->
  series_min bal = Ok lo -> series_max bal = Ok hi ->
  default_selection dfm = Ok sel ->
  balance_range sel =
    (py_int lo,
     if py_int lo >=? py_int hi
     then py_int lo + Z.max 1 ((py_int hi - py_int lo) / 100)
     else py_int hi)
  /\ ((0 < hi)%Q -> ~ integer_valued hi -> py_int lo < py_int hi ->
      In hi bal
      /\ exists dff,
           df_filtered dfm sel = Ok dff
           /\ forall i v, cell dff "Balance" i = Some v ->
                exists b, v = VFloat b /\ (b < hi)%Q).
Proof.
  intros Hb Hlo Hhi Hsel.
  destruct (default_selection_inv dfm sel Hsel) as (Hcols & sl & Hsl & Hrange).
  rewrite (balance_slider_value dfm bal lo hi Hb Hlo Hhi) in Hsl.
  injection Hsl as <-. simpl in Hrange.
  split; [exact Hrange|].
  intros Hpos Hfrac Hlt.
  split; [apply series_max_In; exact Hhi|].
  destruct (has_filter_columns_mask dfm sel Hcols) as (mask & Hmask).
  exists (loc dfm mask).
  assert (Hf : df_filtered dfm sel = Ok (loc dfm mask))
    by (unfold df_filtered; rewrite Hmask; reflexivity).
  split; [exact Hf|].
  intros i v Hc.
  destruct (filtered_balance_in_range dfm _ sel i v Hf Hc) as (b & -> & _ & Hle).
  exists b. split; [reflexivity|].
  rewrite Hrange in Hle. simpl in Hle.
  replace (py_int lo >=? py_int hi) with false in Hle
    by (symmetry; rewrite Z.geb_leb; apply Z.leb_gt; lia).
  eapply Qle_lt_trans; [exact Hle|].
  apply py_int_lt_of_fractional; assumption.
Qed.

Lemma default_range_excludes_fractional_max_witness :
  exists sel,
    default_selection sample_monthly = Ok sel
    /\ balance_range sel = (100, 300)
    /\ In (601 # 2) [100 # 1; 300 # 1; 601 # 2]
    /\ exists dff,
         df_filtered sample_monthly sel = Ok dff
         /\ forall i v, cell dff "Balance" i = Some v ->
              exists b, v = VFloat b /\ (b < 601 # 2)%Q.
Proof.
  eexists. split; [vm_compute; reflexivity|].
  destruct (default_range_excludes_fractional_max sample_monthly
              [100 # 1; 300 # 1; 601 # 2] (100 # 1) (601 # 2) _
              eq_refl eq_refl eq_refl eq_refl) as [Hrange Hex].
  split; [exact Hrange|].
  apply Hex.
  - reflexivity.
  - intros (z & Hz). unfold Qeq in Hz. simpl in Hz. lia.
  - reflexivity.
Defined.

(** C9, as stated, fails: a month whose only Balance is 100.5 gets the
    slider range (100, 101), not (100, int(100.5)), and the default filter
    keeps the row that holds the largest Balance. *)
Lemma default_range_keeps_fractional_max :
  series_max [201 # 2] = Ok (201 # 2)
  /\ ~ integer_valued (201 # 2)
  /\ exists sel dff,
       default_selection single_facility_month = Ok sel
       /\ balance_range sel = (100, 101)
       /\ df_filtered single_facility_month sel = Ok dff
       /\ cell dff "Balance" 0 = Some (VFloat (201 # 2)).
Proof.
  split; [reflexivity|]. split.
  - intros (z & Hz). unfold Qeq in Hz. simpl in Hz. lia.
  - eexists. eexists.
    split; [vm_compute; reflexivity|].
    split; [reflexivity|].
    split; [vm_compute; reflexivity|].
    reflexivity.
Qed.

(** ** The loader *)

Lemma getitem_setitem_same (df : DataFrame) (col : string) (s : Series) :
  getitem (setitem df col s) col = Ok s.
Proof.
  induction df as [|[c s0] df IH]; simpl.
  - rewrite String.eqb_refl. reflexivity.
  - destruct (String.eqb col c) eqn:E; simpl; rewrite E; [reflexivity | exact IH].
Qed.

Lemma to_datetime_is_datetime (env : Env) (s s' : Series) :
  to_datetime env s = Ok s' -> exists ts, s' = SDatetime ts.
Proof.
  destruct s as [xs|xs|xs]; simpl; intros H.
  - apply rbind_Ok in H. destruct H as (ts & _ & H). injection H as <-. eauto.
  - apply rbind_Ok in H. destruct H as (ts & _ & H). injection H as <-. eauto.
  - injection H as <-. eauto.
Qed.

Lemma load_handles (env : Env) (e : PyExc) :
  load_body env = Raise e ->
  exists msgs,
    load_loan_data env = (msgs, Ok empty_frame)
    /\ msgs <> [] /\ forallb is_error msgs = true.
Proof.
  intros H. unfold load_loan_data. rewrite H.
  destruct e; eexists; (split; [reflexivity|]); split;
    try discriminate; reflexivity.
Qed.

(** C4.  [load_loan_data] never lets an exception out.  When the file is
    missing, when the Parquet decoder is missing, or when reading fails in
    any other way (also when the Date column is absent or cannot be
    converted) it writes error messages to the page and returns the empty
    table; when reading succeeds it writes nothing and returns the table
    with its Date column converted to timestamps. *)
Theorem load_loan_data_never_raises (env : Env) :
  (exists msgs df, load_loan_data env = (msgs, Ok df))
  /\ (read_parquet env data_file_path = Raise FileNotFoundError ->
      exists rest,
        load_loan_data env =
          (StError "Error: Data file not found at './data/loan_data.parquet'"
             :: rest, Ok empty_frame)
        /\ forallb is_error rest = true)
  /\ (read_parquet env data_file_path = Raise ImportError ->
      exists rest,
        load_loan_data env =
          (StError "Module 'pyarrow' not installed. Cannot read Parquet file."
             :: rest, Ok empty_frame)
        /\ forallb is_error rest = true)
  /\ (forall e, load_body env = Raise e ->
      exists msgs,
        load_loan_data env = (msgs, Ok empty_frame)
        /\ msgs <> [] /\ forallb is_error msgs = true)
  /\ (forall df date date',
        read_parquet env data_file_path = Ok df ->
        getitem df "Date" = Ok date ->
        to_datetime env date = Ok date' ->
        load_loan_data env = ([], Ok (setitem df "Date" date'))
        /\ exists ts, getitem (setitem df "Date" date') "Date" = Ok (SDatetime ts)).
Proof.
  split; [|split; [|split; [|split]]].
  - destruct (load_body env) as [df|e] eqn:H.
    + exists [], df. unfold load_loan_data. rewrite H. reflexivity.
    + destruct (load_handles env e H) as (msgs & Hl & _). eauto.
  - intros H. unfold load_loan_data, load_body. rewrite H. simpl.
    eexists. split; reflexivity.
  - intros H. unfold load_loan_data, load_body. rewrite H. simpl.
    eexists. split; reflexivity.
  - apply load_handles.
  - intros df date date' Hr Hd Ht.
    unfold load_loan_data, load_body. rewrite Hr. simpl. rewrite Hd. simpl.
    rewrite Ht. simpl. split; [reflexivity|].
    destruct (to_datetime_is_datetime env date date' Ht) as (ts & ->).
    exists ts. apply getitem_setitem_same.
Qed.

Lemma load_loan_data_never_raises_witness :
  (exists rest,
     load_loan_data missing_file_env =
       (StError "Error: Data file not found at './data/loan_data.parquet'"
          :: rest, Ok empty_frame)
     /\ forallb is_error rest = true)
  /\ (load_loan_data sample_env = ([], Ok sample_full)).
Proof.
  split.
  - apply (proj1 (proj2 (load_loan_data_never_raises missing_file_env))).
    reflexivity.
  - apply (proj1 (proj2 (proj2 (proj2 (proj2
              (load_loan_data_never_raises sample_env)))) sample_full
             (SDatetime [mkTimestamp 2025 1 31; mkTimestamp 2025 2 28;
                         mkTimestamp 2025 2 28; mkTimestamp 2025 2 28])
             _ eq_refl eq_refl eq_refl)).
Defined.

(** ** The rating chart data *)

Section SortedLists.

Lemma sorted_perm_unique (l1 l2 : list nat) :
  StronglySorted Nat.le l1 -> StronglySorted Nat.le l2 ->
  Permutation l1 l2 -> l1 = l2.
Proof.
  revert l2; induction l1 as [|a l1 IH]; intros l2 S1 S2 P.
  - apply Permutation_nil in P. subst l2. reflexivity.
  - destruct l2 as [|b l2].
    + apply Permutation_sym, Permutation_nil in P. discriminate P.
    + apply StronglySorted_inv in S1. destruct S1 as [S1 F1].
      apply StronglySorted_inv in S2. destruct S2 as [S2 F2].
      assert (a = b).
      { assert (Ha : In a (b :: l2))
          by (eapply Permutation_in; [exact P | left; reflexivity]).
        assert (Hb : In b (a :: l1))
          by (eapply Permutation_in;
              [apply Permutation_sym; exact P | left; reflexivity]).
        rewrite Forall_forall in F1, F2.
        destruct Ha as [Ha|Ha]; [congruence|].
        destruct Hb as [Hb|Hb]; [congruence|].
        specialize (F1 _ Hb). specialize (F2 _ Ha).
        unfold Nat.le in *. lia. }
      subst b. f_equal. apply IH; try assumption.
      eapply Permutation_cons_inv. exact P.
Qed.

Lemma map_inj_on {A B} (f : A -> B) (l1 l2 : list A) :
  (forall a b, In a l1 -> In b l2 -> f a = f b -> a = b) ->
  map f l1 = map f l2 -> l1 = l2.
Proof.
  revert l2; induction l1 as [|a l1 IH]; intros [|b l2] Hinj H;
    simpl in H; try discriminate H; [reflexivity|].
  injection H as Hab H. f_equal.
  - apply Hinj; simpl; auto.
  - apply IH; [|exact H]. intros x y Hx Hy. apply Hinj; simpl; auto.
Qed.

Lemma StronglySorted_map_S (l : list nat) :
  StronglySorted Nat.le l -> StronglySorted Nat.le (map S l).
Proof.
  induction 1 as [|a l _ IH F]; simpl; constructor; [exact IH|].
  rewrite Forall_forall in *. intros y Hy. apply in_map_iff in Hy.
  destruct Hy as (x & <- & Hx). specialize (F x Hx).
  unfold Nat.le in *. lia.
Qed.

End SortedLists.

Lemma unique_In (x : string) (xs : list string) : In x (unique xs) <-> In x xs.
Proof.
  induction xs as [|y xs IH]; simpl; [tauto|].
  rewrite filter_In, IH, negb_true_iff, String.eqb_neq.
  destruct (String.eqb_spec x y) as [->|Hne]; [tauto|].
  split.
  - intros [H|[H _]]; [left; exact H | right; exact H].
  - intros [H|H]; [left; exact H | right; split; [exact H | exact Hne]].
Qed.

Lemma unique_NoDup (xs : list string) : NoDup (unique xs).
Proof.
  induction xs as [|y xs IH]; simpl; constructor.
  - rewrite filter_In, String.eqb_refl. intros [_ H]. discriminate H.
  - apply NoDup_filter. exact IH.
Qed.

Lemma insert_by_count_perm (e : string * nat) (l : list (string * nat)) :
  Permutation (insert_by_count e l) (e :: l).
Proof.
  induction l as [|e' l IH]; simpl; [reflexivity|].
  destruct (Nat.leb (snd e') (snd e)); [reflexivity|].
  rewrite IH. apply perm_swap.
Qed.

Lemma value_counts_perm (xs : list string) :
  Permutation (value_counts xs) (map (fun x => (x, count_of x xs)) (unique xs)).
Proof.
  unfold value_counts.
  induction (map (fun x => (x, count_of x xs)) (unique xs)) as [|e l IH];
    simpl; [reflexivity|].
  rewrite insert_by_count_perm. constructor. exact IH.
Qed.

Lemma insert_by_key_perm (cats : list string) (e : option string * nat)
  (l : list (option string * nat)) :
  Permutation (insert_by_key cats e l) (e :: l).
Proof.
  induction l as [|e' l IH]; simpl; [reflexivity|].
  destruct (Nat.leb _ _); [reflexivity|].
  rewrite IH. apply perm_swap.
Qed.

Lemma sort_values_perm (cats : list string) (l : list (option string * nat)) :
  Permutation (sort_values cats l) l.
Proof.
  unfold sort_values. induction l as [|e l IH]; simpl; [reflexivity|].
  rewrite insert_by_key_perm. constructor. exact IH.
Qed.

Lemma insert_by_key_sorted (cats : list string) (e : option string * nat)
  (l : list (option string * nat)) :
  StronglySorted Nat.le (map (fun a => sort_key cats (fst a)) l) ->
  StronglySorted Nat.le
    (map (fun a => sort_key cats (fst a)) (insert_by_key cats e l)).
Proof.
  induction l as [|e' l IH]; simpl; intros S.
  - constructor; constructor.
  - apply StronglySorted_inv in S. destruct S as [S F].
    destruct (Nat.leb (sort_key cats (fst e)) (sort_key cats (fst e'))) eqn:E;
      simpl.
    + apply Nat.leb_le in E. constructor; [constructor; assumption|].
      constructor; [exact E|].
      rewrite Forall_forall in *. intros y Hy. specialize (F y Hy).
      unfold Nat.le in *. lia.
    + apply Nat.leb_gt in E. constructor; [apply IH; exact S|].
      eapply Permutation_Forall.
      * apply Permutation_sym, Permutation_map, insert_by_key_perm.
      * simpl. constructor; [unfold Nat.le; lia | exact F].
Qed.

Lemma sort_values_sorted (cats : list string) (l : list (option string * nat)) :
  StronglySorted Nat.le
    (map (fun a => sort_key cats (fst a)) (sort_values cats l)).
Proof.
  unfold sort_values. induction l as [|e l IH]; simpl; [constructor|].
  apply insert_by_key_sorted. exact IH.
Qed.

Lemma index_of_inj (cats : list string) (x y : string) :
  In x cats -> In y cats -> index_of x cats = index_of y cats -> x = y.
Proof.
  induction cats as [|c cats IH]; simpl; [tauto|].
  intros Hx Hy.
  destruct (String.eqb_spec x c) as [->|Hxc], (String.eqb_spec y c) as [->|Hyc];
    try discriminate; try reflexivity.
  intros H. injection H as H.
  destruct Hx as [Hx|Hx]; [congruence|].
  destruct Hy as [Hy|Hy]; [congruence|].
  apply IH; assumption.
Qed.

Lemma index_of_filter_sorted (cats : list string) (p : string -> bool) :
  NoDup cats ->
  StronglySorted Nat.le (map (fun x => index_of x cats) (filter p cats)).
Proof.
  induction 1 as [|c cats Hc _ IH]; simpl; [constructor|].
  assert (E : map (fun x => if String.eqb x c then O else S (index_of x cats))
                (filter p cats)
              = map S (map (fun x => index_of x cats) (filter p cats))).
  { rewrite map_map. apply map_ext_in. intros x Hx.
    apply filter_In in Hx. destruct Hx as [Hx _].
    destruct (String.eqb_spec x c) as [->|_]; [contradiction | reflexivity]. }
  destruct (p c); simpl.
  - rewrite String.eqb_refl, E. constructor.
    + apply StronglySorted_map_S. exact IH.
    + apply Forall_forall. intros y _. unfold Nat.le. lia.
  - rewrite E. apply StronglySorted_map_S. exact IH.
Qed.

Lemma rating_options_all_NoDup : NoDup rating_options_all.
Proof.
  unfold rating_options_all.
  repeat (constructor; [simpl; intuition discriminate|]). constructor.
Qed.

Lemma spec_rating_rows_In (ratings : list string) (a : option string * nat) :
  In a (spec_rating_rows ratings) ->
  exists r, a = (Some r, count_of r ratings) /\ In r rating_options_all.
Proof.
  unfold spec_rating_rows. intros H. apply in_map_iff in H.
  destruct H as (r & <- & Hr). apply filter_In in Hr.
  exists r. split; [reflexivity | apply Hr].
Qed.

Lemma rating_counts_perm (ratings : list string) :
  Forall (fun r => In r rating_options_all) ratings ->
  Permutation
    (sort_values rating_options_all
       (map (fun e => (categorical rating_options_all (fst e), snd e))
            (value_counts ratings)))
    (spec_rating_rows ratings).
Proof.
  intros Hscale. rewrite Forall_forall in Hscale.
  rewrite sort_values_perm, value_counts_perm, map_map. simpl.
  rewrite (map_ext_in _ (fun x => (Some x, count_of x ratings))).
  - unfold spec_rating_rows. apply Permutation_map.
    apply NoDup_Permutation.
    + apply unique_NoDup.
    + apply NoDup_filter, rating_options_all_NoDup.
    + intros x. rewrite unique_In, filter_In, str_mem_In. split.
      * intros H. split; [apply Hscale; exact H | exact H].
      * intros [_ H]. exact H.
  - intros x Hx. apply (proj1 (unique_In x ratings)) in Hx. unfold categorical.
    replace (str_mem x rating_options_all) with true; [reflexivity|].
    symmetry. apply str_mem_In, Hscale, Hx.
Qed.

(** On ratings of the scale the chart rows are the scale restricted to the
    ratings present, whatever the order of the rows and the counts. *)
Lemma rating_counts_value (dff : DataFrame) (ratings : list string) :
  getitem dff "Credit Rating" = Ok (SObject ratings) ->
  Forall (fun r => In r rating_options_all) ratings ->
  rating_counts dff = Ok (spec_rating_rows ratings).
Proof.
  intros Hget Hscale. unfold rating_counts. rewrite Hget. simpl. f_equal.
  pose proof (rating_counts_perm ratings Hscale) as P.
  apply (map_inj_on (fun a => sort_key rating_options_all (fst a))).
  - intros a b Ha Hb Hk.
    apply (Permutation_in _ P) in Ha.
    apply spec_rating_rows_In in Ha. destruct Ha as (r & -> & Hr).
    apply spec_rating_rows_In in Hb. destruct Hb as (r' & -> & Hr').
    simpl in Hk. rewrite (index_of_inj _ r r' Hr Hr' Hk). reflexivity.
  - apply sorted_perm_unique.
    + apply sort_values_sorted.
    + unfold spec_rating_rows. rewrite map_map.
      exact (index_of_filter_sorted rating_options_all _
               rating_options_all_NoDup).
    + apply Permutation_map. exact P.
Qed.

Lemma filtered_ratings_selected
  (dfm dff : DataFrame) (sel : FilterSelection) (ratings : list string) :
  df_filtered dfm sel = Ok dff ->
  getitem dff "Credit Rating" = Ok (SObject ratings) ->
  Forall (fun r => In r (selected_ratings sel)) ratings.
Proof.
  unfold df_filtered. intros Hf Hget. apply rbind_Ok in Hf.
  destruct Hf as (mask & Hmask & Hf). injection Hf as <-.
  apply filter_mask_inv in Hmask.
  destruct Hmask as (f & s & r & p & b & _ & _ & Hr & _ & _ & ->).
  rewrite (getitem_loc_Ok _ _ _ _ Hr) in Hget. injection Hget as Hget.
  apply Forall_forall. intros x Hx.
  assert (Hv : In (VStr x) (values (SObject ratings)))
    by (simpl; apply in_map; exact Hx).
  rewrite <- Hget, values_select in Hv.
  apply select_mand_r, select_mand_r, select_mand_l, isin_select_In in Hv.
  destruct Hv as (y & Hy & Hin). injection Hy as ->. exact Hin.
Qed.

Lemma rating_options_inv (dfm : DataFrame) (opts : list string) :
  rating_options dfm = Ok opts ->
  incl opts rating_options_all
  /\ exists xs, getitem dfm "Credit Rating" = Ok (SObject xs).
Proof.
  unfold rating_options.
  destruct (getitem dfm "Credit Rating") as [[ys|ys|ys]|e];
    cbn [rbind as_object]; intros H; try discriminate H.
  assert (E : opts = filter (fun r => str_mem r (unique ys)) rating_options_all)
    by congruence.
  split; [|eauto].
  intros r Hr. rewrite E in Hr. apply filter_In in Hr. apply Hr.
Qed.

(** C5.  For a filtered subset (the selected ratings being some of the
    ratings the sidebar offers) the rows handed to the
    facility-count-by-rating chart are ordered as
    [AAA, AA, A, BBB, BB, B, CCC] restricted to the ratings present in the
    subset, each with its number of facilities, whatever the order of the
    input rows and whatever the counts. *)
Theorem rating_chart_order
  (dfm dff : DataFrame) (sel : FilterSelection) (opts : list string) :
  rating_options dfm = Ok opts ->
  incl (selected_ratings sel) opts ->
  df_filtered dfm sel = Ok dff ->
  exists ratings rc,
    getitem dff "Credit Rating" = Ok (SObject ratings)
    /\ rating_counts dff = Ok rc
    /\ map fst rc =
         map Some (filter (fun r => str_mem r ratings)
                          ["AAA"; "AA"; "A"; "BBB"; "BB"; "B"; "CCC"])
    /\ map snd rc =
         map (fun r => count_of r ratings)
             (filter (fun r => str_mem r ratings)
                     ["AAA"; "AA"; "A"; "BBB"; "BB"; "B"; "CCC"]).
Proof.
  intros Hopts Hincl Hf.
  destruct (rating_options_inv dfm opts Hopts) as (Hscale & xs & Hxs).
  assert (Hget : exists ratings, getitem dff "Credit Rating" = Ok (SObject ratings)).
  { pose proof Hf as Hf'. unfold df_filtered in Hf'. apply rbind_Ok in Hf'.
    destruct Hf' as (mask & _ & Hf'). injection Hf' as <-.
    eexists. rewrite (getitem_loc_Ok _ _ _ _ Hxs). reflexivity. }
  destruct Hget as (ratings & Hget).
  exists ratings, (spec_rating_rows ratings). split; [exact Hget|]. split.
  - apply rating_counts_value; [exact Hget|].
    pose proof (filtered_ratings_selected dfm dff sel ratings Hf Hget) as H.
    rewrite Forall_forall in *. intros x Hx. apply Hscale, Hincl, H, Hx.
  - unfold spec_rating_rows. rewrite !map_map. simpl. split; reflexivity.
Qed.

Lemma rating_chart_order_witness :
  exists ratings rc,
    getitem sample_filtered "Credit Rating" = Ok (SObject ratings)
    /\ rating_counts sample_filtered = Ok rc
    /\ map fst rc =
         map Some (filter (fun r => str_mem r ratings)
                          ["AAA"; "AA"; "A"; "BBB"; "BB"; "B"; "CCC"])
    /\ map snd rc =
         map (fun r => count_of r ratings)
             (filter (fun r => str_mem r ratings)
                     ["AAA"; "AA"; "A"; "BBB"; "BB"; "B"; "CCC"]).
Proof.
  apply (rating_chart_order sample_monthly sample_filtered sample_selection
           ["AAA"; "B"]).
  - reflexivity.
  - intros x Hx. exact Hx.
  - reflexivity.
Defined.

(** ** The display table *)

Lemma numeric_columns_floatb_sound (df : DataFrame) :
  numeric_columns_floatb df = true -> numeric_columns_float df.
Proof.
  unfold numeric_columns_floatb, numeric_columns_float.
  rewrite forallb_forall. intros H col s Hin Hget.
  specialize (H col Hin). rewrite Hget in H. exact H.
Qed.

Lemma has_column_getitem (df : DataFrame) (col : string) :
  has_column df col = true -> exists s, getitem df col = Ok s.
Proof.
  unfold has_column, columns.
  induction df as [|[c s] df IH]; simpl; [discriminate|].
  destruct (String.eqb col c); simpl; eauto.
Qed.

Lemma no_column_getitem (df : DataFrame) (col : string) :
  has_column df col = false -> getitem df col = Raise (KeyError col).
Proof.
  unfold has_column, columns.
  induction df as [|[c s] df IH]; simpl; [reflexivity|].
  destruct (String.eqb col c); simpl; [discriminate | exact IH].
Qed.

Lemma columns_setitem (df : DataFrame) (col : string) (s : Series) :
  has_column df col = true -> columns (setitem df col s) = columns df.
Proof.
  unfold has_column, columns.
  induction df as [|[c s0] df IH]; simpl; [discriminate|].
  destruct (String.eqb col c); simpl; intros H; [reflexivity|].
  f_equal. apply IH. exact H.
Qed.

Lemma getitem_setitem_other (df : DataFrame) (col col' : string) (s : Series) :
  col' <> col -> getitem (setitem df col s) col' = getitem df col'.
Proof.
  intros Hne. induction df as [|[c s0] df IH]; simpl.
  - destruct (String.eqb_spec col' col); [contradiction | reflexivity].
  - destruct (String.eqb_spec col c) as [->|Hc]; simpl.
    + destruct (String.eqb_spec col' c); [contradiction | reflexivity].
    + destruct (String.eqb col' c); [reflexivity | exact IH].
Qed.

Lemma has_column_same_columns (d d' : DataFrame) (col : string) :
  columns d = columns d' -> has_column d col = has_column d' col.
Proof. unfold has_column. intros ->. reflexivity. Qed.

(** One formatting loop on numeric columns: nothing raises, the columns
    keep their names and order, and the other columns are untouched. *)
Lemma format_columns_ok (env : Env) (f : Fmt) (numeric : bool)
  (cols : list string) :
  NoDup cols ->
  forall df,
    (forall col s, In col cols -> getitem df col = Ok s -> is_float s = true) ->
    exists d,
      format_columns env f numeric cols df = Ok d
      /\ columns d = columns df
      /\ (forall c, ~ In c cols -> getitem d c = getitem df c).
Proof.
  induction 1 as [|col cols Hnotin _ IH]; intros df Hfloat; simpl.
  - exists df. auto.
  - destruct (has_column df col) eqn:Hhas.
    + destruct (has_column_getitem df col Hhas) as (s & Hs).
      rewrite Hs. simpl.
      assert (Hf := Hfloat col s (or_introl eq_refl) Hs).
      destruct s as [xs|xs|xs]; try discriminate Hf.
      assert (E : (if numeric then to_numeric env (SFloat xs) else Ok (SFloat xs))
                  = Ok (SFloat xs)) by (destruct numeric; reflexivity).
      rewrite E. simpl.
      destruct (IH (setitem df col (SObject (map (apply_format f) xs))))
        as (d & Hd & Hcols & Hother).
      * intros c s Hin Hget. apply (Hfloat c s (or_intror Hin)).
        rewrite getitem_setitem_other in Hget; [exact Hget|].
        intros ->. contradiction.
      * exists d. split; [exact Hd|]. split.
        -- rewrite Hcols. apply columns_setitem. exact Hhas.
        -- intros c Hc. rewrite Hother by (intros Hin; apply Hc; right; exact Hin).
           apply getitem_setitem_other. intros ->. apply Hc. left. reflexivity.
    + destruct (IH df) as (d & Hd & Hcols & Hother).
      * intros c s Hin. apply Hfloat. right. exact Hin.
      * exists d. split; [exact Hd|]. split; [exact Hcols|].
        intros c Hc. apply Hother. intros Hin. apply Hc. right. exact Hin.
Qed.

Lemma select_columns_present (df : DataFrame) (cols : list string) :
  (forall c, In c cols -> has_column df c = true) ->
  exists d, select_columns df cols = Ok d /\ columns d = cols.
Proof.
  induction cols as [|c cols IH]; intros H; simpl.
  - exists []. auto.
  - destruct (has_column_getitem df c (H c (or_introl eq_refl))) as (s & Hs).
    rewrite Hs. simpl.
    destruct IH as (d & Hd & Hcols); [intros x Hx; apply H; right; exact Hx|].
    rewrite Hd. simpl. exists ((c, s) :: d). split; [reflexivity|].
    simpl. rewrite Hcols. reflexivity.
Qed.

Ltac not_in_list := simpl; intuition discriminate.

Ltac nodup_list := repeat (constructor; [not_in_list|]); constructor.

(** The four formatting loops of lines 211-222, run on a frame whose
    numeric columns hold numbers. *)
Lemma format_loops_ok (env : Env) (df : DataFrame) :
  numeric_columns_float df ->
  exists d1 d2 d3 d4,
    format_columns env FCurrency false monetary_cols df = Ok d1
    /\ format_columns env (FPercent 2) true ["Margin"; "RAROE"] d1 = Ok d2
    /\ format_columns env (FPercent 4) true ["PD"] d2 = Ok d3
    /\ format_columns env (FPercent 1) true ["LGD"] d3 = Ok d4
    /\ columns d4 = columns df
    /\ getitem d4 "Date" = getitem df "Date".
Proof.
  intros Hnum.
  destruct (format_columns_ok env FCurrency false monetary_cols
              ltac:(unfold monetary_cols; nodup_list) df)
    as (d1 & H1 & C1 & O1).
  { intros col s Hin. apply Hnum. unfold numeric_cols. apply in_or_app. auto. }
  destruct (format_columns_ok env (FPercent 2) true ["Margin"; "RAROE"]
              ltac:(nodup_list) d1)
    as (d2 & H2 & C2 & O2).
  { intros col s Hin Hget. apply (Hnum col s).
    - unfold numeric_cols. apply in_or_app. right. simpl in *. tauto.
    - rewrite <- O1; [exact Hget|].
      destruct Hin as [<-|[<-|[]]]; unfold monetary_cols; not_in_list. }
  destruct (format_columns_ok env (FPercent 4) true ["PD"]
              ltac:(nodup_list) d2)
    as (d3 & H3 & C3 & O3).
  { intros col s Hin Hget. apply (Hnum col s).
    - unfold numeric_cols. apply in_or_app. right. simpl in *. tauto.
    - destruct Hin as [<-|[]].
      rewrite <- O1, <- O2; [exact Hget | not_in_list |
                             unfold monetary_cols; not_in_list]. }
  destruct (format_columns_ok env (FPercent 1) true ["LGD"]
              ltac:(nodup_list) d3)
    as (d4 & H4 & C4 & O4).
  { intros col s Hin Hget. apply (Hnum col s).
    - unfold numeric_cols. apply in_or_app. right. simpl in *. tauto.
    - destruct Hin as [<-|[]].
      rewrite <- O1, <- O2, <- O3;
        [exact Hget | not_in_list | not_in_list |
         unfold monetary_cols; not_in_list]. }
  exists d1, d2, d3, d4. repeat split; try assumption.
  - congruence.
  - rewrite O4, O3, O2, O1;
      [reflexivity | unfold monetary_cols; not_in_list | not_in_list
       | not_in_list | not_in_list].
Qed.

(** With a Date column of timestamps the formatter succeeds, and the table
    has the columns of the priority list that are present, in that order. *)
Lemma display_body_ok (env : Env) (df : DataFrame) (ts : list Timestamp) :
  numeric_columns_float df ->
  getitem df "Date" = Ok (SDatetime ts) ->
  exists d, display_body env df = Ok d
            /\ columns d = filter (has_column df) display_cols.
Proof.
  intros Hnum Hdate.
  destruct (format_loops_ok env df Hnum)
    as (d1 & d2 & d3 & d4 & H1 & H2 & H3 & H4 & Hcols & Hd).
  unfold display_body. rewrite H1. cbn [rbind]. rewrite H2. cbn [rbind].
  rewrite H3. cbn [rbind]. rewrite H4. cbn [rbind].
  rewrite Hd, Hdate. cbn [rbind to_datetime dt].
  set (d5 := setitem d4 "Date" (SObject (map strftime ts))).
  assert (Hcols5 : columns d5 = columns df).
  { unfold d5. rewrite columns_setitem; [exact Hcols|].
    destruct (has_column d4 "Date") eqn:E; [reflexivity|].
    apply no_column_getitem in E. rewrite Hd, Hdate in E. discriminate E. }
  assert (Hfilter : filter (has_column d5) display_cols
                    = filter (has_column df) display_cols).
  { apply filter_ext. intros c. apply has_column_same_columns. exact Hcols5. }
  rewrite Hfilter.
  destruct (select_columns_present d5 (filter (has_column df) display_cols))
    as (d & Hsel & Hc).
  { intros c Hc. apply filter_In in Hc. destruct Hc as [_ Hc].
    rewrite (has_column_same_columns d5 df c Hcols5). exact Hc. }
  exists d. split; assumption.
Qed.

(** Without a Date column line 224 raises [KeyError]; the handler reports
    it and the page shows the unformatted frame in its own column order. *)
Lemma format_display_without_date (env : Env) (df : DataFrame) :
  numeric_columns_float df ->
  has_column df "Date" = false ->
  format_display env df =
    ([StError "Error formatting display data: 'Date'"], Ok df).
Proof.
  intros Hnum Hno.
  destruct (format_loops_ok env df Hnum)
    as (d1 & d2 & d3 & d4 & H1 & H2 & H3 & H4 & Hcols & Hd).
  unfold format_display, display_body. rewrite H1. cbn [rbind]. rewrite H2.
  cbn [rbind]. rewrite H3. cbn [rbind]. rewrite H4. cbn [rbind].
  rewrite Hd, (no_column_getitem df "Date" Hno). reflexivity.
Qed.

Lemma filtered_date_column
  (df_full dfm dff : DataFrame) (p : Period) (sel : FilterSelection) :
  df_monthly df_full p = Ok dfm ->
  df_filtered dfm sel = Ok dff ->
  exists ts, getitem dff "Date" = Ok (SDatetime ts).
Proof.
  intros Hm Hf.
  apply df_monthly_inv in Hm. destruct Hm as (ts & Hdate & ->).
  unfold df_filtered in Hf. apply rbind_Ok in Hf.
  destruct Hf as (mask & _ & Hf). injection Hf as <-.
  eexists.
  rewrite (getitem_loc_Ok _ mask _ _ (getitem_loc_Ok _ _ _ _ Hdate)).
  reflexivity.
Qed.

(** C7.  The display-formatting step never fails the page: whatever
    happens inside it, [format_display] returns a frame.  On a filtered
    subset (whose Date column the month filter has already read) with
    numeric columns that hold numbers, it reports nothing, columns of the
    priority list that are absent are skipped, and the display table has
    the columns of the priority list that are present, in the order of the
    list. *)
Theorem display_skips_absent_columns
  (env : Env) (df_full dfm dff : DataFrame) (p : Period) (sel : FilterSelection) :
  df_monthly df_full p = Ok dfm ->
  df_filtered dfm sel = Ok dff ->
  (exists msgs d, format_display env dff = (msgs, Ok d))
  /\ (numeric_columns_float dff ->
      exists d, format_display env dff = ([], Ok d)
                /\ columns d = filter (has_column dff) display_cols).
Proof.
  intros Hm Hf. split.
  - unfold format_display. destruct (display_body env dff); eauto.
  - intros Hnum.
    destruct (filtered_date_column df_full dfm dff p sel Hm Hf) as (ts & Hdate).
    destruct (display_body_ok env dff ts Hnum Hdate) as (d & Hd & Hc).
    exists d. unfold format_display. rewrite Hd. auto.
Qed.

Lemma display_skips_absent_columns_witness :
  exists dff d,
    df_filtered sample_monthly sample_selection = Ok dff
    /\ format_display sample_env dff = ([], Ok d)
    /\ columns d =
         ["Date"; "Facility ID"; "Franchise"; "Sector"; "Product"; "Balance";
          "Margin"; "Net Interest Income"; "Fee Income"; "Credit Rating"; "RWA"].
Proof.
  eexists.
  destruct (display_skips_absent_columns sample_env sample_full sample_monthly
              _ sample_month sample_selection eq_refl eq_refl) as [_ H].
  destruct H as (d & Hd & Hc).
  - apply numeric_columns_floatb_sound. reflexivity.
  - exists d. split; [reflexivity|]. split; [exact Hd | exact Hc].
Defined.

(** ** Rounding *)

Lemma round_half_even_frac (n : Z) (d : positive) :
  round_half_even (n # d) =
    match 2 * (n mod Zpos d) ?= Zpos d with
    | Lt => n / Zpos d
    | Gt => n / Zpos d + 1
    | Eq => if Z.even (n / Zpos d) then n / Zpos d else n / Zpos d + 1
    end.
Proof.
  unfold round_half_even. cbv zeta.
  change (Qfloor (n # d)) with (n / Zpos d).
  assert (E : ((n # d) - inject_Z (n / Zpos d) ?= 1 # 2)%Q
              = (2 * (n mod Zpos d) ?= Zpos d)).
  { unfold Qcompare, Qminus, Qplus, Qopp, inject_Z. cbn [Qnum Qden].
    rewrite Pos.mul_1_r.
    pose proof (Z.div_mod n (Zpos d) ltac:(discriminate)) as Hdm.
    f_equal; lia. }
  rewrite E. reflexivity.
Qed.

Lemma round_half_even_comp (x y : Q) :
  (x == y)%Q -> round_half_even x = round_half_even y.
Proof.
  intros H. unfold round_half_even. cbv zeta.
  rewrite (Qfloor_comp x y H).
  assert (E : (x - inject_Z (Qfloor y) ?= 1 # 2)%Q
              = (y - inject_Z (Qfloor y) ?= 1 # 2)%Q)
    by (rewrite H; reflexivity).
  rewrite E. reflexivity.
Qed.

Lemma round_half_even_opp (x : Q) :
  round_half_even (- x) = - round_half_even x.
Proof.
  destruct x as [n d]. change (- (n # d))%Q with ((- n) # d).
  rewrite !round_half_even_frac.
  pose proof (Z.mod_pos_bound n (Zpos d) ltac:(reflexivity)) as Hb.
  destruct (Z.eq_dec (n mod Zpos d) 0) as [Hz|Hnz].
  - rewrite (Z.mod_opp_l_z n (Zpos d)) by (try discriminate; exact Hz).
    rewrite (Z.div_opp_l_z n (Zpos d)) by (try discriminate; exact Hz).
    rewrite Hz. simpl. reflexivity.
  - rewrite (Z.mod_opp_l_nz n (Zpos d)) by (try discriminate; exact Hnz).
    rewrite (Z.div_opp_l_nz n (Zpos d)) by (try discriminate; exact Hnz).
    assert (Hev : Z.even (- (n / Zpos d) - 1) = negb (Z.even (n / Zpos d))).
    { rewrite Z.even_sub, Z.even_opp. simpl.
      destruct (Z.even (n / Zpos d)); reflexivity. }
    rewrite Hev.
    destruct (Z.compare_spec (2 * (n mod Zpos d)) (Zpos d)) as [H|H|H];
      destruct (Z.compare_spec (2 * (Zpos d - n mod Zpos d)) (Zpos d))
        as [H'|H'|H']; try lia.
    destruct (Z.even (n / Zpos d)); simpl; lia.
Qed.

Lemma round_half_even_nonneg (x : Q) : (0 <= x)%Q -> 0 <= round_half_even x.
Proof.
  intros H. apply Qfloor_resp_le in H. change (Qfloor 0) with 0 in H.
  unfold round_half_even. cbv zeta.
  destruct (_ ?= _)%Q; [destruct (Z.even _)| |]; lia.
Qed.

Lemma round_half_even_nearest (x : Q) :
  (Qabs (x - inject_Z (round_half_even x)) <= 1 # 2)%Q.
Proof.
  apply Qabs_Qle_condition.
  destruct x as [n d]. rewrite round_half_even_frac.
  pose proof (Z.mod_pos_bound n (Zpos d) ltac:(reflexivity)) as Hb.
  pose proof (Z.div_mod n (Zpos d) ltac:(discriminate)) as Hdm.
  destruct (Z.compare_spec (2 * (n mod Zpos d)) (Zpos d)) as [H|H|H];
    [destruct (Z.even (n / Zpos d))| |];
    unfold Qle; simpl; rewrite ?Pos.mul_1_r; split; lia.
Qed.

(** ** Monetary display strings *)

Lemma digits_not_comma (d : Decimal.uint) :
  Forall (fun a => not_comma a = true)
         (list_ascii_of_string (NilEmpty.string_of_uint d)).
Proof.
  induction d; simpl; constructor; try reflexivity; assumption.
Qed.

Lemma group_rev_filter (ds : list ascii) (k : nat) :
  Forall (fun a => not_comma a = true) ds ->
  filter not_comma (group_rev ds k) = ds.
Proof.
  intros H. revert k. induction H as [|d rest Hd Hrest IH]; intros k.
  - reflexivity.
  - destruct rest as [|d' rest'].
    + simpl. rewrite Hd. reflexivity.
    + change (group_rev (d :: d' :: rest') k)
        with (if Nat.eqb k 2
              then d :: ","%char :: group_rev (d' :: rest') 0
              else d :: group_rev (d' :: rest') (S k)).
      destruct (Nat.eqb k 2).
      * change (filter not_comma (d :: ","%char :: group_rev (d' :: rest') 0))
          with (if not_comma d
                then d :: filter not_comma (group_rev (d' :: rest') 0)
                else filter not_comma (group_rev (d' :: rest') 0)).
        rewrite Hd, IH. reflexivity.
      * change (filter not_comma (d :: group_rev (d' :: rest') (S k)))
          with (if not_comma d
                then d :: filter not_comma (group_rev (d' :: rest') (S k))
                else filter not_comma (group_rev (d' :: rest') (S k))).
        rewrite Hd, IH. reflexivity.
Qed.

Lemma remove_char_group (s : string) :
  Forall (fun a => not_comma a = true) (list_ascii_of_string s) ->
  remove_char ","%char (group_thousands s) = s.
Proof.
  intros H. unfold remove_char, group_thousands.
  rewrite list_ascii_of_string_of_list_ascii.
  change (fun a => negb (Ascii.eqb a ","%char)) with not_comma.
  rewrite filter_rev, group_rev_filter by (apply Forall_rev; exact H).
  rewrite rev_involutive. apply string_of_list_ascii_of_string.
Qed.

Lemma remove_char_minus (s : string) :
  remove_char ","%char (String "-"%char s) = String "-"%char (remove_char ","%char s).
Proof. reflexivity. Qed.

Lemma substring_full (s : string) : String.substring 0 (String.length s) s = s.
Proof. induction s as [|a s IH]; simpl; [reflexivity | rewrite IH; reflexivity]. Qed.

Lemma strip_prefix_pound (s : string) : strip_prefix "£" ("£" ++ s) = s.
Proof.
  unfold strip_prefix. simpl.
  assert (E : String.prefix EmptyString s = true) by (destruct s; reflexivity).
  rewrite E, Nat.sub_0_r. apply substring_full.
Qed.

Lemma append_empty_r (s : string) : s ++ EmptyString = s.
Proof. induction s as [|a s IH]; simpl; [reflexivity | rewrite IH; reflexivity]. Qed.

Lemma parse_signed_digits (n : N) : parse_signed (N_digits n) = Some (Z.of_N n).
Proof.
  unfold N_digits.
  assert (E : forall d, parse_signed (NilEmpty.string_of_uint d)
                        = option_map (fun u => Z.of_N (N.of_uint u))
                            (NilEmpty.uint_of_string (NilEmpty.string_of_uint d)))
    by (intros d; destruct d; reflexivity).
  rewrite E, NilEmpty.usu. simpl. rewrite DecimalN.Unsigned.of_to. reflexivity.
Qed.

Lemma parse_signed_minus_digits (n : N) :
  parse_signed (String "-"%char (N_digits n)) = Some (- Z.of_N n).
Proof.
  unfold N_digits. simpl. rewrite NilEmpty.usu. simpl.
  rewrite DecimalN.Unsigned.of_to. reflexivity.
Qed.

(** The shape of a monetary display string: symbol, sign, grouped digits
    of the rounded magnitude. *)
Lemma format_currency_shape (x : Q) :
  format_currency x =
    "£" ++ (if Qlt_bool x 0 then "-" else EmptyString)
        ++ group_thousands (N_digits (Z.to_N (round_half_even (Qabs x)))).
Proof.
  unfold format_currency, format_fixed. cbv zeta.
  change (10 ^ Z.of_nat 0) with 1.
  rewrite Z.div_1_r, append_empty_r.
  rewrite (round_half_even_comp (Qabs x * inject_Z 1) (Qabs x))
    by apply Qmult_1_r.
  reflexivity.
Qed.

(** C8.  A monetary value formatted as its display string (currency
    symbol, thousands separators, no decimals) and read back after
    stripping the symbol and the separators is the value rounded to the
    nearest whole unit (a tie going to the even neighbour). *)
Theorem currency_round_trip (x : Q) :
  parse_currency (format_currency x) = Some (round_half_even x)
  /\ (Qabs (x - inject_Z (round_half_even x)) <= 1 # 2)%Q.
Proof.
  split; [|apply round_half_even_nearest].
  rewrite format_currency_shape. unfold parse_currency.
  rewrite strip_prefix_pound.
  assert (Hm : 0 <= round_half_even (Qabs x))
    by (apply round_half_even_nonneg, Qabs_nonneg).
  destruct (Qlt_bool x 0) eqn:E.
  - apply Qlt_bool_iff in E.
    change ("-" ++ group_thousands (N_digits (Z.to_N (round_half_even (Qabs x)))))
      with (String "-"%char
              (group_thousands (N_digits (Z.to_N (round_half_even (Qabs x)))))).
    rewrite remove_char_minus, remove_char_group by apply digits_not_comma.
    rewrite parse_signed_minus_digits, Z2N.id by exact Hm.
    rewrite (round_half_even_comp (Qabs x) (- x))
      by (apply Qabs_neg, Qlt_le_weak, E).
    rewrite round_half_even_opp, Z.opp_involutive. reflexivity.
  - apply Qlt_bool_false_iff in E.
    change (EmptyString ++ group_thousands (N_digits (Z.to_N (round_half_even (Qabs x)))))
      with (group_thousands (N_digits (Z.to_N (round_half_even (Qabs x))))).
    rewrite remove_char_group by apply digits_not_comma.
    rewrite parse_signed_digits, Z2N.id by exact Hm.
    rewrite (round_half_even_comp (Qabs x) x) by (apply Qabs_pos, E).
    reflexivity.
Qed.

(** ** Scenarios of the specification *)

(** Selecting 2025-02 out of rows for 2025-01 and 2025-02 keeps the
    February rows only. *)
Example month_filter_scenario :
  rbind (df_monthly sample_full (2025, 2)) (fun df => getitem df "Facility ID")
  = Ok (SObject ["F2"; "F3"; "F4"]).
Proof. reflexivity. Qed.

(** Balances 100 and 300 with margins 0.01 and 0.02: the weighted average
    is 0.0175, displayed as 1.75%. *)
Example weighted_margin_scenario :
  option_map (fun s => format_percent 2 (avg_margin s))
    (match monthly_summary two_facility_month with
     | Ok s => s
     | Raise _ => None
     end)
  = Some "1.75%".
Proof. vm_compute. reflexivity. Qed.

(** A negative largest Balance that is not a whole number is kept by the
    default range as well: [int] truncates towards zero. *)
Example default_range_keeps_negative_fractional_max :
  balance_slider overdrawn_pair_month = Ok (mkSlider (-3) 0 1)
  /\ rbind (default_selection overdrawn_pair_month)
        (fun sel => rbind (df_filtered overdrawn_pair_month sel)
                      (fun df => getitem df "Balance"))
     = Ok (SFloat [-1 # 2]).
Proof. split; vm_compute; reflexivity. Qed.

Example format_currency_examples :
  format_currency (1234567 # 2) = "£617,284"
  /\ format_currency (-2 # 5) = "£-0"
  /\ format_currency (999 # 1) = "£999"
  /\ format_currency (-1234567 # 1) = "£-1,234,567".
Proof. repeat split; vm_compute; reflexivity. Qed.

(** * Properties of the rest of the page *)

(** ** Groups *)

Section Grouping.
Context {K A : Type} (eqb : K -> K -> bool) (key : A -> K).
Hypothesis eqb_spec : forall a b, reflect (a = b) (eqb a b).

Lemma groups_nil (ks : list K) : flat_map (group_of eqb key []) ks = [].
Proof. induction ks as [|k ks IH]; simpl; [reflexivity | exact IH]. Qed.

Lemma groups_cons_other (a : A) (l : list A) (ks : list K) :
  ~ In (key a) ks -> flat_map (group_of eqb key (a :: l)) ks = flat_map (group_of eqb key l) ks.
Proof.
  induction ks as [|k ks IH]; simpl; intros Hnot; [reflexivity|].
  rewrite IH by tauto. f_equal. unfold group_of. simpl.
  destruct (eqb_spec (key a) k) as [E|_]; [|reflexivity].
  exfalso. apply Hnot. left. symmetry. exact E.
Qed.

(** Every list is a rearrangement of its groups put one after the other,
    for any list of keys without repetition that holds every key. *)
Lemma group_perm (l : list A) (ks : list K) :
  NoDup ks -> (forall a, In a l -> In (key a) ks) ->
  Permutation l (flat_map (group_of eqb key l) ks).
Proof.
  intros Hnd. induction l as [|a l IH]; intros Hkeys.
  - rewrite groups_nil. constructor.
  - destruct (in_split (key a) ks (Hkeys a (or_introl eq_refl)))
      as (ks1 & ks2 & Hks).
    assert (Hnd' := Hnd). rewrite Hks in Hnd'.
    apply NoDup_remove_2 in Hnd'.
    assert (H1 : ~ In (key a) ks1) by (intros H; apply Hnd', in_or_app; auto).
    assert (H2 : ~ In (key a) ks2) by (intros H; apply Hnd', in_or_app; auto).
    specialize (IH (fun x Hx => Hkeys x (or_intror Hx))).
    rewrite Hks in *. rewrite flat_map_app in *. simpl in *.
    rewrite (groups_cons_other a l ks1 H1), (groups_cons_other a l ks2 H2).
    unfold group_of at 2. simpl.
    destruct (eqb_spec (key a) (key a)) as [_|Hne];
      [|exfalso; apply Hne; reflexivity].
    simpl. apply Permutation_cons_app. exact IH.
Qed.

End Grouping.

(** ** The month selector *)

Lemma Period_eqb_spec (p q : Period) : reflect (p = q) (Period_eqb p q).
Proof.
  destruct (Period_eqb p q) eqn:E; constructor.
  - apply Period_eqb_eq. exact E.
  - intros H. apply Period_eqb_eq in H. congruence.
Qed.

Lemma unique_periods_In (p : Period) (ps : list Period) :
  In p (unique_periods ps) <-> In p ps.
Proof.
  induction ps as [|q ps IH]; simpl; [tauto|].
  rewrite filter_In, IH, negb_true_iff.
  destruct (Period_eqb_spec p q) as [->|Hne]; [tauto|].
  split.
  - intros [H|[H _]]; [left; exact H | right; exact H].
  - intros [H|H]; [left; exact H | right; split; [exact H | reflexivity]].
Qed.

Lemma unique_periods_NoDup (ps : list Period) : NoDup (unique_periods ps).
Proof.
  induction ps as [|q ps IH]; simpl; constructor.
  - rewrite filter_In. intros [_ H].
    destruct (Period_eqb_spec q q) as [_|Hne];
      [discriminate H | apply Hne; reflexivity].
  - apply NoDup_filter. exact IH.
Qed.

Lemma insert_desc_perm (p : Period) (l : list Period) :
  Permutation (insert_desc p l) (p :: l).
Proof.
  induction l as [|q l IH]; simpl; [reflexivity|].
  destruct (Period_leb q p); [reflexivity|].
  rewrite IH. apply perm_swap.
Qed.

Lemma sorted_reverse_perm (l : list Period) : Permutation (sorted_reverse l) l.
Proof.
  unfold sorted_reverse. induction l as [|p l IH]; simpl; [reflexivity|].
  rewrite insert_desc_perm. constructor. exact IH.
Qed.

Lemma insert_desc_sorted (p : Period) (l : list Period) :
  StronglySorted (fun a b => period_ordinal b <= period_ordinal a) l ->
  StronglySorted (fun a b => period_ordinal b <= period_ordinal a)
                 (insert_desc p l).
Proof.
  induction l as [|q l IH]; simpl; intros S.
  - constructor; constructor.
  - apply StronglySorted_inv in S. destruct S as [S F].
    unfold Period_leb. destruct (Z.leb_spec (period_ordinal q) (period_ordinal p)).
    + constructor; [constructor; assumption|].
      constructor; [assumption|].
      rewrite Forall_forall in *. intros y Hy. specialize (F y Hy). lia.
    + constructor; [apply IH; exact S|].
      eapply Permutation_Forall.
      * apply Permutation_sym, insert_desc_perm.
      * constructor; [lia | exact F].
Qed.

Lemma sorted_reverse_sorted (l : list Period) :
  StronglySorted (fun a b => period_ordinal b <= period_ordinal a)
                 (sorted_reverse l).
Proof.
  unfold sorted_reverse. induction l as [|p l IH]; simpl; [constructor|].
  apply insert_desc_sorted. exact IH.
Qed.

Lemma period_ordinal_inj (p q : Period) :
  valid_period p -> valid_period q ->
  period_ordinal p = period_ordinal q -> p = q.
Proof.
  destruct p as [y m], q as [y' m']. unfold valid_period, period_ordinal. simpl.
  intros [_ Hm] [_ Hm'] H.
  assert (y = y') by lia. subst y'. f_equal. lia.
Qed.

Lemma valid_periodb_sound (p : Period) : valid_periodb p = true -> valid_period p.
Proof.
  unfold valid_periodb, valid_period. rewrite !andb_true_iff, !Z.leb_le. tauto.
Qed.

Lemma valid_datesb_sound (df : DataFrame) : valid_datesb df = true -> valid_dates df.
Proof.
  unfold valid_datesb, valid_dates. intros H ts Hget. rewrite Hget in H.
  rewrite forallb_forall in H. apply Forall_forall. intros t Ht.
  apply valid_periodb_sound, H, Ht.
Qed.

(** A strictly sorted list from a sorted one without repetition. *)
Lemma sorted_strict (l : list Period) :
  Forall valid_period l -> NoDup l ->
  StronglySorted (fun a b => period_ordinal b <= period_ordinal a) l ->
  StronglySorted (fun a b => period_ordinal b < period_ordinal a) l.
Proof.
  induction l as [|p l IH]; intros Hv Hnd S; constructor.
  - apply IH.
    + inversion Hv; assumption.
    + inversion Hnd; assumption.
    + apply StronglySorted_inv in S. apply S.
  - apply StronglySorted_inv in S. destruct S as [_ F].
    inversion Hv as [|? ? Hp Hl]; subst. inversion Hnd as [|? ? Hnot _]; subst.
    rewrite Forall_forall in *. intros q Hq. specialize (F q Hq).
    destruct (Z.eq_dec (period_ordinal q) (period_ordinal p)) as [E|E]; [|lia].
    exfalso. apply Hnot.
    rewrite (period_ordinal_inj p q Hp (Hl q Hq) (eq_sym E)). exact Hq.
Qed.

Lemma available_months_value (df_full : DataFrame) (ts : list Timestamp) :
  getitem df_full "Date" = Ok (SDatetime ts) ->
  available_months df_full
  = Ok (sorted_reverse (unique_periods (map to_period ts))).
Proof. intros H. unfold available_months. rewrite H. reflexivity. Qed.

Lemma available_months_In (ts : list Timestamp) (p : Period) :
  In p (sorted_reverse (unique_periods (map to_period ts)))
  <-> exists t, In t ts /\ to_period t = p.
Proof.
  split.
  - intros H. apply (Permutation_in _ (sorted_reverse_perm _)) in H.
    apply unique_periods_In, in_map_iff in H.
    destruct H as (t & Ht & Hin). eauto.
  - intros (t & Hin & Ht).
    apply (Permutation_in _ (Permutation_sym (sorted_reverse_perm _))).
    apply unique_periods_In, in_map_iff. eauto.
Qed.

Lemma available_months_NoDup (ts : list Timestamp) :
  NoDup (sorted_reverse (unique_periods (map to_period ts))).
Proof.
  eapply Permutation_NoDup.
  - apply Permutation_sym, sorted_reverse_perm.
  - apply unique_periods_NoDup.
Qed.

(** X1.  The months offered by the month selector are exactly the months
    that occur in the Date column, each once, the most recent first. *)
Theorem available_months_sorted_exact (df_full : DataFrame) (ts : list Timestamp) :
  getitem df_full "Date" = Ok (SDatetime ts) ->
  Forall (fun t => valid_period (to_period t)) ts ->
  exists months,
    available_months df_full = Ok months
    /\ (forall p, In p months <-> exists t, In t ts /\ to_period t = p)
    /\ NoDup months
    /\ StronglySorted (fun a b => period_ordinal b < period_ordinal a) months.
Proof.
  intros Hget Hvalid. eexists. split; [apply available_months_value, Hget|].
  split; [apply available_months_In|].
  split; [apply available_months_NoDup|].
  apply sorted_strict.
  - apply Forall_forall. intros p Hp. apply available_months_In in Hp.
    destruct Hp as (t & Hin & <-). rewrite Forall_forall in Hvalid. auto.
  - apply available_months_NoDup.
  - apply sorted_reverse_sorted.
Qed.

Lemma available_months_sorted_exact_witness :
  exists months,
    available_months sample_full = Ok months
    /\ (forall p, In p months <->
          exists t, In t [mkTimestamp 2025 1 31; mkTimestamp 2025 2 28;
                          mkTimestamp 2025 2 28; mkTimestamp 2025 2 28]
                    /\ to_period t = p)
    /\ NoDup months
    /\ StronglySorted (fun a b => period_ordinal b < period_ordinal a) months.
Proof.
  apply (available_months_sorted_exact sample_full).
  - reflexivity.
  - repeat constructor; simpl; lia.
Defined.

(** X2.  On a frame with rows the month selector is never empty, and the
    month it preselects (index 0) is a month of the data that no row's
    month comes after. *)
Theorem default_month_is_latest (df_full : DataFrame) (ts : list Timestamp) :
  getitem df_full "Date" = Ok (SDatetime ts) ->
  ts <> [] ->
  exists latest rest,
    available_months df_full = Ok (latest :: rest)
    /\ selectbox default_widgets "Select Month"
         (month_display_list (latest :: rest))
       = Some (period_strftime latest)
    /\ (exists t, In t ts /\ to_period t = latest)
    /\ Forall (fun t => period_ordinal (to_period t) <= period_ordinal latest) ts.
Proof.
  intros Hget Hne. rewrite (available_months_value df_full ts Hget).
  destruct (sorted_reverse (unique_periods (map to_period ts)))
    as [|latest rest] eqn:E.
  - exfalso. destruct ts as [|t ts']; [apply Hne; reflexivity|].
    assert (H : In (to_period t)
                  (sorted_reverse (unique_periods (map to_period (t :: ts')))))
      by (apply available_months_In; exists t; simpl; auto).
    rewrite E in H. destruct H.
  - exists latest, rest. split; [reflexivity|]. split; [reflexivity|].
    split.
    + apply available_months_In. rewrite E. left. reflexivity.
    + apply Forall_forall. intros t Ht.
      assert (H : In (to_period t) (latest :: rest))
        by (rewrite <- E; apply available_months_In; eauto).
      pose proof (sorted_reverse_sorted (unique_periods (map to_period ts))) as S.
      rewrite E in S. apply StronglySorted_inv in S. destruct S as [_ F].
      destruct H as [<-|H]; [lia|].
      rewrite Forall_forall in F. apply F, H.
Qed.

Lemma default_month_is_latest_witness :
  exists latest rest,
    available_months sample_full = Ok (latest :: rest)
    /\ selectbox default_widgets "Select Month"
         (month_display_list (latest :: rest))
       = Some (period_strftime latest)
    /\ (exists t, In t [mkTimestamp 2025 1 31; mkTimestamp 2025 2 28;
                        mkTimestamp 2025 2 28; mkTimestamp 2025 2 28]
                  /\ to_period t = latest)
    /\ Forall (fun t => period_ordinal (to_period t) <= period_ordinal latest)
              [mkTimestamp 2025 1 31; mkTimestamp 2025 2 28;
               mkTimestamp 2025 2 28; mkTimestamp 2025 2 28].
Proof.
  apply (default_month_is_latest sample_full).
  - reflexivity.
  - discriminate.
Defined.

Lemma select_map_length {A B} (f : B -> bool) (xs : list A) (ys : list B) :
  List.length xs = List.length ys ->
  List.length (select (map f ys) xs) = List.length (filter f ys).
Proof.
  revert xs; induction ys as [|y ys IH]; intros [|x xs] H; simpl in *;
    try reflexivity; try discriminate H.
  injection H as H. destruct (f y); simpl; rewrite (IH xs H); reflexivity.
Qed.

(** The number of rows of a month's frame is the number of dates in that
    month. *)
Lemma df_monthly_nrows (df_full : DataFrame) (ts : list Timestamp) (p : Period) :
  wf_frame df_full ->
  getitem df_full "Date" = Ok (SDatetime ts) ->
  exists dfm, df_monthly df_full p = Ok dfm
              /\ nrows dfm = rows_in_month ts p.
Proof.
  intros Hwf Hget. unfold df_monthly. rewrite Hget. simpl.
  eexists. split; [reflexivity|].
  destruct df_full as [|[c0 s0] df]; [discriminate Hget|].
  change (nrows (loc ((c0, s0) :: df) ?m)) with (series_len (series_select m s0)).
  rewrite <- values_length, values_select. unfold rows_in_month.
  apply select_map_length. rewrite values_length.
  rewrite (Hwf c0 s0 (getitem_head c0 s0 df)).
  symmetry. apply (Hwf _ _ Hget).
Qed.

(** A month in which some row falls has a frame with rows. *)
Lemma df_monthly_nonempty
  (df_full : DataFrame) (ts : list Timestamp) (p : Period) (t : Timestamp) :
  wf_frame df_full ->
  getitem df_full "Date" = Ok (SDatetime ts) ->
  In t ts -> to_period t = p ->
  exists dfm, df_monthly df_full p = Ok dfm
              /\ (0 < nrows dfm)%nat /\ df_empty dfm = false.
Proof.
  intros Hwf Hget Ht Hp.
  destruct (df_monthly_nrows df_full ts p Hwf Hget) as (dfm & Hm & Hn).
  exists dfm. split; [exact Hm|].
  assert (Hpos : (0 < nrows dfm)%nat).
  { rewrite Hn. unfold rows_in_month.
    assert (Hf : In t (filter (fun t => Period_eqb (to_period t) p) ts))
      by (apply filter_In; split; [exact Ht | apply Period_eqb_eq; exact Hp]).
    destruct (filter _ ts); [destruct Hf | simpl; lia]. }
  split; [exact Hpos|].
  destruct dfm as [|[c s] dfm]; simpl in *; [lia|].
  apply Nat.eqb_neq. lia.
Qed.

(** X3.  Every month the selector offers has rows: on a well-formed frame
    the month filter returns a frame that is not empty, so neither the
    "no data available" message of the summary nor the "no data matches"
    warning can follow a choice in the selector. *)
Theorem offered_month_has_rows
  (df_full : DataFrame) (ts : list Timestamp) (months : list Period) (p : Period) :
  wf_frame df_full ->
  getitem df_full "Date" = Ok (SDatetime ts) ->
  available_months df_full = Ok months ->
  In p months ->
  exists dfm, df_monthly df_full p = Ok dfm
              /\ (0 < nrows dfm)%nat /\ df_empty dfm = false.
Proof.
  intros Hwf Hget Hmonths Hin.
  rewrite (available_months_value df_full ts Hget) in Hmonths.
  injection Hmonths as <-. apply available_months_In in Hin.
  destruct Hin as (t & Ht & Hp).
  apply (df_monthly_nonempty df_full ts p t); assumption.
Qed.

Lemma offered_month_has_rows_witness :
  exists dfm, df_monthly sample_full (2025, 1) = Ok dfm
              /\ (0 < nrows dfm)%nat /\ df_empty dfm = false.
Proof.
  apply (offered_month_has_rows sample_full
           [mkTimestamp 2025 1 31; mkTimestamp 2025 2 28;
            mkTimestamp 2025 2 28; mkTimestamp 2025 2 28]
           [(2025, 2); (2025, 1)]).
  - apply wf_frameb_sound. reflexivity.
  - reflexivity.
  - reflexivity.
  - simpl. auto.
Defined.

Lemma length_flat_map {A B} (f : A -> list B) (l : list A) :
  List.length (flat_map f l) = nat_sum (map (fun a => List.length (f a)) l).
Proof.
  induction l as [|a l IH]; simpl; [reflexivity|].
  rewrite length_app, IH. reflexivity.
Qed.

(** X4.  The months of the selector split the table: every row belongs to
    the frame of exactly one offered month, so the row counts of the
    monthly frames add up to the row count of the table. *)
Theorem months_partition_rows (df_full : DataFrame) (ts : list Timestamp) :
  wf_frame df_full ->
  getitem df_full "Date" = Ok (SDatetime ts) ->
  exists months,
    available_months df_full = Ok months
    /\ nat_sum (map (fun p => match df_monthly df_full p with
                              | Ok dfm => nrows dfm
                              | Raise _ => O
                              end) months)
       = nrows df_full.
Proof.
  intros Hwf Hget. eexists. split; [apply available_months_value, Hget|].
  rewrite (map_ext _ (rows_in_month ts)).
  - rewrite <- (Hwf _ _ Hget). simpl.
    pose proof (group_perm Period_eqb to_period Period_eqb_spec ts
                  (sorted_reverse (unique_periods (map to_period ts)))
                  (available_months_NoDup ts)) as P.
    rewrite (Permutation_length (P ltac:(intros t Ht; apply available_months_In; eauto))).
    apply eq_sym, length_flat_map.
  - intros p. destruct (df_monthly_nrows df_full ts p Hwf Hget) as (dfm & -> & Hn).
    exact Hn.
Qed.

Lemma months_partition_rows_witness :
  exists months,
    available_months sample_full = Ok months
    /\ nat_sum (map (fun p => match df_monthly sample_full p with
                              | Ok dfm => nrows dfm
                              | Raise _ => O
                              end) months)
       = nrows sample_full.
Proof.
  apply (months_partition_rows sample_full
           [mkTimestamp 2025 1 31; mkTimestamp 2025 2 28;
            mkTimestamp 2025 2 28; mkTimestamp 2025 2 28]).
  - apply wf_frameb_sound. reflexivity.
  - reflexivity.
Defined.

(** ** The sidebar options *)

Lemma insert_sorted_perm (x : string) (l : list string) :
  Permutation (insert_sorted x l) (x :: l).
Proof.
  induction l as [|y l IH]; simpl; [reflexivity|].
  destruct (String.leb x y); [reflexivity|].
  rewrite IH. apply perm_swap.
Qed.

Lemma sorted_perm (l : list string) : Permutation (sorted l) l.
Proof.
  unfold sorted. induction l as [|x l IH]; simpl; [reflexivity|].
  rewrite insert_sorted_perm. constructor. exact IH.
Qed.

Lemma insert_sorted_Sorted (x : string) (l : list string) :
  Sorted (fun a b => String.leb a b = true) l ->
  Sorted (fun a b => String.leb a b = true) (insert_sorted x l).
Proof.
  induction l as [|y l IH]; simpl; intros S.
  - constructor; constructor.
  - destruct (String.leb x y) eqn:E.
    + constructor; [exact S | constructor; exact E].
    + apply Sorted_inv in S. destruct S as [S H].
      constructor; [apply IH; exact S|].
      assert (Hyx : String.leb y x = true)
        by (destruct (String.leb_total x y); congruence).
      destruct l as [|z l]; simpl.
      * constructor. exact Hyx.
      * destruct (String.leb x z); constructor; [exact Hyx|].
        inversion H; assumption.
Qed.

Lemma sorted_Sorted (l : list string) :
  Sorted (fun a b => String.leb a b = true) (sorted l).
Proof.
  unfold sorted. induction l as [|x l IH]; simpl; [constructor|].
  apply insert_sorted_Sorted. exact IH.
Qed.

Lemma leb_neq_ltb (a b : string) :
  String.leb a b = true -> a <> b -> String.ltb a b = true.
Proof.
  unfold String.leb, String.ltb. intros Hle Hne.
  destruct (String.compare a b) eqn:E; try reflexivity; try discriminate Hle.
  apply String.compare_eq_iff in E. contradiction.
Qed.

Lemma Sorted_strict (l : list string) :
  NoDup l -> Sorted (fun a b => String.leb a b = true) l ->
  Sorted (fun a b => String.ltb a b = true) l.
Proof.
  induction l as [|a l IH]; intros Hnd S; constructor.
  - apply IH; [inversion Hnd; assumption | apply Sorted_inv in S; apply S].
  - apply Sorted_inv in S. destruct S as [_ H].
    inversion Hnd as [|? ? Hnot _]; subst.
    destruct l as [|b l]; constructor.
    inversion H; subst. apply leb_neq_ltb; [assumption|].
    intros ->. apply Hnot. left. reflexivity.
Qed.

(** X5.  The options of a categorical filter are exactly the values that
    occur in the month's column, each once, in ascending order. *)
Theorem options_sorted_exact (dfm : DataFrame) (col : string) (xs : list string) :
  getitem dfm col = Ok (SObject xs) ->
  exists options,
    options_of dfm col = Ok options
    /\ (forall x, In x options <-> In x xs)
    /\ NoDup options
    /\ Sorted (fun a b => String.ltb a b = true) options.
Proof.
  intros Hget. unfold options_of. rewrite Hget. simpl.
  eexists. split; [reflexivity|].
  assert (Hnd : NoDup (sorted (unique xs))).
  { eapply Permutation_NoDup;
      [apply Permutation_sym, sorted_perm | apply unique_NoDup]. }
  split; [|split; [exact Hnd | apply Sorted_strict; [exact Hnd | apply sorted_Sorted]]].
  intros x. split; intros H.
  - apply (proj1 (unique_In x xs)).
    apply (Permutation_in _ (sorted_perm _)). exact H.
  - apply (Permutation_in _ (Permutation_sym (sorted_perm _))).
    apply (proj2 (unique_In x xs)). exact H.
Qed.

Lemma options_sorted_exact_witness :
  exists options,
    options_of sample_monthly "Sector" = Ok options
    /\ (forall x, In x options <-> In x ["Energy"; "Retail"; "Energy"])
    /\ NoDup options
    /\ Sorted (fun a b => String.ltb a b = true) options.
Proof.
  apply (options_sorted_exact sample_monthly "Sector").
  reflexivity.
Defined.

(** ** Runs *)

Lemma pbind_lift_Ok {A B} (a : A) (k : A -> run B) :
  pbind (lift (Ok a)) k = k a.
Proof. unfold pbind, lift. simpl. destruct (k a). reflexivity. Qed.

Lemma pbind_lift_Raise {A B} (e : PyExc) (k : A -> run B) :
  pbind (lift (Raise e)) k = ([], Raise e).
Proof. reflexivity. Qed.

Lemma pbind_emit {B} (el : Element) (k : unit -> run B) :
  pbind (emit el) k = (el :: fst (k tt), snd (k tt)).
Proof. reflexivity. Qed.

Lemma pbind_Ok_inv {A B} (m : run A) (k : A -> run B) (out : list Element) (b : B) :
  pbind m k = (out, Ok b) ->
  exists o1 a o2, m = (o1, Ok a) /\ k a = (o2, Ok b) /\ out = (o1 ++ o2)%list.
Proof.
  destruct m as [o1 [a|e]]; simpl; intros H; [|discriminate H].
  destruct (k a) as [o2 r] eqn:E. simpl in H. injection H as <- ->.
  exists o1, a, o2. auto.
Qed.

(** What the sidebar returns when its options and its slider can be
    computed. *)
Lemma sidebar_filters_inv (w : Widgets) (dfm : DataFrame)
  (out : list Element) (sel : FilterSelection) :
  sidebar_filters w dfm = (out, Ok sel) ->
  exists fo so ro po args,
    options_of dfm "Franchise" = Ok fo
    /\ options_of dfm "Sector" = Ok so
    /\ rating_options dfm = Ok ro
    /\ options_of dfm "Product" = Ok po
    /\ balance_slider dfm = Ok args
    /\ sel = mkSelection (multiselect w "Franchise" fo)
                         (multiselect w "Sector" so)
                         (multiselect w "Credit Rating" ro)
                         (multiselect w "Product" po)
                         (slider w "Balance Range (£)" args).
Proof.
  unfold sidebar_filters. intros H.
  destruct (options_of dfm "Franchise") as [fo|e];
    [rewrite pbind_lift_Ok in H | discriminate H].
  destruct (options_of dfm "Sector") as [so|e];
    [rewrite pbind_lift_Ok in H | discriminate H].
  destruct (rating_options dfm) as [ro|e];
    [rewrite pbind_lift_Ok in H | discriminate H].
  destruct (options_of dfm "Product") as [po|e];
    [rewrite pbind_lift_Ok in H | discriminate H].
  rewrite !pbind_emit in H. cbn [fst snd] in H.
  destruct (balance_slider dfm) as [args|e];
    [rewrite pbind_lift_Ok in H | discriminate H].
  rewrite !pbind_emit in H. cbn [fst snd] in H.
  injection H as _ <-.
  exists fo, so, ro, po, args. repeat split; reflexivity.
Qed.

(** With the widgets untouched the sidebar returns the default selection. *)
Lemma sidebar_filters_default (dfm : DataFrame) :
  snd (sidebar_filters default_widgets dfm) = default_selection dfm.
Proof.
  unfold sidebar_filters, default_selection.
  destruct (options_of dfm "Franchise") as [fo|e]; [rewrite pbind_lift_Ok | reflexivity].
  destruct (options_of dfm "Sector") as [so|e]; [rewrite pbind_lift_Ok | reflexivity].
  destruct (rating_options dfm) as [ro|e]; [rewrite pbind_lift_Ok | reflexivity].
  destruct (options_of dfm "Product") as [po|e]; [rewrite pbind_lift_Ok | reflexivity].
  rewrite !pbind_emit. cbn [fst snd rbind].
  destruct (balance_slider dfm) as [args|e]; [rewrite pbind_lift_Ok | reflexivity].
  rewrite !pbind_emit. reflexivity.
Qed.

(** X6.  Whatever the user selects in the sidebar, no row whose Credit
    Rating is outside the scale [AAA, AA, A, BBB, BB, B, CCC] reaches the
    filtered frame: such a rating is never offered, so it cannot be
    selected. *)
Theorem off_scale_ratings_filtered_out
  (w : Widgets) (dfm dff : DataFrame) (out : list Element) (sel : FilterSelection) :
  widgets_ok w ->
  sidebar_filters w dfm = (out, Ok sel) ->
  df_filtered dfm sel = Ok dff ->
  forall i v, cell dff "Credit Rating" i = Some v ->
    exists r, v = VStr r /\ In r ["AAA"; "AA"; "A"; "BBB"; "BB"; "B"; "CCC"].
Proof.
  intros [_ Hmulti] Hside Hf i v Hcell.
  apply sidebar_filters_inv in Hside.
  destruct Hside as (fo & so & ro & po & args & _ & _ & Hro & _ & _ & ->).
  destruct (rating_options_inv dfm ro Hro) as (Hscale & xs & Hxs).
  assert (Hget : exists ratings, getitem dff "Credit Rating" = Ok (SObject ratings)).
  { pose proof Hf as Hf'. unfold df_filtered in Hf'. apply rbind_Ok in Hf'.
    destruct Hf' as (mask & _ & Hf'). injection Hf' as <-.
    eexists. rewrite (getitem_loc_Ok _ _ _ _ Hxs). reflexivity. }
  destruct Hget as (ratings & Hget).
  pose proof (filtered_ratings_selected dfm dff _ ratings Hf Hget) as Hsel.
  simpl in Hsel. unfold cell in Hcell. rewrite Hget in Hcell.
  apply nth_error_In in Hcell. simpl in Hcell. apply in_map_iff in Hcell.
  destruct Hcell as (r & <- & Hr). exists r. split; [reflexivity|].
  rewrite Forall_forall in Hsel.
  apply Hscale, (Hmulti "Credit Rating" ro), Hsel, Hr.
Qed.

Lemma default_widgets_ok : widgets_ok default_widgets.
Proof.
  split.
  - intros label [|x options] Hne; [contradiction|].
    exists x. simpl. auto.
  - intros label options x Hx. exact Hx.
Qed.

Lemma off_scale_ratings_filtered_out_witness :
  exists r, VStr "A" = VStr r /\ In r ["AAA"; "AA"; "A"; "BBB"; "BB"; "B"; "CCC"].
Proof.
  eapply (off_scale_ratings_filtered_out default_widgets off_scale_month
            _ _ _ default_widgets_ok) with (i := O).
  - vm_compute. reflexivity.
  - vm_compute. reflexivity.
  - reflexivity.
Defined.

(** The facility rated D is dropped although no filter was narrowed. *)
Example off_scale_row_dropped_by_default :
  rbind (default_selection off_scale_month)
        (fun sel => rbind (df_filtered off_scale_month sel)
                      (fun df => getitem df "Credit Rating"))
  = Ok (SObject ["A"]).
Proof. vm_compute. reflexivity. Qed.

(** ** The Balance slider, again *)

Lemma qmin_list_le_head (x : Q) (xs : list Q) : (qmin_list x xs <= x)%Q.
Proof.
  revert x; induction xs as [|y xs IH]; intros x; simpl; [apply Qle_refl|].
  destruct (Qle_bool y x) eqn:E.
  - apply Qle_bool_iff in E. eapply Qle_trans; [apply IH | exact E].
  - apply IH.
Qed.

Lemma qmin_list_le_all (x : Q) (xs : list Q) :
  Forall (fun b => (qmin_list x xs <= b)%Q) xs.
Proof.
  revert x; induction xs as [|y xs IH]; intros x; simpl; constructor.
  - destruct (Qle_bool y x) eqn:E.
    + apply qmin_list_le_head.
    + eapply Qle_trans; [apply qmin_list_le_head|].
      apply Qlt_le_weak, Qlt_bool_iff. unfold Qlt_bool. rewrite E. reflexivity.
  - apply IH.
Qed.

Lemma qmax_list_ge_head (x : Q) (xs : list Q) : (x <= qmax_list x xs)%Q.
Proof.
  revert x; induction xs as [|y xs IH]; intros x; simpl; [apply Qle_refl|].
  destruct (Qle_bool x y) eqn:E.
  - apply Qle_bool_iff in E. eapply Qle_trans; [exact E | apply IH].
  - apply IH.
Qed.

Lemma qmax_list_ge_all (x : Q) (xs : list Q) :
  Forall (fun b => (b <= qmax_list x xs)%Q) xs.
Proof.
  revert x; induction xs as [|y xs IH]; intros x; simpl; constructor.
  - destruct (Qle_bool x y) eqn:E.
    + apply qmax_list_ge_head.
    + eapply Qle_trans; [|apply qmax_list_ge_head].
      apply Qlt_le_weak, Qlt_bool_iff. unfold Qlt_bool. rewrite E. reflexivity.
  - apply IH.
Qed.

(** [series.min()] and [series.max()] bound every entry. *)
Lemma series_min_max_bounds (bal : list Q) (lo hi : Q) :
  series_min bal = Ok lo -> series_max bal = Ok hi ->
  Forall (fun b => (lo <= b)%Q /\ (b <= hi)%Q) bal.
Proof.
  destruct bal as [|x xs]; simpl; intros Hlo Hhi; [discriminate Hlo|].
  injection Hlo as <-. injection Hhi as <-.
  pose proof (qmin_list_le_all x xs) as Hmin.
  pose proof (qmax_list_ge_all x xs) as Hmax.
  rewrite Forall_forall in *. intros b [<-|Hb].
  - split; [apply qmin_list_le_head | apply qmax_list_ge_head].
  - split; [apply Hmin, Hb | apply Hmax, Hb].
Qed.

Lemma py_int_nonneg (x : Q) : (0 <= x)%Q -> py_int x = Qfloor x.
Proof.
  destruct x as [n d]. unfold py_int, Qfloor, Qle. simpl. intros H.
  apply Z.quot_div_nonneg; lia.
Qed.

Lemma py_int_nonpos (x : Q) : (x <= 0)%Q -> py_int x = Qceiling x.
Proof.
  destruct x as [n d]. unfold py_int, Qceiling, Qfloor, Qle. simpl. intros H.
  rewrite <- (Z.opp_involutive n) at 1. rewrite Z.quot_opp_l by discriminate.
  f_equal. apply Z.quot_div_nonneg; lia.
Qed.

(** [int] never moves a number by a whole unit. *)
Lemma py_int_within_one (x : Q) :
  (inject_Z (py_int x) - 1 < x)%Q /\ (x < inject_Z (py_int x) + 1)%Q.
Proof.
  destruct (Qlt_le_dec x 0) as [Hneg|Hpos].
  - rewrite (py_int_nonpos x (Qlt_le_weak _ _ Hneg)).
    pose proof (Qceiling_lt x) as H1. pose proof (Qle_ceiling x) as H2.
    unfold Z.sub in H1. rewrite inject_Z_plus, inject_Z_opp in H1.
    split; [exact H1|].
    eapply Qle_lt_trans; [exact H2|].
    rewrite <- (Qplus_0_r (inject_Z (Qceiling x))) at 1.
    apply Qplus_lt_r. reflexivity.
  - rewrite (py_int_nonneg x Hpos).
    pose proof (Qfloor_le x) as H1. pose proof (Qlt_floor x) as H2.
    rewrite inject_Z_plus in H2. split; [|exact H2].
    eapply Qlt_le_trans; [|exact H1].
    rewrite <- (Qplus_0_r (inject_Z (Qfloor x))) at 2.
    unfold Qminus. apply Qplus_lt_r. reflexivity.
Qed.

Lemma py_int_mono (x y : Q) : (x <= y)%Q -> py_int x <= py_int y.
Proof.
  intros H.
  destruct (Qlt_le_dec x 0) as [Hx|Hx], (Qlt_le_dec y 0) as [Hy|Hy].
  - rewrite (py_int_nonpos x (Qlt_le_weak _ _ Hx)),
            (py_int_nonpos y (Qlt_le_weak _ _ Hy)).
    apply Qceiling_resp_le. exact H.
  - rewrite (py_int_nonpos x (Qlt_le_weak _ _ Hx)), (py_int_nonneg y Hy).
    apply Qlt_le_weak, Qceiling_resp_le in Hx. change (Qceiling 0) with 0 in Hx.
    apply Qfloor_resp_le in Hy. change (Qfloor 0) with 0 in Hy. lia.
  - exfalso. apply (Qlt_irrefl 0).
    eapply Qle_lt_trans; [exact Hx|]. eapply Qle_lt_trans; [exact H | exact Hy].
  - rewrite (py_int_nonneg x Hx), (py_int_nonneg y Hy).
    apply Qfloor_resp_le. exact H.
Qed.

(** X7.  On every month with rows the arguments of the Balance slider are
    well-formed: the step is at least 1 and the lower bound is strictly
    below the upper bound, also when all Balances are equal or differ by
    less than one unit. *)
Theorem slider_well_formed (dfm : DataFrame) (bal : list Q) :
  getitem dfm "Balance" = Ok (SFloat bal) ->
  bal <> [] ->
  exists args,
    balance_slider dfm = Ok args
    /\ 1 <= step args
    /\ min_value args < max_value args.
Proof.
  intros Hget Hne.
  destruct bal as [|x xs]; [contradiction|].
  assert (Hlo : series_min (x :: xs) = Ok (qmin_list x xs)) by reflexivity.
  assert (Hhi : series_max (x :: xs) = Ok (qmax_list x xs)) by reflexivity.
  rewrite (balance_slider_value dfm _ _ _ Hget Hlo Hhi).
  eexists. split; [reflexivity|]. simpl. split; [lia|].
  destruct (py_int (qmin_list x xs) >=? py_int (qmax_list x xs)) eqn:E; [lia|].
  rewrite Z.geb_leb in E. apply Z.leb_gt in E. exact E.
Qed.

Lemma slider_well_formed_witness :
  exists args,
    balance_slider single_facility_month = Ok args
    /\ 1 <= step args
    /\ min_value args < max_value args.
Proof.
  apply (slider_well_formed single_facility_month [201 # 2]).
  - reflexivity.
  - discriminate.
Defined.

(** X8.  The slider's range misses no Balance of the month by a whole
    unit: every Balance lies strictly between the lower bound minus 1 and
    the upper bound plus 1. *)
Theorem slider_range_within_one (dfm : DataFrame) (bal : list Q) (args : Slider) :
  getitem dfm "Balance" = Ok (SFloat bal) ->
  balance_slider dfm = Ok args ->
  Forall (fun b => (inject_Z (min_value args) - 1 < b)%Q
                   /\ (b < inject_Z (max_value args) + 1)%Q) bal.
Proof.
  intros Hget Hargs.
  destruct bal as [|x xs]; [constructor|].
  assert (Hlo : series_min (x :: xs) = Ok (qmin_list x xs)) by reflexivity.
  assert (Hhi : series_max (x :: xs) = Ok (qmax_list x xs)) by reflexivity.
  rewrite (balance_slider_value dfm _ _ _ Hget Hlo Hhi) in Hargs.
  injection Hargs as <-. simpl.
  pose proof (series_min_max_bounds _ _ _ Hlo Hhi) as Hb.
  destruct (py_int_within_one (qmin_list x xs)) as [Hl _].
  destruct (py_int_within_one (qmax_list x xs)) as [_ Hh].
  set (lo := qmin_list x xs) in *. set (hi := qmax_list x xs) in *.
  assert (Hmax : py_int hi <=
                 (if py_int lo >=? py_int hi
                  then py_int lo + Z.max 1 ((py_int hi - py_int lo) / 100)
                  else py_int hi)).
  { destruct (py_int lo >=? py_int hi) eqn:E; [|lia].
    apply Z.geb_le in E. lia. }
  rewrite Forall_forall in *. intros b Hin. destruct (Hb b Hin) as [H1 H2].
  split.
  - eapply Qlt_le_trans; [exact Hl | exact H1].
  - eapply Qle_lt_trans; [exact H2|]. eapply Qlt_le_trans; [exact Hh|].
    apply Qplus_le_l. rewrite <- Zle_Qle. exact Hmax.
Qed.

Lemma slider_range_within_one_witness :
  Forall (fun b => (inject_Z 100 - 1 < b)%Q /\ (b < inject_Z 300 + 1)%Q)
         [100 # 1; 300 # 1; 601 # 2].
Proof.
  apply (slider_range_within_one sample_monthly [100 # 1; 300 # 1; 601 # 2]
           (mkSlider 100 300 2)).
  - reflexivity.
  - reflexivity.
Defined.

(** ** The filters as operations on frames *)

Lemma columns_loc (df : DataFrame) (m : list bool) : columns (loc df m) = columns df.
Proof. unfold columns, loc. rewrite map_map. reflexivity. Qed.

Lemma select_length_le {A} (m : list bool) (xs : list A) :
  (List.length (select m xs) <= List.length xs)%nat.
Proof.
  revert xs; induction m as [|b m IH]; intros [|x xs]; simpl; try lia.
  specialize (IH xs). destruct b; simpl; lia.
Qed.

Lemma nrows_loc_le (df : DataFrame) (m : list bool) :
  (nrows (loc df m) <= nrows df)%nat.
Proof.
  destruct df as [|[c s] df]; simpl; [lia|].
  rewrite <- !values_length, values_select. apply select_length_le.
Qed.

Lemma df_filtered_loc (dfm dff : DataFrame) (sel : FilterSelection) :
  df_filtered dfm sel = Ok dff ->
  exists mask, filter_mask dfm sel = Ok mask /\ dff = loc dfm mask.
Proof.
  unfold df_filtered. intros H. apply rbind_Ok in H.
  destruct H as (mask & Hmask & H). injection H as <-. eauto.
Qed.

(** X9.  The month filter and the sidebar filters only drop rows: the
    filtered frame has the columns of the table, in the same order, it is
    well-formed when the table is, and it has no more rows than the month's
    frame, which has no more rows than the table. *)
Theorem filters_only_drop_rows
  (df_full dfm dff : DataFrame) (p : Period) (sel : FilterSelection) :
  df_monthly df_full p = Ok dfm ->
  df_filtered dfm sel = Ok dff ->
  columns dff = columns df_full
  /\ (nrows dff <= nrows dfm)%nat
  /\ (nrows dfm <= nrows df_full)%nat
  /\ (wf_frame df_full -> wf_frame dff).
Proof.
  intros Hm Hf.
  apply df_monthly_inv in Hm. destruct Hm as (ts & _ & ->).
  apply df_filtered_loc in Hf. destruct Hf as (mask & _ & ->).
  rewrite !columns_loc. split; [reflexivity|].
  split; [apply nrows_loc_le|]. split; [apply nrows_loc_le|].
  intros Hwf. apply wf_loc, wf_loc, Hwf.
Qed.

Lemma filters_only_drop_rows_witness :
  columns sample_filtered = columns sample_full
  /\ (nrows sample_filtered <= nrows sample_monthly)%nat
  /\ (nrows sample_monthly <= nrows sample_full)%nat
  /\ (wf_frame sample_full -> wf_frame sample_filtered).
Proof.
  apply (filters_only_drop_rows sample_full sample_monthly sample_filtered
           sample_month sample_selection).
  - reflexivity.
  - reflexivity.
Defined.

(** *** Masks that keep every row *)

Lemma select_all_true {A} (m : list bool) (xs : list A) :
  Forall (fun b => b = true) m -> (List.length xs <= List.length m)%nat ->
  select m xs = xs.
Proof.
  intros H. revert xs. induction H as [|b m Hb _ IH]; intros [|x xs] Hlen;
    simpl in *; try reflexivity; try lia.
  rewrite Hb, IH by lia. reflexivity.
Qed.

Lemma mand_all_true (m1 m2 : list bool) :
  Forall (fun b => b = true) m1 -> Forall (fun b => b = true) m2 ->
  List.length m1 = List.length m2 ->
  Forall (fun b => b = true) (mand m1 m2)
  /\ List.length (mand m1 m2) = List.length m1.
Proof.
  intros H1. revert m2. induction H1 as [|a m1 Ha _ IH]; intros [|b m2] H2 Hlen;
    simpl in *; try discriminate Hlen; [split; [constructor | reflexivity]|].
  inversion H2 as [|? ? Hb H2']; subst.
  destruct (IH m2 H2' ltac:(lia)) as [IH1 IH2].
  split; [constructor; [reflexivity | exact IH1] | rewrite IH2; reflexivity].
Qed.

Lemma wf_frameb_Forall (df : DataFrame) :
  wf_frameb df = true <->
  Forall (fun cs => series_len (snd cs) = nrows df) df.
Proof.
  unfold wf_frameb. rewrite forallb_forall, Forall_forall.
  split; intros H cs Hin; [apply Nat.eqb_eq | apply Nat.eqb_eq]; apply H, Hin.
Qed.

Lemma series_select_all_true (m : list bool) (s : Series) :
  Forall (fun b => b = true) m -> (series_len s <= List.length m)%nat ->
  series_select m s = s.
Proof.
  intros H Hlen. destruct s; simpl in *; rewrite select_all_true; auto.
Qed.

(** A mask that is true on every row leaves the frame as it is. *)
Lemma loc_all_true (df : DataFrame) (m : list bool) :
  wf_frameb df = true -> Forall (fun b => b = true) m ->
  (nrows df <= List.length m)%nat ->
  loc df m = df.
Proof.
  intros Hwf Hm Hlen. apply wf_frameb_Forall in Hwf.
  generalize dependent (nrows df). intros n Hwf Hlen.
  induction Hwf as [|[c s] df Hs _ IH]; simpl; [reflexivity|].
  simpl in Hs. rewrite series_select_all_true by (try assumption; lia).
  f_equal. exact IH.
Qed.

Lemma getitem_In (df : DataFrame) (col : string) (s : Series) :
  getitem df col = Ok s -> exists c, In (c, s) df.
Proof.
  induction df as [|[c s0] df IH]; simpl; [discriminate|].
  destruct (String.eqb col c).
  - intros H. injection H as <-. exists c. auto.
  - intros H. destruct (IH H) as (c' & Hc'). exists c'. auto.
Qed.

Lemma wf_frameb_getitem (df : DataFrame) (col : string) (s : Series) :
  wf_frameb df = true -> getitem df col = Ok s -> series_len s = nrows df.
Proof.
  intros Hwf Hget. apply wf_frameb_Forall in Hwf.
  destruct (getitem_In df col s Hget) as (c & Hin).
  rewrite Forall_forall in Hwf. apply (Hwf _ Hin).
Qed.

Lemma isin_length (s : Series) (vals : list string) :
  List.length (isin s vals) = series_len s.
Proof. destruct s; simpl; apply length_map. Qed.

(** When each of the six masks keeps every row, so does their conjunction,
    and the filter returns the frame it was given. *)
Lemma df_filtered_identity (df : DataFrame) (sel : FilterSelection)
  (f s r p : Series) (b : list Q) :
  wf_frameb df = true ->
  getitem df "Franchise" = Ok f -> getitem df "Sector" = Ok s ->
  getitem df "Credit Rating" = Ok r -> getitem df "Product" = Ok p ->
  getitem df "Balance" = Ok (SFloat b) ->
  Forall (fun x => x = true) (isin f (selected_franchises sel)) ->
  Forall (fun x => x = true) (isin s (selected_sectors sel)) ->
  Forall (fun x => x = true) (isin r (selected_ratings sel)) ->
  Forall (fun x => x = true) (isin p (selected_products sel)) ->
  Forall (fun x => x = true) (ge_int b (fst (balance_range sel))) ->
  Forall (fun x => x = true) (le_int b (snd (balance_range sel))) ->
  df_filtered df sel = Ok df.
Proof.
  intros Hwf Hf Hs Hr Hp Hb T1 T2 T3 T4 T5 T6.
  unfold df_filtered, filter_mask. rewrite Hf, Hs, Hr, Hp, Hb. simpl.
  f_equal.
  pose proof (wf_frameb_getitem df _ _ Hwf Hf) as L1.
  pose proof (wf_frameb_getitem df _ _ Hwf Hs) as L2.
  pose proof (wf_frameb_getitem df _ _ Hwf Hr) as L3.
  pose proof (wf_frameb_getitem df _ _ Hwf Hp) as L4.
  pose proof (wf_frameb_getitem df _ _ Hwf Hb) as L5. simpl in L5.
  assert (N5 : List.length (ge_int b (fst (balance_range sel))) = nrows df)
    by (unfold ge_int; rewrite length_map; exact L5).
  assert (N6 : List.length (le_int b (snd (balance_range sel))) = nrows df)
    by (unfold le_int; rewrite length_map; exact L5).
  destruct (mand_all_true _ _ T5 T6 ltac:(congruence)) as [A5 B5].
  destruct (mand_all_true _ _ T4 A5
              ltac:(rewrite isin_length; congruence)) as [A4 B4].
  destruct (mand_all_true _ _ T3 A4
              ltac:(rewrite B4, !isin_length; congruence)) as [A3 B3].
  destruct (mand_all_true _ _ T2 A3
              ltac:(rewrite B3, !isin_length; congruence)) as [A2 B2].
  destruct (mand_all_true _ _ T1 A2
              ltac:(rewrite B2, !isin_length; congruence)) as [A1 B1].
  apply loc_all_true; [exact Hwf | exact A1|].
  rewrite B1, isin_length, L1. lia.
Qed.

Lemma wf_frameb_loc (df : DataFrame) (m : list bool) :
  wf_frameb df = true -> wf_frameb (loc df m) = true.
Proof.
  intros Hwf. apply wf_frameb_Forall. apply wf_frameb_Forall in Hwf.
  destruct df as [|[c0 s0] df]; [constructor|].
  change (nrows (loc ((c0, s0) :: df) m)) with (series_len (series_select m s0)).
  simpl nrows in Hwf. unfold loc. apply Forall_forall. intros cs Hin.
  apply in_map_iff in Hin. destruct Hin as ([c s] & <- & Hin). simpl.
  rewrite Forall_forall in Hwf. specialize (Hwf _ Hin). simpl in Hwf.
  rewrite <- !values_length, !values_select.
  apply select_length_eq. rewrite !values_length. exact Hwf.
Qed.

Lemma select_map_self_In {A} (f : A -> bool) (xs : list A) (x : A) :
  In x (select (map f xs) xs) -> f x = true.
Proof.
  induction xs as [|y xs IH]; simpl; [tauto|].
  destruct (f y) eqn:E; simpl; intros H.
  - destruct H as [<-|H]; [exact E | apply IH, H].
  - apply IH, H.
Qed.

(** Rows kept by a mask at least as strict as an [isin] test pass the test
    again. *)
Lemma isin_after_select (mask : list bool) (s : Series) (vals : list string) :
  (forall v, In v (select mask (values s)) ->
             In v (select (isin s vals) (values s))) ->
  Forall (fun b => b = true) (isin (series_select mask s) vals).
Proof.
  intros H. destruct s as [xs|xs|xs]; simpl in *.
  - destruct (select mask xs) as [|x l] eqn:E; [constructor|].
    exfalso. assert (Hin : In (VFloat x) (select mask (map VFloat xs)))
      by (rewrite select_map, E; left; reflexivity).
    apply H in Hin. apply (isin_select_In (SFloat xs) vals) in Hin.
    destruct Hin as (y & Hy & _). discriminate Hy.
  - apply Forall_forall. intros b Hb. apply in_map_iff in Hb.
    destruct Hb as (x & <- & Hx).
    assert (Hin : In (VStr x) (select mask (map VStr xs)))
      by (rewrite select_map; apply in_map; exact Hx).
    apply H in Hin. apply (isin_select_In (SObject xs) vals) in Hin.
    destruct Hin as (y & Hy & Hv). injection Hy as ->.
    apply str_mem_In. exact Hv.
  - destruct (select mask xs) as [|x l] eqn:E; [constructor|].
    exfalso. assert (Hin : In (VTime x) (select mask (map VTime xs)))
      by (rewrite select_map, E; left; reflexivity).
    apply H in Hin. apply (isin_select_In (SDatetime xs) vals) in Hin.
    destruct Hin as (y & Hy & _). discriminate Hy.
Qed.

Lemma compare_after_select (mask : list bool) (f : Q -> bool) (xs : list Q) :
  (forall x, In x (select mask xs) -> In x (select (map f xs) xs)) ->
  Forall (fun b => b = true) (map f (select mask xs)).
Proof.
  intros H. apply Forall_forall. intros b Hb. apply in_map_iff in Hb.
  destruct Hb as (x & <- & Hx). apply (select_map_self_In f xs), H, Hx.
Qed.

(** X10.  Filtering is idempotent: applying the sidebar filters with the
    same selection to their own result returns that result unchanged. *)
Theorem df_filtered_idempotent (dfm dff : DataFrame) (sel : FilterSelection) :
  wf_frameb dfm = true ->
  df_filtered dfm sel = Ok dff ->
  df_filtered dff sel = Ok dff.
Proof.
  intros Hwf Hf.
  apply df_filtered_loc in Hf. destruct Hf as (mask & Hmask & ->).
  apply filter_mask_inv in Hmask.
  destruct Hmask as (f & s & r & p & b & Hf & Hs & Hr & Hp & Hb & Hmask).
  apply (df_filtered_identity (loc dfm mask) sel
           (series_select mask f) (series_select mask s)
           (series_select mask r) (series_select mask p) (select mask b)).
  - apply wf_frameb_loc, Hwf.
  - apply getitem_loc_Ok, Hf.
  - apply getitem_loc_Ok, Hs.
  - apply getitem_loc_Ok, Hr.
  - apply getitem_loc_Ok, Hp.
  - apply (getitem_loc_Ok _ _ _ _ Hb).
  - apply isin_after_select. intros v Hv. rewrite Hmask in Hv.
    apply select_mand_l in Hv. exact Hv.
  - apply isin_after_select. intros v Hv. rewrite Hmask in Hv.
    apply select_mand_r, select_mand_l in Hv. exact Hv.
  - apply isin_after_select. intros v Hv. rewrite Hmask in Hv.
    apply select_mand_r, select_mand_r, select_mand_l in Hv. exact Hv.
  - apply isin_after_select. intros v Hv. rewrite Hmask in Hv.
    apply select_mand_r, select_mand_r, select_mand_r, select_mand_l in Hv.
    exact Hv.
  - apply compare_after_select. intros x Hx. rewrite Hmask in Hx.
    apply select_mand_r, select_mand_r, select_mand_r, select_mand_r,
      select_mand_l in Hx. exact Hx.
  - apply compare_after_select. intros x Hx. rewrite Hmask in Hx.
    apply select_mand_r, select_mand_r, select_mand_r, select_mand_r,
      select_mand_r in Hx. exact Hx.
Qed.

Lemma df_filtered_idempotent_witness :
  df_filtered sample_filtered sample_selection = Ok sample_filtered.
Proof.
  apply (df_filtered_idempotent sample_monthly).
  - reflexivity.
  - reflexivity.
Defined.

(** The month filter is idempotent too. *)
Lemma df_monthly_idempotent (df_full dfm : DataFrame) (p : Period) :
  wf_frameb df_full = true ->
  df_monthly df_full p = Ok dfm ->
  df_monthly dfm p = Ok dfm.
Proof.
  intros Hwf Hm. apply df_monthly_inv in Hm. destruct Hm as (ts & Hdate & ->).
  set (m0 := map (fun t => Period_eqb (to_period t) p) ts).
  unfold df_monthly. rewrite (getitem_loc_Ok _ m0 _ _ Hdate). simpl. f_equal.
  apply loc_all_true.
  - apply wf_frameb_loc, Hwf.
  - apply Forall_forall. intros b Hb. apply in_map_iff in Hb.
    destruct Hb as (t & <- & Ht).
    apply (select_map_self_In (fun t => Period_eqb (to_period t) p) ts), Ht.
  - rewrite length_map.
    pose proof (wf_frameb_getitem _ _ _ (wf_frameb_loc df_full m0 Hwf)
                  (getitem_loc_Ok _ m0 _ _ Hdate)) as H.
    simpl in H. lia.
Qed.

Lemma options_of_inv (dfm : DataFrame) (col : string) (opts : list string) :
  options_of dfm col = Ok opts ->
  exists xs, getitem dfm col = Ok (SObject xs) /\ opts = sorted (unique xs).
Proof.
  unfold options_of.
  destruct (getitem dfm col) as [[ys|ys|ys]|e]; cbn [rbind as_object];
    intros H; try discriminate H.
  exists ys. split; [reflexivity | congruence].
Qed.

Lemma isin_own_options (xs : list string) :
  Forall (fun b => b = true) (isin (SObject xs) (sorted (unique xs))).
Proof.
  simpl. apply Forall_forall. intros b Hb. apply in_map_iff in Hb.
  destruct Hb as (x & <- & Hx). apply str_mem_In.
  apply (Permutation_in _ (Permutation_sym (sorted_perm _))).
  apply (proj2 (unique_In x xs)). exact Hx.
Qed.

Lemma qmin_list_In (x : Q) (xs : list Q) : In (qmin_list x xs) (x :: xs).
Proof.
  revert x; induction xs as [|y xs IH]; intros x; simpl; [auto|].
  destruct (IH (if Qle_bool y x then y else x)) as [H|H].
  - destruct (Qle_bool y x); rewrite <- H; auto.
  - right; right; exact H.
Qed.

(** X11.  On a month whose Balances are whole numbers and whose ratings
    are on the scale, the page before the user touches a filter shows the
    whole month: the default selection keeps every row. *)
Theorem default_selection_keeps_all
  (dfm : DataFrame) (sel : FilterSelection) (ratings : list string) (bal : list Q) :
  wf_frameb dfm = true ->
  default_selection dfm = Ok sel ->
  getitem dfm "Credit Rating" = Ok (SObject ratings) ->
  Forall (fun r => In r rating_options_all) ratings ->
  getitem dfm "Balance" = Ok (SFloat bal) ->
  Forall integer_valued bal ->
  df_filtered dfm sel = Ok dfm.
Proof.
  intros Hwf Hsel Hr Hscale Hb Hint.
  unfold default_selection in Hsel.
  apply rbind_Ok in Hsel. destruct Hsel as (fo & Hfo & Hsel).
  apply rbind_Ok in Hsel. destruct Hsel as (so & Hso & Hsel).
  apply rbind_Ok in Hsel. destruct Hsel as (ro & Hro & Hsel).
  apply rbind_Ok in Hsel. destruct Hsel as (po & Hpo & Hsel).
  apply rbind_Ok in Hsel. destruct Hsel as (args & Hargs & Hsel).
  injection Hsel as <-.
  apply options_of_inv in Hfo. destruct Hfo as (fx & Hf & ->).
  apply options_of_inv in Hso. destruct Hso as (sx & Hs & ->).
  apply options_of_inv in Hpo. destruct Hpo as (px & Hp & ->).
  assert (Ero : ro = filter (fun r => str_mem r (unique ratings)) rating_options_all).
  { unfold rating_options in Hro. rewrite Hr in Hro. cbn [rbind as_object] in Hro.
    congruence. }
  destruct bal as [|x xs].
  { unfold balance_slider in Hargs. rewrite Hb in Hargs. discriminate Hargs. }
  assert (Hlo : series_min (x :: xs) = Ok (qmin_list x xs)) by reflexivity.
  assert (Hhi : series_max (x :: xs) = Ok (qmax_list x xs)) by reflexivity.
  rewrite (balance_slider_value dfm _ _ _ Hb Hlo Hhi) in Hargs.
  injection Hargs as <-.
  pose proof (series_min_max_bounds _ _ _ Hlo Hhi) as Hbounds.
  rewrite Forall_forall in Hint, Hbounds, Hscale.
  destruct (Hint _ (qmin_list_In x xs)) as (zl & Hzl).
  destruct (Hint _ (qmax_list_In x xs)) as (zh & Hzh).
  apply (df_filtered_identity dfm _ (SObject fx) (SObject sx) (SObject ratings)
           (SObject px) (x :: xs)); try assumption; cbn [selected_franchises
           selected_sectors selected_ratings selected_products balance_range
           min_value max_value fst snd].
  - apply isin_own_options.
  - apply isin_own_options.
  - rewrite Ero. cbn [isin]. apply Forall_forall. intros b Hin.
    apply in_map_iff in Hin. destruct Hin as (r & <- & Hin).
    apply str_mem_In.
    apply (proj2 (filter_In (fun r => str_mem r (unique ratings)) r
                            rating_options_all)).
    split; [apply Hscale, Hin|].
    apply str_mem_In, (proj2 (unique_In r ratings)), Hin.
  - apply isin_own_options.
  - unfold ge_int. apply Forall_forall. intros b Hin.
    apply in_map_iff in Hin. destruct Hin as (q & <- & Hin).
    apply Qle_bool_iff. rewrite (py_int_inject_Z _ _ Hzl), <- Hzl.
    apply (Hbounds q Hin).
  - unfold le_int. apply Forall_forall. intros b Hin.
    apply in_map_iff in Hin. destruct Hin as (q & <- & Hin).
    apply Qle_bool_iff.
    rewrite (py_int_inject_Z _ _ Hzl), (py_int_inject_Z _ _ Hzh).
    eapply Qle_trans; [apply (Hbounds q Hin)|]. rewrite Hzh.
    rewrite <- Zle_Qle. destruct (zl >=? zh) eqn:E; [|lia].
    apply Z.geb_le in E. lia.
Qed.

Lemma default_selection_keeps_all_witness :
  exists sel, default_selection two_rating_month = Ok sel
              /\ df_filtered two_rating_month sel = Ok two_rating_month.
Proof.
  eexists. split; [vm_compute; reflexivity|].
  apply (default_selection_keeps_all two_rating_month _ ["A"; "BB"]
           [100 # 1; 200 # 1]).
  - reflexivity.
  - vm_compute. reflexivity.
  - reflexivity.
  - repeat (apply Forall_cons; [unfold rating_options_all; simpl; auto 10|]).
    constructor.
  - reflexivity.
  - repeat apply Forall_cons; [exists 100 | exists 200 | constructor];
      reflexivity.
Defined.

(** ** The monthly summary, again *)




(** ** The balance-by-sector chart data *)

Lemma insert_by_balance_perm (e : string * Q) (l : list (string * Q)) :
  Permutation (insert_by_balance e l) (e :: l).
Proof.
  induction l as [|e' l IH]; simpl; [reflexivity|].
  destruct (Qle_bool (snd e') (snd e)); [reflexivity|].
  rewrite IH. apply perm_swap.
Qed.

Lemma sort_by_balance_perm (l : list (string * Q)) :
  Permutation (sort_by_balance l) l.
Proof.
  unfold sort_by_balance. induction l as [|e l IH]; simpl; [reflexivity|].
  rewrite insert_by_balance_perm. constructor. exact IH.
Qed.

Lemma insert_by_balance_sorted (e : string * Q) (l : list (string * Q)) :
  StronglySorted (fun a b => (snd b <= snd a)%Q) l ->
  StronglySorted (fun a b => (snd b <= snd a)%Q) (insert_by_balance e l).
Proof.
  induction l as [|e' l IH]; simpl; intros S.
  - constructor; constructor.
  - apply StronglySorted_inv in S. destruct S as [S F].
    destruct (Qle_bool (snd e') (snd e)) eqn:E.
    + apply Qle_bool_iff in E. constructor; [constructor; assumption|].
      constructor; [exact E|].
      rewrite Forall_forall in *. intros y Hy. specialize (F y Hy).
      eapply Qle_trans; eassumption.
    + assert (Hlt : (snd e < snd e')%Q)
        by (apply Qlt_bool_iff; unfold Qlt_bool; rewrite E; reflexivity).
      constructor; [apply IH; exact S|].
      eapply Permutation_Forall.
      * apply Permutation_sym, insert_by_balance_perm.
      * constructor; [apply Qlt_le_weak, Hlt | exact F].
Qed.

Lemma sort_by_balance_sorted (l : list (string * Q)) :
  StronglySorted (fun a b => (snd b <= snd a)%Q) (sort_by_balance l).
Proof.
  unfold sort_by_balance. induction l as [|e l IH]; simpl; [constructor|].
  apply insert_by_balance_sorted. exact IH.
Qed.

Lemma balance_by_sector_value (dff : DataFrame) (sectors : list string) (bal : list Q) :
  getitem dff "Sector" = Ok (SObject sectors) ->
  getitem dff "Balance" = Ok (SFloat bal) ->
  balance_by_sector dff = Ok (sort_by_balance (groupby_sum sectors bal)).
Proof.
  intros Hs Hb. unfold balance_by_sector. rewrite Hs, Hb. reflexivity.
Qed.

Lemma groupby_sum_keys (sectors : list string) (bal : list Q) :
  map fst (groupby_sum sectors bal) = sorted (unique sectors).
Proof.
  unfold groupby_sum. rewrite map_map. simpl. apply map_id.
Qed.

(** X13.  The rows of the balance-by-sector chart are in descending order
    of Balance, and their sectors are exactly the sectors of the filtered
    frame, each once. *)
Theorem balance_by_sector_sorted
  (dff : DataFrame) (sectors : list string) (bal : list Q) :
  getitem dff "Sector" = Ok (SObject sectors) ->
  getitem dff "Balance" = Ok (SFloat bal) ->
  exists rows,
    balance_by_sector dff = Ok rows
    /\ StronglySorted (fun a b => (snd b <= snd a)%Q) rows
    /\ NoDup (map fst rows)
    /\ (forall k, In k (map fst rows) <-> In k sectors).
Proof.
  intros Hs Hb. rewrite (balance_by_sector_value dff sectors bal Hs Hb).
  eexists. split; [reflexivity|].
  split; [apply sort_by_balance_sorted|].
  assert (P : Permutation (map fst (sort_by_balance (groupby_sum sectors bal)))
                          (unique sectors)).
  { rewrite (Permutation_map fst (sort_by_balance_perm _)), groupby_sum_keys.
    apply sorted_perm. }
  split.
  - eapply Permutation_NoDup; [apply Permutation_sym, P | apply unique_NoDup].
  - intros k. split; intros H.
    + apply (proj1 (unique_In k sectors)), (Permutation_in _ P), H.
    + apply (Permutation_in _ (Permutation_sym P)),
        (proj2 (unique_In k sectors)), H.
Qed.

Lemma balance_by_sector_sorted_witness :
  exists rows,
    balance_by_sector sample_monthly = Ok rows
    /\ StronglySorted (fun a b => (snd b <= snd a)%Q) rows
    /\ NoDup (map fst rows)
    /\ (forall k, In k (map fst rows) <-> In k ["Energy"; "Retail"; "Energy"]).
Proof.
  apply (balance_by_sector_sorted sample_monthly ["Energy"; "Retail"; "Energy"]
           [100 # 1; 300 # 1; 601 # 2]).
  - reflexivity.
  - reflexivity.
Defined.






Lemma map_fst_combine {A B} (l : list A) (l' : list B) :
  List.length l = List.length l' -> map fst (combine l l') = l.
Proof.
  revert l'. induction l as [|a l IH]; intros [|b l'] H; simpl in *;
    try reflexivity; try discriminate H.
  rewrite IH by lia. reflexivity.
Qed.



(** ** The charts section *)

Lemma charts_section_returns (rt : Runtime) (dff : DataFrame) :
  exists out, charts_section rt dff = (out, Ok tt).
Proof.
  unfold charts_section.
  destruct (df_empty dff); cbn [negb]; [eexists; reflexivity|].
  rewrite pbind_emit.
  destruct (charts_body rt dff) as [o [[]|e]]; [eexists; reflexivity|].
  destruct e; eexists; reflexivity.
Qed.

(** X15.  The charts section never fails the page.  An empty filtered
    frame gets an information message and no chart; when Plotly cannot be
    imported the section shows its heading, one warning and the separator,
    and no chart; any other failure inside it is reported as an error
    message after the charts already drawn. *)
Theorem charts_section_never_raises (rt : Runtime) (dff : DataFrame) :
  (exists out, charts_section rt dff = (out, Ok tt))
  /\ (df_empty dff = true ->
      charts_section rt dff =
        ([EMsg (StInfo "No data matching current filters to display visuals.")],
         Ok tt))
  /\ (df_empty dff = false -> import_plotly rt = Raise ImportError ->
      charts_section rt dff =
        ([EMarkdown "#### Filtered Data Visuals";
          EMsg (StWarning "Plotly library not found. Skipping charts. Install using: `pip install plotly`");
          EWrite "---"],
         Ok tt))
  /\ (forall out e, df_empty dff = false ->
      charts_body rt dff = (out, Raise e) -> e <> ImportError ->
      charts_section rt dff =
        ((EMarkdown "#### Filtered Data Visuals" :: out
          ++ [EMsg (StError ("An error occurred generating charts: " ++ exc_str e));
              EWrite "---"])%list,
         Ok tt)).
Proof.
  split; [apply charts_section_returns|].
  unfold charts_section. split; [|split].
  - intros ->. reflexivity.
  - intros -> Himp. cbn [negb]. unfold charts_body. rewrite Himp. reflexivity.
  - intros out e -> Hbody Hne. cbn [negb]. rewrite Hbody, pbind_emit.
    destruct e; try contradiction; cbn [pbind fst snd emit];
      rewrite <- app_assoc; reflexivity.
Qed.

Lemma charts_section_never_raises_witness :
  charts_section no_plotly_rt sample_filtered =
    ([EMarkdown "#### Filtered Data Visuals";
      EMsg (StWarning "Plotly library not found. Skipping charts. Install using: `pip install plotly`");
      EWrite "---"],
     Ok tt).
Proof.
  apply (proj1 (proj2 (proj2 (charts_section_never_raises no_plotly_rt
                                sample_filtered)))).
  - reflexivity.
  - reflexivity.
Defined.

(** ** The display table, cell by cell *)






(** ** The loader, again *)

(** X17.  A successful load changes nothing but the Date column: the
    table has the columns of the file in the same order and every other
    column as the file has it. *)
Theorem load_keeps_other_columns (env : Env) (df : DataFrame) (date date' : Series) :
  read_parquet env data_file_path = Ok df ->
  getitem df "Date" = Ok date ->
  to_datetime env date = Ok date' ->
  exists df_full,
    load_loan_data env = ([], Ok df_full)
    /\ columns df_full = columns df
    /\ (forall col, col <> "Date" -> getitem df_full col = getitem df col).
Proof.
  intros Hr Hd Ht.
  exists (setitem df "Date" date'). split.
  - unfold load_loan_data, load_body. rewrite Hr. cbn [rbind]. rewrite Hd.
    cbn [rbind]. rewrite Ht. reflexivity.
  - split.
    + apply columns_setitem.
      destruct (has_column df "Date") eqn:E; [reflexivity|].
      apply no_column_getitem in E. rewrite Hd in E. discriminate E.
    + intros col Hne. apply getitem_setitem_other. exact Hne.
Qed.

Lemma load_keeps_other_columns_witness :
  exists df_full,
    load_loan_data sample_env = ([], Ok df_full)
    /\ columns df_full = columns sample_full
    /\ (forall col, col <> "Date" -> getitem df_full col = getitem sample_full col).
Proof.
  apply (load_keeps_other_columns sample_env sample_full
           (SDatetime [mkTimestamp 2025 1 31; mkTimestamp 2025 2 28;
                       mkTimestamp 2025 2 28; mkTimestamp 2025 2 28])
           (SDatetime [mkTimestamp 2025 1 31; mkTimestamp 2025 2 28;
                       mkTimestamp 2025 2 28; mkTimestamp 2025 2 28])).
  - reflexivity.
  - reflexivity.
  - reflexivity.
Defined.

(** X18.  A data file without a Date column counts as a failed load: the
    [KeyError] of line 23 is caught by the last handler, which reports it
    and returns the empty table. *)
Theorem load_without_date_column (env : Env) (df : DataFrame) :
  read_parquet env data_file_path = Ok df ->
  has_column df "Date" = false ->
  load_loan_data env =
    ([StError "An error occurred loading the data file: 'Date'"],
     Ok empty_frame).
Proof.
  intros Hr Hno. unfold load_loan_data, load_body. rewrite Hr. cbn [rbind].
  rewrite (no_column_getitem df "Date" Hno). reflexivity.
Qed.

Lemma load_without_date_column_witness :
  load_loan_data dateless_env =
    ([StError "An error occurred loading the data file: 'Date'"],
     Ok empty_frame).
Proof.
  apply (load_without_date_column dateless_env [("Balance", SFloat [100 # 1])]).
  - reflexivity.
  - reflexivity.
Defined.

(** ** Session state *)

Lemma session_get_set_same (s : SessionState) (k v : string) :
  session_get (session_set s k v) k = Some v.
Proof.
  induction s as [|[k' v'] s IH]; simpl.
  - rewrite String.eqb_refl. reflexivity.
  - destruct (String.eqb k k') eqn:E; simpl; rewrite E; [reflexivity | exact IH].
Qed.

Lemma session_get_set_other (s : SessionState) (k k' v : string) :
  k' <> k -> session_get (session_set s k v) k' = session_get s k'.
Proof.
  intros Hne. induction s as [|[k0 v0] s IH]; simpl.
  - destruct (String.eqb_spec k' k); [contradiction | reflexivity].
  - destruct (String.eqb_spec k k0) as [->|Hk]; simpl.
    + destruct (String.eqb_spec k' k0); [contradiction | reflexivity].
    + destruct (String.eqb k' k0); [reflexivity | exact IH].
Qed.

Lemma init_view_get (s : SessionState) :
  session_get (init_view s) "pm_view"
  = match session_get s "pm_view" with
    | Some v => Some v
    | None => Some "main"
    end.
Proof.
  unfold init_view. destruct (session_get s "pm_view") eqn:E.
  - exact E.
  - apply session_get_set_same.
Qed.

Lemma init_view_other (s : SessionState) (k : string) :
  k <> "pm_view" -> session_get (init_view s) k = session_get s k.
Proof.
  intros Hne. unfold init_view. destruct (session_get s "pm_view"); [reflexivity|].
  apply session_get_set_other. exact Hne.
Qed.

(** ** Buttons *)

Lemma buttons_app (o1 o2 : list Element) :
  buttons (o1 ++ o2) = (buttons o1 ++ buttons o2)%list.
Proof. unfold buttons. apply flat_map_app. Qed.

Lemma buttons_msgs (msgs : list UiMsg) : buttons (map EMsg msgs) = [].
Proof. induction msgs as [|m msgs IH]; simpl; [reflexivity | exact IH]. Qed.

Lemma no_buttons_pbind {A B} (m : run A) (k : A -> run B) :
  no_buttons m -> (forall a, no_buttons (k a)) -> no_buttons (pbind m k).
Proof.
  unfold no_buttons. destruct m as [o [a|e]]; simpl; intros Hm Hk.
  - rewrite buttons_app, Hm, Hk. reflexivity.
  - exact Hm.
Qed.

Lemma no_buttons_lift {A} (r : result A) : no_buttons (lift r).
Proof. reflexivity. Qed.

Lemma no_buttons_run_ui {A} (m : ui A) : no_buttons (run_ui m).
Proof. unfold no_buttons, run_ui. simpl. apply buttons_msgs. Qed.

Ltac no_buttons_tac :=
  repeat first
    [ apply no_buttons_lift
    | apply no_buttons_run_ui
    | reflexivity
    | apply no_buttons_pbind; [|intros ?] ].

Lemma no_buttons_summary (dfm : DataFrame) (month : string) :
  no_buttons (summary_section dfm month).
Proof.
  unfold summary_section. no_buttons_tac.
  match goal with |- no_buttons (match ?x with _ => _ end) => destruct x end;
    no_buttons_tac.
Qed.

Lemma no_buttons_charts (rt : Runtime) (dff : DataFrame) :
  no_buttons (charts_section rt dff).
Proof.
  unfold charts_section. destruct (negb (df_empty dff)); [|reflexivity].
  apply no_buttons_pbind; [reflexivity | intros _].
  apply no_buttons_pbind; [|intros _; reflexivity].
  assert (Hbody : no_buttons (charts_body rt dff))
    by (unfold charts_body; no_buttons_tac).
  unfold no_buttons in *.
  destruct (charts_body rt dff) as [o [[]|e]]; simpl in *; [exact Hbody|].
  destruct e; simpl; rewrite buttons_app, Hbody; reflexivity.
Qed.

Lemma no_buttons_table (rt : Runtime) (dff : DataFrame) (month : string) :
  no_buttons (table_section rt dff month).
Proof. unfold table_section. no_buttons_tac. Qed.

Lemma no_buttons_sidebar (w : Widgets) (dfm : DataFrame) :
  no_buttons (sidebar_filters w dfm).
Proof. unfold sidebar_filters. no_buttons_tac. Qed.

Lemma no_buttons_filter (rt : Runtime) (w : Widgets) (dfm : DataFrame)
  (month : string) :
  no_buttons (filter_section rt w dfm month).
Proof.
  unfold filter_section. destruct (negb (df_empty dfm)); [|reflexivity].
  apply no_buttons_pbind; [apply no_buttons_sidebar | intros sel].
  apply no_buttons_pbind; [apply no_buttons_lift | intros dff].
  apply no_buttons_pbind; [apply no_buttons_charts | intros _].
  apply no_buttons_table.
Qed.

Lemma no_buttons_data (rt : Runtime) (w : Widgets) (df_full : DataFrame) :
  no_buttons (total_book_data rt w df_full).
Proof.
  unfold total_book_data. destruct (negb (df_empty df_full)); [|reflexivity].
  apply no_buttons_pbind; [reflexivity | intros _].
  apply no_buttons_pbind; [apply no_buttons_lift | intros months].
  apply no_buttons_pbind; [reflexivity | intros _].
  apply no_buttons_pbind; [apply no_buttons_lift | intros dfm].
  apply no_buttons_pbind; [apply no_buttons_summary | intros _].
  apply no_buttons_filter.
Qed.

(** ** The views *)

Lemma load_returns (env : Env) :
  exists msgs df, load_loan_data env = (msgs, Ok df).
Proof.
  destruct (load_body env) as [df|e] eqn:H.
  - exists [], df. unfold load_loan_data. rewrite H. reflexivity.
  - destruct (load_handles env e H) as (msgs & Hl & _). eauto.
Qed.

(** What the total-book view shows: the subheader, the loader's messages,
    the data part, and the back button if the data part has not raised. *)
Lemma total_book_view_value (rt : Runtime) (w : Widgets)
  (msgs : list UiMsg) (df_full : DataFrame) :
  load_loan_data (rt_env rt) = (msgs, Ok df_full) ->
  total_book_view rt w =
    ((ESubheader "Total Book View" :: map EMsg msgs
      ++ fst (total_book_data rt w df_full)
      ++ match snd (total_book_data rt w df_full) with
         | Ok _ => [EButton "Back to Portfolio Overview" "back_to_main_pm_btn" "main"]
         | Raise _ => []
         end)%list,
     match snd (total_book_data rt w df_full) with
     | Ok _ => Ok tt
     | Raise e => Raise e
     end).
Proof.
  intros Hload. unfold total_book_view. rewrite pbind_emit.
  unfold run_ui. rewrite Hload. cbn [fst snd pbind].
  destruct (total_book_data rt w df_full) as [o [[]|e]]; cbn [fst snd pbind emit].
  - reflexivity.
  - rewrite app_nil_r. reflexivity.
Qed.

Lemma page_main (rt : Runtime) (w : Widgets) (s : SessionState) :
  session_get (init_view s) "pm_view" = Some "main" ->
  snd (page rt w s) =
    ([EMarkdown "<h1 style='text-align: center;'>Portfolio Management</h1>";
      EWrite "---";
      ESubheader "Main Portfolio Overview";
      EWrite "This is the main landing area for Portfolio Management.";
      EWrite "Select a sub-section below or using the sidebar filters (when available).";
      EButton "View Total Book" "view_total_book_btn" "total_book"],
     Ok tt).
Proof. intros H. unfold page. cbn [snd]. rewrite H. reflexivity. Qed.

Lemma page_total_book (rt : Runtime) (w : Widgets) (s : SessionState) :
  session_get (init_view s) "pm_view" = Some "total_book" ->
  snd (page rt w s) =
    ((EMarkdown "<h1 style='text-align: center;'>Portfolio Management</h1>"
      :: EWrite "---" :: fst (total_book_view rt w))%list,
     snd (total_book_view rt w)).
Proof.
  intros H. unfold page. cbn [snd]. rewrite H.
  rewrite !pbind_emit. reflexivity.
Qed.

Lemma main_view_buttons (rt : Runtime) (w : Widgets) (s : SessionState) :
  session_get (init_view s) "pm_view" = Some "main" ->
  snd (snd (page rt w s)) = Ok tt
  /\ buttons (fst (snd (page rt w s))) = [total_book_button].
Proof. intros Hv. rewrite (page_main rt w s Hv). split; reflexivity. Qed.

Lemma total_book_view_buttons (rt : Runtime) (w : Widgets) (s : SessionState) :
  session_get (init_view s) "pm_view" = Some "total_book" ->
  buttons (fst (snd (page rt w s)))
  = match snd (snd (page rt w s)) with
    | Ok _ => [back_button]
    | Raise _ => []
    end.
Proof.
  intros Hv. rewrite (page_total_book rt w s Hv). cbn [fst snd].
  destruct (load_returns (rt_env rt)) as (msgs & df_full & Hload).
  rewrite (total_book_view_value rt w msgs df_full Hload). cbn [fst snd].
  pose proof (no_buttons_data rt w df_full) as Hnb. unfold no_buttons in Hnb.
  change (buttons (?a :: ?b :: ?c :: ?l)) with (buttons l).
  rewrite !buttons_app, buttons_msgs, Hnb.
  destruct (snd (total_book_data rt w df_full)) as [[]|e]; reflexivity.
Qed.

(** X19.  The buttons of a run.  The main view (also on a fresh session)
    offers the one button that leads to the total-book view.  The
    total-book view offers the one button that leads back, whether the
    data loaded or not, provided no exception escaped the run; when one
    escapes, the run offers no button at all. *)
Theorem page_buttons (rt : Runtime) (w : Widgets) (s : SessionState) :
  (session_get s "pm_view" = None \/ session_get s "pm_view" = Some "main" ->
   snd (snd (page rt w s)) = Ok tt
   /\ buttons (fst (snd (page rt w s))) = [total_book_button])
  /\ (session_get s "pm_view" = Some "total_book" ->
      (snd (snd (page rt w s)) = Ok tt ->
       buttons (fst (snd (page rt w s))) = [back_button])
      /\ (forall e, snd (snd (page rt w s)) = Raise e ->
          buttons (fst (snd (page rt w s))) = [])).
Proof.
  split.
  - intros H. apply main_view_buttons.
    rewrite init_view_get. destruct H as [-> | ->]; reflexivity.
  - intros H.
    assert (Hv : session_get (init_view s) "pm_view" = Some "total_book")
      by (rewrite init_view_get, H; reflexivity).
    rewrite (total_book_view_buttons rt w s Hv).
    split; [intros -> | intros e ->]; reflexivity.
Qed.

Lemma page_buttons_witness :
  buttons (fst (snd (page missing_file_rt default_widgets [("pm_view", "total_book")])))
  = [back_button].
Proof.
  apply (proj1 (proj2 (page_buttons missing_file_rt default_widgets
                         [("pm_view", "total_book")]) eq_refl)).
  reflexivity.
Defined.

Lemma click_target (rt : Runtime) (w : Widgets) (s : SessionState)
  (label key view_name : string) :
  In (label, key, view_name) (buttons (fst (snd (page rt w s)))) ->
  (session_get (init_view s) "pm_view" = Some "main" /\ view_name = "total_book")
  \/ (session_get (init_view s) "pm_view" = Some "total_book" /\ view_name = "main").
Proof.
  intros Hin.
  destruct (session_get (init_view s) "pm_view") as [v|] eqn:Hv.
  - destruct (String.eqb_spec v "main") as [->|Hn1].
    + destruct (main_view_buttons rt w s Hv) as [_ Hb]. rewrite Hb in Hin.
      destruct Hin as [Hin|[]]. injection Hin as _ _ <-. left. auto.
    + destruct (String.eqb_spec v "total_book") as [->|Hn2].
      * rewrite (total_book_view_buttons rt w s Hv) in Hin.
        destruct (snd (snd (page rt w s))) as [[]|e]; [|destruct Hin].
        destruct Hin as [Hin|[]]. injection Hin as _ _ <-. right. auto.
      * exfalso. unfold page in Hin. cbn [fst snd] in Hin. rewrite Hv in Hin.
        apply String.eqb_neq in Hn1, Hn2. rewrite Hn1, Hn2 in Hin.
        destruct Hin.
  - exfalso. unfold page in Hin. cbn [fst snd] in Hin. rewrite Hv in Hin.
    destruct Hin.
Qed.

(** What a press does to the view. *)
Lemma click_view (rt : Runtime) (w : Widgets) (s s' : SessionState) :
  click rt w s s' ->
  ((session_get (init_view s) "pm_view" = Some "main"
    /\ session_get s' "pm_view" = Some "total_book")
   \/ (session_get (init_view s) "pm_view" = Some "total_book"
       /\ session_get s' "pm_view" = Some "main"))
  /\ (forall k, k <> "pm_view" -> session_get s' k = session_get s k).
Proof.
  intros Hc. destruct Hc as [s label key view_name Hin].
  apply click_target in Hin. unfold page. cbn [fst]. unfold set_view.
  rewrite session_get_set_same. split.
  - destruct Hin as [[Hv ->]|[Hv ->]]; [left | right]; auto.
  - intros k Hk. rewrite session_get_set_other by exact Hk.
    apply init_view_other. exact Hk.
Qed.



(** X21.  Whatever the user presses and selects, the session never leaves
    the two views: started fresh or in one of them, it is in one of them
    after any number of presses. *)
Theorem clicks_keep_view_known (rt : Runtime) (s s' : SessionState) :
  view_known s -> clicks rt s s' -> view_known s'.
Proof.
  intros Hk Hc. induction Hc as [s|w s s' s'' _ IH Hclick]; [exact Hk|].
  destruct (click_view rt w s' s'' Hclick) as [Hv _].
  unfold view_known.
  destruct Hv as [[_ Hv]|[_ Hv]]; rewrite Hv; auto.
Qed.

Lemma clicks_keep_view_known_witness :
  view_known (set_view "total_book" (init_view [])).
Proof.
  apply (clicks_keep_view_known sample_rt []).
  - left. reflexivity.
  - apply (clicks_more sample_rt default_widgets [] []).
    + apply clicks_none.
    + apply (click_button sample_rt default_widgets []
               "View Total Book" "view_total_book_btn" "total_book").
      simpl. left. reflexivity.
Defined.

(** ** The data part of the total-book view *)

Lemma loan_schema_loc (df : DataFrame) (m : list bool) :
  loan_schema df -> loan_schema (loc df m).
Proof.
  unfold loan_schema.
  intros ([x1 H1] & [x2 H2] & [x3 H3] & [x4 H4] & [x5 H5] & [x6 H6]
          & [x7 H7] & [x8 H8] & [x9 H9]).
  repeat split;
    eexists; rewrite getitem_loc;
    match goal with H : getitem df ?c = _ |- context [getitem df ?c] =>
      rewrite H end;
    reflexivity.
Qed.

Lemma summary_section_returns (dfm : DataFrame) (month : string) :
  wf_frame dfm -> df_empty dfm = false -> loan_schema dfm ->
  exists out, summary_section dfm month = (out, Ok tt).
Proof.
  intros Hwf Hne (_ & _ & _ & _ & [bal Hb] & [mar Hm] & Hr & Hn & Hf).
  assert (Hs : has_summary_columns dfm bal mar)
    by (unfold has_summary_columns; auto).
  destruct (monthly_summary_value dfm bal mar Hwf Hne Hs) as (sm & Hsm & _).
  unfold summary_section. rewrite pbind_emit, Hsm, pbind_lift_Ok.
  eexists. reflexivity.
Qed.

Lemma df_empty_false_nrows (df : DataFrame) :
  df_empty df = false -> (0 < nrows df)%nat.
Proof.
  destruct df as [|[c s] df]; [discriminate|].
  unfold df_empty. intros H. apply Nat.eqb_neq in H. lia.
Qed.

Lemma sidebar_filters_returns (w : Widgets) (dfm : DataFrame) :
  wf_frame dfm -> df_empty dfm = false -> loan_schema dfm ->
  exists out sel, sidebar_filters w dfm = (out, Ok sel).
Proof.
  intros Hwf Hne ([fr Hfr] & [se Hse] & [ra Hra] & [pr Hpr] & [bal Hb] & _).
  assert (Hopt : forall col xs, getitem dfm col = Ok (SObject xs) ->
                                options_of dfm col = Ok (sorted (unique xs))).
  { intros col xs H. unfold options_of. rewrite H. reflexivity. }
  assert (Hrat : rating_options dfm
                 = Ok (filter (fun r => str_mem r (unique ra)) rating_options_all)).
  { unfold rating_options. rewrite Hra. reflexivity. }
  assert (Hsl : exists args, balance_slider dfm = Ok args).
  { pose proof (Hwf _ _ Hb) as Hlen. apply df_empty_false_nrows in Hne.
    destruct bal as [|x rest]; [simpl in Hlen; lia|].
    eexists.
    apply (balance_slider_value dfm (x :: rest) (qmin_list x rest)
             (qmax_list x rest) Hb); reflexivity. }
  destruct Hsl as [args Hsl].
  unfold sidebar_filters.
  rewrite (Hopt _ _ Hfr), pbind_lift_Ok, (Hopt _ _ Hse), pbind_lift_Ok,
    Hrat, pbind_lift_Ok, (Hopt _ _ Hpr), pbind_lift_Ok.
  rewrite !pbind_emit, Hsl, pbind_lift_Ok.
  eexists. eexists. reflexivity.
Qed.

Lemma df_filtered_returns (dfm : DataFrame) (sel : FilterSelection) :
  loan_schema dfm ->
  exists mask, df_filtered dfm sel = Ok (loc dfm mask).
Proof.
  intros ([fr Hfr] & [se Hse] & [ra Hra] & [pr Hpr] & Hb & _).
  assert (Hc : has_filter_columns dfm) by (unfold has_filter_columns; eauto 10).
  destruct (has_filter_columns_mask dfm sel Hc) as [mask Hmask].
  exists mask. unfold df_filtered. rewrite Hmask. reflexivity.
Qed.

Lemma table_section_returns (rt : Runtime) (dff : DataFrame) (month : string) :
  exists out, table_section rt dff month = (out, Ok tt) /\ shows_table out.
Proof.
  unfold table_section, run_ui, format_display.
  destruct (display_body (rt_env rt) dff) as [d|e];
    (eexists; split; [reflexivity|]); eexists;
    cbn [fst snd pbind emit app map];
    repeat (first [left; reflexivity | right]).
Qed.

Lemma filter_section_returns (rt : Runtime) (w : Widgets) (dfm : DataFrame)
  (month : string) :
  wf_frame dfm -> df_empty dfm = false -> loan_schema dfm ->
  exists out, filter_section rt w dfm month = (out, Ok tt) /\ shows_table out.
Proof.
  intros Hwf Hne Hs.
  destruct (sidebar_filters_returns w dfm Hwf Hne Hs) as (o1 & sel & H1).
  destruct (df_filtered_returns dfm sel Hs) as (mask & H2).
  destruct (charts_section_returns rt (loc dfm mask)) as (o3 & H3).
  destruct (table_section_returns rt (loc dfm mask) month) as (o4 & H4 & d & Hd).
  unfold filter_section. rewrite Hne. cbn [negb].
  rewrite H1. unfold pbind at 1. rewrite H2, pbind_lift_Ok, H3.
  unfold pbind. rewrite H4. cbn [fst snd].
  eexists. split; [reflexivity|]. exists d.
  apply in_or_app. right. apply in_or_app. right. exact Hd.
Qed.

(** On a frame with rows the data part comes down to the summary and the
    filter section of a month that has rows. *)
Lemma total_book_data_month (rt : Runtime) (w : Widgets) (df_full : DataFrame)
  (ts : list Timestamp) :
  wf_frame df_full -> df_empty df_full = false ->
  getitem df_full "Date" = Ok (SDatetime ts) ->
  widgets_ok w ->
  reads_months rt (sorted_reverse (unique_periods (map to_period ts))) ->
  exists text mask,
    df_empty (loc df_full mask) = false
    /\ total_book_data rt w df_full
       = pbind (emit (ESidebarHeader "Filters")) (fun _ =>
         pbind (emit (ESelectbox "Select Month"
                        (month_display_list
                           (sorted_reverse (unique_periods (map to_period ts))))))
               (fun _ =>
         pbind (summary_section (loc df_full mask) text) (fun _ =>
                filter_section rt w (loc df_full mask) text))).
Proof.
  intros Hwf Hne Hget [Hsel _] Hread.
  set (months := sorted_reverse (unique_periods (map to_period ts))) in *.
  assert (Hts : ts <> []).
  { intros ->. apply df_empty_false_nrows in Hne.
    pose proof (Hwf _ _ Hget) as Hlen. simpl in Hlen. lia. }
  assert (Hmonths : month_display_list months <> []).
  { destruct ts as [|t ts']; [contradiction|].
    assert (H : In (to_period t) months)
      by (apply available_months_In; exists t; simpl; auto).
    unfold month_display_list. destruct months; [destruct H | discriminate]. }
  destruct (Hsel "Select Month" _ Hmonths) as (text & Htext & Hin).
  unfold month_display_list in Hin. apply in_map_iff in Hin.
  destruct Hin as (p & <- & Hp).
  pose proof (Hread p Hp) as Hparse.
  apply available_months_In in Hp. destruct Hp as (t & Ht & Htp).
  destruct (df_monthly_nonempty df_full ts p t Hwf Hget Ht Htp)
    as (dfm & Hm & _ & Hdfm).
  destruct (df_monthly_inv df_full p dfm Hm) as (ts' & Hget' & ->).
  eexists. eexists. split; [exact Hdfm|].
  unfold total_book_data. rewrite Hne. cbn [negb].
  rewrite (available_months_value df_full ts Hget). fold months.
  f_equal. rewrite pbind_lift_Ok. f_equal.
  rewrite Htext. unfold monthly_of. rewrite Hparse. cbn [rbind].
  rewrite Hm, pbind_lift_Ok. reflexivity.
Qed.

Lemma total_book_data_returns (rt : Runtime) (w : Widgets) (df_full : DataFrame)
  (ts : list Timestamp) :
  wf_frame df_full -> loan_schema df_full ->
  getitem df_full "Date" = Ok (SDatetime ts) ->
  widgets_ok w ->
  reads_months rt (sorted_reverse (unique_periods (map to_period ts))) ->
  exists out, total_book_data rt w df_full = (out, Ok tt)
              /\ (df_empty df_full = false -> shows_table out).
Proof.
  intros Hwf Hs Hget Hw Hread.
  destruct (df_empty df_full) eqn:Hne.
  - unfold total_book_data. rewrite Hne. eexists.
    split; [reflexivity | discriminate].
  - destruct (total_book_data_month rt w df_full ts Hwf Hne Hget Hw Hread)
      as (text & mask & Hdfm & ->).
    pose proof (wf_loc df_full mask Hwf) as Hwf'.
    pose proof (loan_schema_loc df_full mask Hs) as Hs'.
    destruct (summary_section_returns (loc df_full mask) text Hwf' Hdfm Hs')
      as (o1 & H1).
    destruct (filter_section_returns rt w (loc df_full mask) text Hwf' Hdfm Hs')
      as (o2 & H2 & d & Hd).
    rewrite !pbind_emit, H1. unfold pbind. rewrite H2. cbn [fst snd].
    eexists. split; [reflexivity|]. intros _. exists d.
    right. right. apply in_or_app. right. exact Hd.
Qed.

(** X22.  When the loader returns an empty table -- after a failed load,
    or from a data file without rows -- the total-book view shows the
    loader's messages, the warning that the data file failed to load and
    the back button, and nothing else: no selector, metric, chart or
    table. *)
Theorem page_without_data (rt : Runtime) (w : Widgets) (s : SessionState)
  (msgs : list UiMsg) (df_full : DataFrame) :
  session_get s "pm_view" = Some "total_book" ->
  load_loan_data (rt_env rt) = (msgs, Ok df_full) ->
  df_empty df_full = true ->
  snd (page rt w s) =
    ((EMarkdown "<h1 style='text-align: center;'>Portfolio Management</h1>"
      :: EWrite "---"
      :: ESubheader "Total Book View"
      :: map EMsg msgs
      ++ [EMsg (StWarning "Could not display Portfolio data as the data file failed to load.");
          EButton "Back to Portfolio Overview" "back_to_main_pm_btn" "main"])%list,
     Ok tt).
Proof.
  intros Hv Hload He.
  assert (Hv' : session_get (init_view s) "pm_view" = Some "total_book")
    by (rewrite init_view_get, Hv; reflexivity).
  rewrite (page_total_book rt w s Hv'),
    (total_book_view_value rt w msgs df_full Hload).
  unfold total_book_data. rewrite He. reflexivity.
Qed.

Lemma page_without_data_witness :
  snd (page missing_file_rt default_widgets [("pm_view", "total_book")]) =
    ([EMarkdown "<h1 style='text-align: center;'>Portfolio Management</h1>";
      EWrite "---";
      ESubheader "Total Book View";
      EMsg (StError "Error: Data file not found at './data/loan_data.parquet'");
      EMsg (StError "Ensure the 'data' folder exists in your main app directory and contains 'loan_data.parquet'.");
      EMsg (StError "You may need to run the `create_data.py` script first.");
      EMsg (StWarning "Could not display Portfolio data as the data file failed to load.");
      EButton "Back to Portfolio Overview" "back_to_main_pm_btn" "main"],
     Ok tt).
Proof.
  apply (page_without_data missing_file_rt default_widgets
           [("pm_view", "total_book")]
           [StError "Error: Data file not found at './data/loan_data.parquet'";
            StError "Ensure the 'data' folder exists in your main app directory and contains 'loan_data.parquet'.";
            StError "You may need to run the `create_data.py` script first."]
           empty_frame); reflexivity.
Defined.

(** X23.  On a loaded table that has the columns of the Loan Record with
    their dtypes, the total-book view runs to its end whatever the user
    selects: no exception escapes, the back button is offered, and when
    the table has rows a data table is shown.  (The widgets return choices
    among what they offer, and the Period parser reads back the month
    strings of the selector.) *)
Theorem total_book_page_returns (rt : Runtime) (w : Widgets) (s : SessionState)
  (msgs : list UiMsg) (df_full : DataFrame) (ts : list Timestamp) :
  session_get s "pm_view" = Some "total_book" ->
  load_loan_data (rt_env rt) = (msgs, Ok df_full) ->
  wf_frame df_full -> loan_schema df_full ->
  getitem df_full "Date" = Ok (SDatetime ts) ->
  widgets_ok w ->
  reads_months rt (sorted_reverse (unique_periods (map to_period ts))) ->
  snd (snd (page rt w s)) = Ok tt
  /\ buttons (fst (snd (page rt w s))) = [back_button]
  /\ (df_empty df_full = false -> shows_table (fst (snd (page rt w s)))).
Proof.
  intros Hv Hload Hwf Hs Hget Hw Hread.
  assert (Hv' : session_get (init_view s) "pm_view" = Some "total_book")
    by (rewrite init_view_get, Hv; reflexivity).
  destruct (total_book_data_returns rt w df_full ts Hwf Hs Hget Hw Hread)
    as (out & Hdata & Htable).
  assert (Hok : snd (snd (page rt w s)) = Ok tt).
  { rewrite (page_total_book rt w s Hv'),
      (total_book_view_value rt w msgs df_full Hload), Hdata. reflexivity. }
  split; [exact Hok|]. split.
  - rewrite (total_book_view_buttons rt w s Hv'), Hok. reflexivity.
  - intros Hne. destruct (Htable Hne) as (d & Hd). exists d.
    rewrite (page_total_book rt w s Hv'),
      (total_book_view_value rt w msgs df_full Hload), Hdata.
    cbn [fst snd]. right. right. right.
    apply in_or_app. right. apply in_or_app. left. exact Hd.
Qed.

Lemma total_book_page_returns_witness :
  snd (snd (page sample_rt default_widgets [("pm_view", "total_book")])) = Ok tt
  /\ buttons (fst (snd (page sample_rt default_widgets [("pm_view", "total_book")])))
     = [back_button]
  /\ (df_empty sample_full = false ->
      shows_table (fst (snd (page sample_rt default_widgets
                               [("pm_view", "total_book")])))).
Proof.
  apply (total_book_page_returns sample_rt default_widgets
           [("pm_view", "total_book")] [] sample_full
           [mkTimestamp 2025 1 31; mkTimestamp 2025 2 28;
            mkTimestamp 2025 2 28; mkTimestamp 2025 2 28]).
  - reflexivity.
  - reflexivity.
  - apply wf_frameb_sound. reflexivity.
  - unfold loan_schema. repeat split; eexists; reflexivity.
  - reflexivity.
  - exact default_widgets_ok.
  - intros p Hp. vm_compute in Hp.
    destruct Hp as [<-|[<-|[]]]; reflexivity.
Defined.

(** X24.  The summary reads its columns outside any [try]: on a table with
    rows that has a numeric Balance column but no RWA column, the
    total-book view stops with [KeyError: 'RWA'] right after the heading
    of the summary, and the run offers no button, the back button
    included. *)
Theorem missing_rwa_stops_page (rt : Runtime) (w : Widgets) (s : SessionState)
  (msgs : list UiMsg) (df_full : DataFrame) (ts : list Timestamp) (bal : list Q) :
  session_get s "pm_view" = Some "total_book" ->
  load_loan_data (rt_env rt) = (msgs, Ok df_full) ->
  wf_frame df_full -> df_empty df_full = false ->
  getitem df_full "Date" = Ok (SDatetime ts) ->
  getitem df_full "Balance" = Ok (SFloat bal) ->
  has_column df_full "RWA" = false ->
  widgets_ok w ->
  reads_months rt (sorted_reverse (unique_periods (map to_period ts))) ->
  snd (page rt w s) =
    ((EMarkdown "<h1 style='text-align: center;'>Portfolio Management</h1>"
      :: EWrite "---"
      :: ESubheader "Total Book View"
      :: map EMsg msgs
      ++ [ESidebarHeader "Filters";
          ESelectbox "Select Month"
            (month_display_list
               (sorted_reverse (unique_periods (map to_period ts))));
          EMarkdown "#### Monthly Snapshot Summary"])%list,
     Raise (KeyError "RWA"))
  /\ buttons (fst (snd (page rt w s))) = [].
Proof.
  intros Hv Hload Hwf Hne Hget Hbal Hrwa Hw Hread.
  assert (Hv' : session_get (init_view s) "pm_view" = Some "total_book")
    by (rewrite init_view_get, Hv; reflexivity).
  destruct (total_book_data_month rt w df_full ts Hwf Hne Hget Hw Hread)
    as (text & mask & Hdfm & Hdata).
  assert (Hsum : summary_section (loc df_full mask) text
                 = ([EMarkdown "#### Monthly Snapshot Summary"],
                    Raise (KeyError "RWA"))).
  { unfold summary_section, monthly_summary, summary_of.
    rewrite Hdfm. cbn [negb].
    rewrite (getitem_loc_Ok df_full mask "Balance" _ Hbal).
    rewrite (getitem_loc df_full mask "RWA"),
      (no_column_getitem df_full "RWA" Hrwa).
    reflexivity. }
  assert (Hpage : snd (page rt w s) =
    ((EMarkdown "<h1 style='text-align: center;'>Portfolio Management</h1>"
      :: EWrite "---"
      :: ESubheader "Total Book View"
      :: map EMsg msgs
      ++ [ESidebarHeader "Filters";
          ESelectbox "Select Month"
            (month_display_list
               (sorted_reverse (unique_periods (map to_period ts))));
          EMarkdown "#### Monthly Snapshot Summary"])%list,
     Raise (KeyError "RWA"))).
  { rewrite (page_total_book rt w s Hv'),
      (total_book_view_value rt w msgs df_full Hload), Hdata.
    rewrite !pbind_emit, Hsum. cbn [pbind fst snd app].
    reflexivity. }
  split; [exact Hpage|].
  rewrite (total_book_view_buttons rt w s Hv'), Hpage. reflexivity.
Qed.

Lemma missing_rwa_stops_page_witness :
  snd (page no_rwa_rt default_widgets [("pm_view", "total_book")]) =
    ([EMarkdown "<h1 style='text-align: center;'>Portfolio Management</h1>";
      EWrite "---";
      ESubheader "Total Book View";
      ESidebarHeader "Filters";
      ESelectbox "Select Month" ["2025-01"];
      EMarkdown "#### Monthly Snapshot Summary"],
     Raise (KeyError "RWA"))
  /\ buttons (fst (snd (page no_rwa_rt default_widgets
                          [("pm_view", "total_book")]))) = [].
Proof.
  apply (missing_rwa_stops_page no_rwa_rt default_widgets
           [("pm_view", "total_book")] [] no_rwa_frame
           [mkTimestamp 2025 1 31] [100 # 1]).
  - reflexivity.
  - reflexivity.
  - apply wf_frameb_sound. reflexivity.
  - reflexivity.
  - reflexivity.
  - reflexivity.
  - reflexivity.
  - exact default_widgets_ok.
  - intros p Hp. vm_compute in Hp.
    destruct Hp as [<-|[]]; reflexivity.
Defined.
